(** * src2asciidoc: documentation generator of qutebrowser

    A shallow embedding of [scripts/dev/src2asciidoc.py]: the block patcher
    ([_format_block]), the manpage option formatter ([_format_action] and
    friends), the settings backend notices, the command reference generator
    and the usage formatter's temporary patching of argparse objects. *)

From Stdlib Require Import ZArith NArith Ascii String List Permutation Lia.
From Stdlib Require Import Sorting.Sorted.
From stdpp Require Import base option list gmap.

Local Open Scope N_scope.
Local Open Scope list_scope.

(** ** Python text

    A Python [str] is a sequence of code points.  Literals of the script are
    written as Rocq strings and converted with [py]. *)

Abbreviation pystr := (list N).

Definition py (s : string) : pystr := map N_of_ascii (list_ascii_of_string s).

(** [str.isspace] on one code point: the code points Python strips. *)
Definition isspace (c : N) : bool :=
  ((9 <=? c) && (c <=? 13)) || ((28 <=? c) && (c <=? 32)) ||
  (c =? 133) || (c =? 160) || (c =? 5760) ||
  ((8192 <=? c) && (c <=? 8202)) ||
  (c =? 8232) || (c =? 8233) || (c =? 8239) || (c =? 8287) || (c =? 12288).

Fixpoint lstrip (s : pystr) : pystr :=
  match s with
  | c :: s' => if isspace c then lstrip s' else s
  | [] => []
  end.

Definition rstrip (s : pystr) : pystr := rev (lstrip (rev s)).

Definition strip (s : pystr) : pystr := rstrip (lstrip s).

(** [sep.join(parts)] *)
Fixpoint join (sep : pystr) (parts : list pystr) : pystr :=
  match parts with
  | [] => []
  | [p] => p
  | p :: ps => p ++ sep ++ join sep ps
  end.

(** Iterating over a [str] yields its one-character strings. *)
Definition chars (s : pystr) : list pystr := map (fun c => [c]) s.

Definition newline : N := 10.

(** Iterating over a text file opened with [newline='\n']: the lines, each
    with its terminator, the last one possibly without. *)
Fixpoint readlines (s : pystr) : list pystr :=
  match s with
  | [] => []
  | c :: s' =>
      if N.eqb c newline then [c] :: readlines s'
      else match readlines s' with
           | [] => [[c]]
           | l :: ls => (c :: l) :: ls
           end
  end.

(** A line that ends in its terminator and has no other one. *)
Definition terminated (l : pystr) : Prop :=
  exists body, l = body ++ [newline] /\ ~ In newline body.

(** A literal line of text, with its terminator. *)
Definition ln (s : string) : pystr := py s ++ [newline].

(** The line boundaries of [str.splitlines]. *)
Definition is_linebreak (c : N) : bool :=
  ((10 <=? c) && (c <=? 13)) || ((28 <=? c) && (c <=? 30)) ||
  (c =? 133) || (c =? 8232) || (c =? 8233).

(** [s.splitlines()[0]] for a non-empty [s]: the text before the first line
    boundary. *)
Fixpoint first_line (s : pystr) : pystr :=
  match s with
  | [] => []
  | c :: s' => if is_linebreak c then [] else c :: first_line s'
  end.

(** The double quote character. *)
Definition dq : pystr := [34].

(** Comparison of [str]: lexicographic on code points. *)
Fixpoint str_ltb (a b : pystr) : bool :=
  match a, b with
  | [], [] => false
  | [], _ :: _ => true
  | _ :: _, [] => false
  | x :: a', y :: b' => (x <? y) || ((x =? y) && str_ltb a' b')
  end.

Definition str_leb (a b : pystr) : bool := negb (str_ltb b a).

(** [sorted(d.items())] and [list.sort()] on pairs whose first components are
    pairwise different strings (the keys of a dict): the order is the one
    of the keys, so the second components are never compared.  The sort is
    stable. *)
Fixpoint insert_by_key {A} (x : pystr * A) (l : list (pystr * A))
    : list (pystr * A) :=
  match l with
  | [] => [x]
  | y :: l' =>
      if str_leb (fst x) (fst y) then x :: l else y :: insert_by_key x l'
  end.

Definition sorted_items {A} (l : list (pystr * A)) : list (pystr * A) :=
  fold_right insert_by_key [] l.

(** The order of two items by their keys, weak and strict. *)
Definition key_le {A} (x y : pystr * A) : Prop :=
  str_leb (fst x) (fst y) = true.

Definition key_lt {A} (x y : pystr * A) : Prop :=
  str_ltb (fst x) (fst y) = true.

(** Builtins whose value depends on the Unicode database are kept abstract:
    [str.upper] and [repr] of a [str].  [str.upper] is idempotent. *)
Class PyBuiltins := {
  str_upper : pystr -> pystr;
  str_repr : pystr -> pystr;
  str_upper_idem : forall s, str_upper (str_upper s) = str_upper s
}.

(** An instance on ASCII text, used to run the model on examples. *)
Definition ascii_upper_char (c : N) : N :=
  if (97 <=? c) && (c <=? 122) then c - 32 else c.

Definition ascii_upper (s : pystr) : pystr := map ascii_upper_char s.

Definition ascii_repr (s : pystr) : pystr := py "'" ++ s ++ py "'".

(** ** Exceptions and the effect monad *)

Inductive exn :=
| Exception (msg : pystr)
| KeyError (msg : pystr)
| ValueError (msg : pystr)
| TypeError (msg : pystr)
| AttributeError (msg : pystr)
| IndexError (msg : pystr)
| FileNotFoundError (path : pystr).

Inductive result (A : Type) :=
| Ok (a : A)
| Raise (e : exn).
Arguments Ok {A} a.
Arguments Raise {A} e.

Definition rbind {A B} (r : result A) (k : A -> result B) : result B :=
  match r with
  | Ok a => k a
  | Raise e => Raise e
  end.

(** State and exceptions: a computation maps a state to an outcome and the
    state it leaves behind, also when it raises. *)
Definition M (S A : Type) : Type := S -> result A * S.

Definition ret {S A} (a : A) : M S A := fun s => (Ok a, s).

Definition raise {S A} (e : exn) : M S A := fun s => (Raise e, s).

Definition bind {S A B} (m : M S A) (k : A -> M S B) : M S B :=
  fun s => match m s with
           | (Ok a, s') => k a s'
           | (Raise e, s') => (Raise e, s')
           end.

Definition lift {S A} (r : result A) : M S A := fun s => (r, s).

(** [try: body / except: handler / else: orelse] *)
Definition try_except_else {S A B} (body : M S A) (handler : exn -> M S B)
    (orelse : A -> M S B) : M S B :=
  fun s => match body s with
           | (Ok a, s') => orelse a s'
           | (Raise e, s') => handler e s'
           end.

Declare Scope monad_scope.
Delimit Scope monad_scope with monad.
Notation "x <- m ;; k" := (bind m (fun x => k))
  (at level 100, m at next level, right associativity) : monad_scope.
Notation "m ;; k" := (bind m (fun _ => k))
  (at level 100, right associativity) : monad_scope.
Local Open Scope monad_scope.

(** Monadic [for x in l: body x]. *)
Fixpoint for_each {S A} (l : list A) (body : A -> M S unit) : M S unit :=
  match l with
  | [] => ret tt
  | x :: l' => body x ;; for_each l' body
  end.

(** ** The file system *)

Abbreviation FS := (gmap pystr pystr).

Module BlockPatcher.

Section Patcher.
Context `{PyBuiltins}.

(** [tempfile.mkstemp()]: the name [tmpname] is the one the operating system
    hands out; the file is created empty. *)
Definition mkstemp (tmpname : pystr) : M FS pystr :=
  fun fs => (Ok tmpname, <[tmpname := []]> fs).

(** [_open_file(name, mode='r')] followed by reading the whole text *)
Definition open_read (name : pystr) : M FS pystr :=
  fun fs => match fs !! name with
            | Some content => (Ok content, fs)
            | None => (Raise (FileNotFoundError name), fs)
            end.

(** [_open_file(name, mode='w')], the writes and the close *)
Definition write_file (name : pystr) (content : pystr) : M FS unit :=
  fun fs => (Ok tt, <[name := content]> fs).

Definition os_remove (name : pystr) : M FS unit :=
  fun fs => match fs !! name with
            | Some _ => (Ok tt, delete name fs)
            | None => (Raise (FileNotFoundError name), fs)
            end.

Definition shutil_move (src dst : pystr) : M FS unit :=
  fun fs => match fs !! src with
            | Some content => (Ok tt, <[dst := content]> (delete src fs))
            | None => (Raise (FileNotFoundError src), fs)
            end.

Definition start_marker (what : pystr) : pystr :=
  py "// QUTE_" ++ what ++ py "_START".

Definition end_marker (what : pystr) : pystr :=
  py "// QUTE_" ++ what ++ py "_END".

(** The loop state: what has been written to [temp] and the two flags. *)
Record scan := { temp : pystr; found_start : bool; found_end : bool }.

Definition scan0 : scan :=
  {| temp := []; found_start := false; found_end := false |}.

(** One iteration of [for line in infile]; [what] is already upper-cased. *)
Definition scan_line (what : pystr) (data : list pystr) (st : scan)
    (line : pystr) : scan :=
  if decide (strip line = start_marker what) then
    {| temp := temp st ++ line ++ join [] data;
       found_start := true; found_end := found_end st |}
  else if decide (strip line = end_marker (str_upper what)) then
    {| temp := temp st ++ line;
       found_start := found_start st; found_end := true |}
  else if negb (found_start st) || found_end st then
    {| temp := temp st ++ line;
       found_start := found_start st; found_end := found_end st |}
  else st.

Definition scan_file (what : pystr) (data : list pystr) (content : pystr)
    : scan :=
  fold_left (scan_line what data) (readlines content) scan0.

(** Whether the loop copies an ordinary line in this state. *)
Definition copying (st : scan) : bool := negb (found_start st) || found_end st.

(** A line that is neither marker of block [W]. *)
Definition plain (W line : pystr) : Prop :=
  strip line <> start_marker W /\ strip line <> end_marker W.

(** Some line of the text is the marker, up to surrounding white space. *)
Definition has_line (marker content : pystr) : bool :=
  existsb (fun l => bool_decide (strip l = marker)) (readlines content).

Definition marker_missing (marker filename : pystr) : exn :=
  Exception (py "Marker '" ++ marker ++ py "' not found in '" ++ filename
             ++ py "'!").

Definition _format_block (tmpname : pystr) (filename what : pystr)
    (data : list pystr) : M FS unit :=
  let what := str_upper what in
  tmpname <- mkstemp tmpname ;;
  try_except_else
    (content <- open_read filename ;;
     let st := scan_file what data content in
     write_file tmpname (temp st) ;;
     if negb (found_start st) then
       raise (marker_missing (start_marker what) filename)
     else if negb (found_end st) then
       raise (marker_missing (end_marker what) filename)
     else ret tt)
    (fun e => os_remove tmpname ;; raise e)
    (fun _ => os_remove filename ;; shutil_move tmpname filename).

End Patcher.
End BlockPatcher.

(** ** The manpage options: argparse actions *)

Module Manpage.

(** [action.metavar]: a string or a tuple of strings. *)
Inductive metavar_t :=
| MetavarStr (s : pystr)
| MetavarTuple (t : list pystr).

(** [action.nargs]: an integer or one of argparse's strings. *)
Inductive nargs_t :=
| NargsInt (n : Z)
| NargsStr (s : pystr).

#[global] Instance metavar_eq_dec : EqDecision metavar_t.
Proof. solve_decision. Defined.

#[global] Instance nargs_eq_dec : EqDecision nargs_t.
Proof. solve_decision. Defined.

(** The attributes of an [argparse.Action] the script reads.  The choices
    are kept as their [str()]. *)
Record Action := {
  dest : pystr;
  option_strings : list pystr;
  metavar : option metavar_t;
  choices : option (list pystr);
  nargs : option nargs_t;
  help : option pystr
}.

(** [argparse.SUPPRESS] *)
Definition SUPPRESS : pystr := py "==SUPPRESS==".

(** ['{}'.format(x)] for [x] a string or [None] *)
Definition format_opt (o : option pystr) : pystr :=
  match o with
  | Some s => s
  | None => py "None"
  end.

(** ["'{}'".format(e)] *)
Definition quoted (e : pystr) : pystr := py "'" ++ e ++ py "'".

(** ['*{}*'.format(s)] *)
Definition starred (s : pystr) : pystr := py "*" ++ s ++ py "*".

(** [[x] * n]: a list can only be multiplied by an integer. *)
Definition list_times (x : pystr) (n : nargs_t) : result (list pystr) :=
  match n with
  | NargsInt k => Ok (repeat x (Z.to_nat k))
  | NargsStr _ =>
      Raise (TypeError
               (py "can't multiply sequence by non-int of type 'str'"))
  end.

Section Formatting.
Context `{PyBuiltins}.

Definition _get_action_metavar (action : Action) (nargs : nargs_t)
    : result pystr :=
  match metavar action with
  | Some mv =>
      rbind (match mv with
             | MetavarStr s => list_times s nargs
             | MetavarTuple t => Ok t
             end)
            (fun elems => Ok (join (py " ") (map quoted elems)))
  | None =>
      match choices action with
      | Some cs => Ok (py "'{" ++ join (py ",") cs ++ py "}'")
      | None => Ok (quoted (str_upper (dest action)))
      end
  end.

Definition nargs_is (action : Action) (s : string) : bool :=
  bool_decide (nargs action = Some (NargsStr (py s))).

Definition _format_action_args (action : Action) : result pystr :=
  match nargs action with
  | None => _get_action_metavar action (NargsInt 1)
  | Some n =>
      if nargs_is action "?" then
        rbind (_get_action_metavar action (NargsInt 1))
              (fun mv => Ok (py "[" ++ mv ++ py "]"))
      else if nargs_is action "*" then
        rbind (_get_action_metavar action (NargsInt 1))
              (fun mv => Ok (py "[" ++ mv ++ py " [" ++ mv ++ py " ...]]"))
      else if nargs_is action "+" then
        rbind (_get_action_metavar action (NargsInt 1))
              (fun mv => Ok (mv ++ py " [" ++ mv ++ py " ...]"))
      else if nargs_is action "..." then Ok (py "...")
      else _get_action_metavar action n
  end.

Definition _format_action (action : Action) : result (option pystr) :=
  if bool_decide (help action = Some SUPPRESS) then Ok None
  else
    rbind
      (match option_strings action with
       | [] =>
           rbind (_get_action_metavar action (NargsInt 1))
                 (fun mv => Ok (py "*" ++ mv ++ py "*::"))
       | _ :: _ =>
           rbind
             (if bool_decide (nargs action = Some (NargsInt 0)) then
                Ok (map starred (option_strings action))
              else
                rbind (_format_action_args action)
                      (fun args_string =>
                         Ok (map (fun opt => starred opt ++ py " "
                                             ++ args_string)
                                 (option_strings action))))
             (fun parts => Ok (join (py ", ") parts ++ py "::"))
       end)
      (fun invocation =>
         Ok (Some (invocation ++ [newline] ++ py "    "
                   ++ format_opt (help action) ++ [newline]))).

(** An argument group of the parser and the parser itself. *)
Record Group := {
  title : option pystr;
  description : option pystr;
  _group_actions : list Action
}.

Record Parser := {
  _action_groups : list Group;
  epilog : option pystr
}.

(** The inner loop of [regenerate_manpage]: the lines of one group. *)
Fixpoint action_lines (actions : list Action) (groupdata : list pystr)
    : result (list pystr) :=
  match actions with
  | [] => Ok groupdata
  | action :: rest =>
      rbind (_format_action action)
            (fun action_data =>
               match action_data with
               | Some d => action_lines rest (groupdata ++ [d])
               | None => action_lines rest groupdata
               end)
  end.

Definition group_text (group : Group) : result pystr :=
  let groupdata := [py "=== " ++ format_opt (title group)] in
  let groupdata :=
    match description group with
    | Some d => groupdata ++ [d]
    | None => groupdata
    end in
  rbind (action_lines (_group_actions group) groupdata)
        (fun groupdata => Ok (join [newline] groupdata)).

Fixpoint group_texts (gs : list Group) (groups : list pystr)
    : result (list pystr) :=
  match gs with
  | [] => Ok groups
  | g :: rest =>
      rbind (group_text g) (fun t => group_texts rest (groups ++ [t]))
  end.

Definition manpage_options (parser : Parser) : result pystr :=
  rbind (group_texts (_action_groups parser) [])
        (fun groups =>
           let options := join [newline] groups in
           Ok (match epilog parser with
               | Some e => options ++ e
               | None => options
               end)).

(** [regenerate_manpage(filename)]; [parser] is what
    [qutebrowser.get_argparser()] returns. *)
Definition regenerate_manpage (parser : Parser) (tmpname filename : pystr)
    : M FS unit :=
  options <- lift (manpage_options parser) ;;
  BlockPatcher._format_block tmpname filename (py "options") (chars options).

End Formatting.
End Manpage.

(** ** The settings reference: backend notices *)

Module Settings.

(** [usertypes.Backend] *)
Inductive Backend := QtWebKit | QtWebEngine.

#[global] Instance Backend_eq_dec : EqDecision Backend.
Proof. solve_decision. Defined.

(** A value of the [raw_backends] mapping: [True], [False], or anything
    else, kept as its [str()]. *)
Inductive conditional :=
| CondTrue
| CondFalse
| CondOther (text : pystr).

(** The attributes of a setting that [_generate_setting_backend_info]
    reads; [raw_backends] is a dict, kept as its items. *)
Record Option := {
  raw_backends : option (list (pystr * conditional));
  backends : list Backend
}.

(** [repr] of a list of backends, as [enum.Enum] prints its members. *)
Definition Backend_repr (b : Backend) : pystr :=
  match b with
  | QtWebKit => py "<Backend.QtWebKit: 1>"
  | QtWebEngine => py "<Backend.QtWebEngine: 2>"
  end.

Definition backends_repr (bs : list Backend) : pystr :=
  py "[" ++ join (py ", ") (map Backend_repr bs) ++ py "]".

(** [f.write(text)] on the open file [f]: the state is the text written. *)
Definition write (text : pystr) : M pystr unit :=
  fun out => (Ok tt, out ++ text).

Definition unavailable_notice (name : pystr) : pystr :=
  [newline] ++ py "On " ++ name ++ ln ", this setting is unavailable.".

Definition requires_notice (name version : pystr) : pystr :=
  [newline] ++ py "On " ++ name ++ py ", this setting requires " ++ version
  ++ ln " or newer.".

Definition webkit_only_notice : pystr :=
  [newline] ++ ln "This setting is only available with the QtWebKit backend.".

Definition webengine_only_notice : pystr :=
  [newline]
  ++ ln "This setting is only available with the QtWebEngine backend.".

Definition _generate_setting_backend_info (opt : Option) : M pystr unit :=
  let all_backends := [QtWebKit; QtWebEngine] in
  match raw_backends opt with
  | Some raw =>
      for_each (sorted_items raw)
        (fun item =>
           match snd item with
           | CondTrue => ret tt
           | CondFalse => write (unavailable_notice (fst item))
           | CondOther v => write (requires_notice (fst item) v)
           end)
  | None =>
      if decide (backends opt = all_backends) then ret tt
      else if decide (backends opt = [QtWebKit]) then
        write webkit_only_notice
      else if decide (backends opt = [QtWebEngine]) then
        write webengine_only_notice
      else
        raise (ValueError (py "Invalid value " ++ backends_repr (backends opt)
                           ++ py " for opt.backends"))
  end.

(** The notice the specification gives for one entry of the override
    mapping. *)
Definition override_notice (item : pystr * conditional) : pystr :=
  match snd item with
  | CondTrue => []
  | CondFalse => unavailable_notice (fst item)
  | CondOther v => requires_notice (fst item) v
  end.

End Settings.

(** ** argparse objects and the usage formatter *)

Module Usage.

(** References to Python objects: argparse actions and parsers are shared
    and mutated, so they live in a heap and are named by their identity. *)
Abbreviation ref := positive.

Inductive formatter_class_t :=
| HelpFormatter
| UsageFormatter
| OtherFormatter (name : pystr).

(** The heap: the attributes of every action object and the
    [formatter_class] attribute of every parser object. *)
Record Heap := {
  actions : ref -> Manpage.Action;
  formatter_class : ref -> formatter_class_t
}.

Definition with_option_strings (a : Manpage.Action) (v : list pystr)
    : Manpage.Action :=
  {| Manpage.dest := Manpage.dest a;
     Manpage.option_strings := v;
     Manpage.metavar := Manpage.metavar a;
     Manpage.choices := Manpage.choices a;
     Manpage.nargs := Manpage.nargs a;
     Manpage.help := Manpage.help a |}.

(** [action.option_strings] *)
Definition get_option_strings (action : ref) : M Heap (list pystr) :=
  fun h => (Ok (Manpage.option_strings (actions h action)), h).

(** [action.option_strings = v] *)
Definition set_option_strings (action : ref) (v : list pystr) : M Heap unit :=
  fun h =>
    (Ok tt,
     {| actions := fun r => if decide (r = action)
                            then with_option_strings (actions h r) v
                            else actions h r;
        formatter_class := formatter_class h |}).

(** [parser.formatter_class] and its assignment *)
Definition get_formatter_class (parser : ref) : M Heap formatter_class_t :=
  fun h => (Ok (formatter_class h parser), h).

Definition set_formatter_class (parser : ref) (c : formatter_class_t)
    : M Heap unit :=
  fun h =>
    (Ok tt,
     {| actions := actions h;
        formatter_class := fun r => if decide (r = parser) then c
                                    else formatter_class h r |}).

(** The argparse library: the method of [HelpFormatter] that the usage
    formatter overrides and calls through [super()], which reads the actions
    and the mutually exclusive groups, and [ArgumentParser.format_usage]. *)
Class Argparse := {
  MutexGroup : Type;
  HelpFormatter_format_actions_usage :
    list ref -> list MutexGroup -> Heap -> result pystr;
  format_usage : ref -> M Heap pystr
}.

Section Formatter.
Context `{Argparse}.

(** The first loop of [_format_actions_usage]: save and patch. *)
Fixpoint patch_option_strings (todo : list ref)
    (old_option_strings : gmap ref (list pystr))
    : M Heap (gmap ref (list pystr)) :=
  match todo with
  | [] => ret old_option_strings
  | action :: rest =>
      strings <- get_option_strings action ;;
      let old_option_strings := <[action := strings]> old_option_strings in
      set_option_strings action (map Manpage.starred strings) ;;
      patch_option_strings rest old_option_strings
  end.

(** The second loop: undo the patching. *)
Fixpoint restore_option_strings (todo : list ref)
    (old_option_strings : gmap ref (list pystr)) : M Heap unit :=
  match todo with
  | [] => ret tt
  | action :: rest =>
      match old_option_strings !! action with
      | Some strings =>
          set_option_strings action strings ;;
          restore_option_strings rest old_option_strings
      | None => raise (KeyError (py "action"))
      end
  end.

(** [UsageFormatter._format_actions_usage(self, actions, groups)] *)
Definition _format_actions_usage (acts : list ref) (groups : list MutexGroup)
    : M Heap pystr :=
  old_option_strings <- patch_option_strings acts ∅ ;;
  r <- (fun h => (HelpFormatter_format_actions_usage acts groups h, h)) ;;
  restore_option_strings acts old_option_strings ;;
  ret r.

(** An action that has option strings. *)
Definition flagged (h : Heap) (a : ref) : Prop :=
  Manpage.option_strings (actions h a) <> [].

(** The action as the first loop of [_format_actions_usage] leaves it. *)
Definition patched_action (h : Heap) (a : ref) : Manpage.Action :=
  with_option_strings (actions h a)
    (map Manpage.starred (Manpage.option_strings (actions h a))).

End Formatter.
End Usage.

(** ** The command reference *)

Module Commands.
Import Usage.

(** [usertypes.KeyMode]: the normal mode and the others. *)
Inductive KeyMode :=
| normal
| other_mode (name : pystr).

#[global] Instance KeyMode_eq_dec : EqDecision KeyMode.
Proof. solve_decision. Defined.

(** A parameter of the handler's signature; [is_count_value] is the value of
    [cmd.get_arg_info(param).value in cmd.COUNT_COMMAND_VALUES]. *)
Record Param := {
  param_name : pystr;
  is_count_value : bool
}.

(** A registered command.  [deprecated] is the truth value of the
    attribute; [handler_doc] is [inspect.getdoc(cmd.handler)];
    [short_desc], [long_desc] and [arg_descs] are what
    [docutils.DocstringParser(cmd.handler)] holds; [handler_params] are the
    parameters of [inspect.signature(cmd.handler)]; [parser] is the
    command's parser object. *)
Record Command := {
  name : pystr;
  deprecated : bool;
  debug : bool;
  modes : list KeyMode;
  pos_args : list (pystr * pystr);
  opt_args : list (pystr * (pystr * pystr));
  maxsplit : option Z;
  no_cmd_split : bool;
  no_replace_variables : bool;
  parser : ref;
  handler_doc : option pystr;
  handler_params : list Param;
  short_desc : pystr;
  long_desc : pystr;
  arg_descs : gmap pystr pystr
}.

Definition FILE_HEADER : pystr :=
  ln "// DO NOT EDIT THIS FILE DIRECTLY!"
  ++ ln "// It is autogenerated by running:"
  ++ ln "//   $ python3 scripts/dev/src2asciidoc.py"
  ++ ln "// vim: readonly:"
  ++ [newline].

Section Generator.
Context `{PyBuiltins} `{Argparse}.

Definition _get_cmd_syntax (_name : pystr) (cmd : Command) : M Heap pystr :=
  old_fmt_class <- get_formatter_class (parser cmd) ;;
  set_formatter_class (parser cmd) UsageFormatter ;;
  usage <- format_usage (parser cmd) ;;
  let usage := rstrip usage in
  set_formatter_class (parser cmd) old_fmt_class ;;
  ret usage.

Definition table_rule : pystr := py "|==============".

Definition table_options : pystr :=
  py "[options=" ++ dq ++ py "header" ++ dq ++ py ",width=" ++ dq ++ py "75%"
  ++ dq ++ py ",cols=" ++ dq ++ py "25%,75%" ++ dq ++ py "]".

(** The first line of the handler's docstring. *)
Definition doc_first_line (cmd : Command) : result pystr :=
  match handler_doc cmd with
  | None =>
      Raise (AttributeError
               (py "'NoneType' object has no attribute 'splitlines'"))
  | Some [] => Raise (IndexError (py "list index out of range"))
  | Some doc => Ok (first_line doc)
  end.

(** ['|<<{name},{name}>>|{desc}'.format(name=name, desc=desc)] *)
Definition quickref_row (name desc : pystr) : pystr :=
  py "|<<" ++ name ++ py "," ++ name ++ py ">>|" ++ desc.

Fixpoint quickref_rows (cmds : list (pystr * Command)) (out : list pystr)
    : result (list pystr) :=
  match cmds with
  | [] => Ok out
  | (name, cmd) :: rest =>
      rbind (doc_first_line cmd)
            (fun desc => quickref_rows rest (out ++ [quickref_row name desc]))
  end.

Definition _get_command_quickref (cmds : list (pystr * Command))
    : result pystr :=
  let out := [table_options; table_rule; py "|Command|Description"] in
  rbind (quickref_rows cmds out)
        (fun out => Ok (join [newline] (out ++ [table_rule]))).

Definition no_description (arg cmd_name : pystr) : exn :=
  KeyError (py "No description for arg " ++ str_repr arg
            ++ py " of command '" ++ cmd_name ++ py "'!").

Definition no_count_description (param cmd_name : pystr) : exn :=
  KeyError (py "No description for count arg " ++ str_repr param
            ++ py " of command " ++ str_repr cmd_name ++ py "!").

(** The loop over [cmd.pos_args]. *)
Fixpoint pos_arg_lines (cmd : Command) (args : list (pystr * pystr))
    : result (list pystr) :=
  match args with
  | [] => Ok []
  | (arg, name) :: rest =>
      match arg_descs cmd !! arg with
      | Some desc =>
          rbind (pos_arg_lines cmd rest)
                (fun lines =>
                   Ok ((py "* +'" ++ name ++ py "'+: " ++ desc) :: lines))
      | None => Raise (no_description arg (Commands.name cmd))
      end
  end.

(** The loop over [cmd.opt_args.items()]. *)
Fixpoint opt_arg_lines (cmd : Command)
    (args : list (pystr * (pystr * pystr))) : result (list pystr) :=
  match args with
  | [] => Ok []
  | (arg, (long_flag, short_flag)) :: rest =>
      match arg_descs cmd !! arg with
      | Some desc =>
          rbind (opt_arg_lines cmd rest)
                (fun lines =>
                   Ok ((py "* +*" ++ short_flag ++ py "*+, +*" ++ long_flag
                        ++ py "*+: " ++ desc) :: lines))
      | None => Raise (no_description arg (Commands.name cmd))
      end
  end.

(** The strings [_get_command_doc_args] yields, as [list()] collects them. *)
Definition _get_command_doc_args (cmd : Command) : result (list pystr) :=
  rbind (match pos_args cmd with
         | [] => Ok []
         | _ :: _ =>
             rbind (pos_arg_lines cmd (pos_args cmd))
                   (fun lines =>
                      Ok ([[]; py "==== positional arguments"] ++ lines))
         end)
        (fun pos =>
           rbind (match opt_args cmd with
                  | [] => Ok []
                  | _ :: _ =>
                      rbind (opt_arg_lines cmd (opt_args cmd))
                            (fun lines =>
                               Ok ([[]; py "==== optional arguments"]
                                   ++ lines))
                  end)
                 (fun opt => Ok (pos ++ opt))).

(** The loop of [_get_command_doc_count] over the handler's parameters. *)
Fixpoint count_lines (cmd : Command) (params : list Param)
    : result (list pystr) :=
  match params with
  | [] => Ok []
  | param :: rest =>
      if is_count_value param then
        rbind (match arg_descs cmd !! param_name param with
               | Some desc => Ok desc
               | None =>
                   match arg_descs cmd !! py "count" with
                   | Some desc => Ok desc
                   | None =>
                       Raise (no_count_description (param_name param)
                                (Commands.name cmd))
                   end
               end)
              (fun desc =>
                 rbind (count_lines cmd rest)
                       (fun lines => Ok ([[]; py "==== count"; desc] ++ lines)))
      else count_lines cmd rest
  end.

Definition _get_command_doc_count (cmd : Command) : result (list pystr) :=
  count_lines cmd (handler_params cmd).

Definition is_some {A} (o : option A) : bool :=
  match o with Some _ => true | None => false end.

Definition not_spawn (cmd : Command) : bool :=
  negb (bool_decide (Commands.name cmd = py "spawn")).

Definition _get_command_doc_notes (cmd : Command) : list pystr :=
  if is_some (maxsplit cmd) || no_cmd_split cmd
     || (no_replace_variables cmd && not_spawn cmd)
  then
    [[]; py "==== note"]
    ++ (if is_some (maxsplit cmd)
        then [py "* This command does not split arguments after the last argument and handles quotes literally."]
        else [])
    ++ (if no_cmd_split cmd
        then [py "* With this command, +;;+ is interpreted literally instead of splitting off a second command."]
        else [])
    ++ (if no_replace_variables cmd && not_spawn cmd
        then [py "* This command does not replace variables like +\{url\}+."]
        else [])
  else [].

Definition _get_command_doc (name : pystr) (cmd : Command) : M Heap pystr :=
  let output := [py "[[" ++ name ++ py "]]"] in
  let output := output ++ [py "=== " ++ name] in
  syntax <- _get_cmd_syntax name cmd ;;
  let output :=
    if bool_decide (syntax <> name)
    then output ++ [py "Syntax: +:" ++ syntax ++ py "+"; []]
    else output in
  let output := output ++ [short_desc cmd] in
  let output :=
    match long_desc cmd with
    | [] => output
    | _ :: _ => output ++ [[]; long_desc cmd]
    end in
  args <- lift (_get_command_doc_args cmd) ;;
  let output := output ++ args in
  count <- lift (_get_command_doc_count cmd) ;;
  let output := output ++ count in
  let output := output ++ _get_command_doc_notes cmd in
  let output := output ++ [[]; []] in
  ret (join [newline] output).

(** The three lists built by the loop of [generate_commands]. *)
Record buckets := {
  normal_cmds : list (pystr * Command);
  other_cmds : list (pystr * Command);
  debug_cmds : list (pystr * Command)
}.

Definition classify_step (b : buckets) (item : pystr * Command) : buckets :=
  let cmd := snd item in
  if deprecated cmd then b
  else if negb (bool_decide (normal ∈ modes cmd)) then
    {| normal_cmds := normal_cmds b;
       other_cmds := other_cmds b ++ [item];
       debug_cmds := debug_cmds b |}
  else if debug cmd then
    {| normal_cmds := normal_cmds b;
       other_cmds := other_cmds b;
       debug_cmds := debug_cmds b ++ [item] |}
  else
    {| normal_cmds := normal_cmds b ++ [item];
       other_cmds := other_cmds b;
       debug_cmds := debug_cmds b |}.

(** The loop over [objects.commands.items()] and the three [sort()]s. *)
Definition classify (registry : list (pystr * Command)) : buckets :=
  let b := fold_left classify_step registry
             {| normal_cmds := []; other_cmds := []; debug_cmds := [] |} in
  {| normal_cmds := sorted_items (normal_cmds b);
     other_cmds := sorted_items (other_cmds b);
     debug_cmds := sorted_items (debug_cmds b) |}.

(** The state of a run: the files and the heap of argparse objects. *)
Record World := { fs : FS; heap : Heap }.

Definition on_heap {A} (m : M Heap A) : M World A :=
  fun w => let '(r, h) := m (heap w) in (r, {| fs := fs w; heap := h |}).

(** [_open_file(filename)] in write mode creates or truncates the file. *)
Definition open_write (filename : pystr) : M World unit :=
  fun w => (Ok tt, {| fs := <[filename := []]> (fs w); heap := heap w |}).

(** [f.write(text)] on the file opened as [filename] *)
Definition f_write (filename text : pystr) : M World unit :=
  fun w =>
    (Ok tt,
     {| fs := <[filename := default [] (fs w !! filename) ++ text]> (fs w);
        heap := heap w |}).

(** One section of the document: the quick reference of a bucket and the
    documentation of each of its commands. *)
Definition write_bucket (filename : pystr) (cmds : list (pystr * Command))
    : M World unit :=
  f_write filename (ln ".Quick reference") ;;
  quickref <- lift (_get_command_quickref cmds) ;;
  f_write filename (quickref ++ [newline]) ;;
  for_each cmds
    (fun item =>
       doc <- on_heap (_get_command_doc (fst item) (snd item)) ;;
       f_write filename doc).

(** [generate_commands(filename)]; [registry] is
    [objects.commands.items()] and [commands_doc] is [commands.__doc__]. *)
Definition generate_commands (registry : list (pystr * Command))
    (commands_doc : pystr) (filename : pystr) : M World unit :=
  open_write filename ;;
  f_write filename FILE_HEADER ;;
  f_write filename (ln "= Commands" ++ [newline]) ;;
  f_write filename commands_doc ;;
  let b := classify registry in
  f_write filename [newline] ;;
  f_write filename (ln "== Normal commands") ;;
  write_bucket filename (normal_cmds b) ;;
  f_write filename [newline] ;;
  f_write filename (ln "== Commands not usable in normal mode") ;;
  write_bucket filename (other_cmds b) ;;
  f_write filename [newline] ;;
  f_write filename (ln "== Debugging commands") ;;
  f_write filename
    (ln "These commands are mainly intended for debugging. They are hidden if qutebrowser was started without the `--debug`-flag.") ;;
  f_write filename [newline] ;;
  write_bucket filename (debug_cmds b).

(** The documentation of the commands of a list, produced one after the
    other as the loops of [generate_commands] do: the texts in the order of
    the list, and the heap each call hands to the next. *)
Inductive docs_of
    : list (pystr * Command) -> Heap -> list pystr -> Heap -> Prop :=
| docs_of_nil h : docs_of [] h [] h
| docs_of_cons item cmds doc docs h h1 h2 :
    _get_command_doc (fst item) (snd item) h = (Ok doc, h1) ->
    docs_of cmds h1 docs h2 ->
    docs_of (item :: cmds) h (doc :: docs) h2.

(** What is written below the heading of a bucket: the quick reference
    table and the documentation of the commands. *)
Definition bucket_text (quickref : pystr) (docs : list pystr) : pystr :=
  ln ".Quick reference" ++ quickref ++ [newline] ++ concat docs.

(** The three classes of the command reference, as conditions on an item
    of the registry. *)
Definition in_normal_class (item : pystr * Command) : Prop :=
  deprecated (snd item) = false /\ normal ∈ modes (snd item) /\
  debug (snd item) = false.

Definition in_other_class (item : pystr * Command) : Prop :=
  deprecated (snd item) = false /\ normal ∉ modes (snd item).

Definition in_debug_class (item : pystr * Command) : Prop :=
  deprecated (snd item) = false /\ normal ∈ modes (snd item) /\
  debug (snd item) = true.

(** Whether the docstring describes a key, and whether it describes every
    key the command refers to: the positional and optional arguments, and
    for a count parameter its name or else [count]. *)
Definition has_desc (cmd : Command) (key : pystr) : bool :=
  is_some (arg_descs cmd !! key).

Definition count_described (cmd : Command) (param : Param) : bool :=
  negb (is_count_value param) || has_desc cmd (param_name param)
  || has_desc cmd (py "count").

Definition keys_described (cmd : Command) : bool :=
  forallb (fun a => has_desc cmd (fst a)) (pos_args cmd)
  && forallb (fun a => has_desc cmd (fst a)) (opt_args cmd)
  && forallb (count_described cmd) (handler_params cmd).

End Generator.
End Commands.

(** ** The hooks of the usage formatter *)

Module UsageHooks.
Import Manpage.

(** How a hook ends: it returns, an [assert] of the script fails, or another
    exception is raised. *)
Inductive hook_result (A : Type) :=
| Returned (a : A)
| AssertionError
| Raised (e : exn).
Arguments Returned {A} a.
Arguments AssertionError {A}.
Arguments Raised {A} e.

(** What the hooks take from outside the script: whether
    [sys.version_info >= (3, 9)], the method [_format_args] of
    [argparse.HelpFormatter] reached through [super()], and
    [argparser.arg_name]. *)
Class FormatterEnv := {
  version_ge_3_9 : bool;
  HelpFormatter_format_args : Action -> pystr -> result pystr;
  arg_name : pystr -> pystr
}.

Section Hooks.
Context `{PyBuiltins} `{FormatterEnv}.

Definition _get_default_metavar_for_optional (action : Action) : pystr :=
  arg_name (str_upper (dest action)).

Definition _get_default_metavar_for_positional (action : Action) : pystr :=
  arg_name (dest action).

(** [str(t)] of a tuple of strings. *)
Definition tuple_str (t : list pystr) : pystr :=
  match t with
  | [] => py "()"
  | [x] => py "(" ++ str_repr x ++ py ",)"
  | _ => py "(" ++ join (py ", ") (map str_repr t) ++ py ")"
  end.

(** The variable [result] of [_metavar_formatter]: always a string. *)
Definition metavar_markup (action : Action) (default_metavar : pystr)
    : pystr :=
  match metavar action with
  | Some (MetavarStr s) => quoted s
  | Some (MetavarTuple t) => quoted (tuple_str t)
  | None =>
      match choices action with
      | Some cs => py "{" ++ join (py ",") (map starred cs) ++ py "}"
      | None => quoted default_metavar
      end
  end.

(** [_metavar_formatter] returns the function [fmt]; [result] is never a
    tuple, so [fmt] returns [(result, ) * tuple_size]. *)
Definition _metavar_formatter (action : Action) (default_metavar : pystr)
    : Z -> list pystr :=
  fun tuple_size => repeat (metavar_markup action default_metavar)
                           (Z.to_nat tuple_size).

Definition _format_args (action : Action) (default_metavar : pystr)
    : hook_result pystr :=
  if version_ge_3_9
     || negb (bool_decide (nargs action = Some (NargsStr (py "*"))))
  then
    match HelpFormatter_format_args action default_metavar with
    | Ok r => Returned r
    | Raise e => Raised e
    end
  else
    let get_metavar := _metavar_formatter action default_metavar in
    let metavar := get_metavar 1%Z in
    if bool_decide (length metavar = 1%nat) then
      match metavar with
      | m :: _ => Returned (py "[" ++ m ++ py " ...]")
      | [] => Raised (IndexError (py "list index out of range"))
      end
    else AssertionError.

End Hooks.
End UsageHooks.

(** ** The settings reference: the section of a setting *)

Module SettingsDoc.
Import Settings.

(** [opt.typ.get_valid_values()]: the values in the order of iteration,
    their descriptions and whether they are documented. *)
Record ValidValues := {
  generate_docs : bool;
  values : list pystr;
  descriptions : gmap pystr pystr
}.

(** The attributes of a setting [_generate_setting_option] reads; [typ_name]
    is [opt.typ.get_name()], [valid_values] is [opt.typ.get_valid_values()],
    [default_doc] is [opt.typ.to_doc(opt.default)] and [backend_spec] holds
    [raw_backends] and [backends]. *)
Record SettingOption := {
  name : pystr;
  description : pystr;
  restart : bool;
  supports_pattern : bool;
  no_autoconfig : bool;
  backend_spec : Settings.Option;
  typ_name : pystr;
  valid_values : option ValidValues;
  default_doc : pystr
}.

(** [s.replace(',', '&#44;')] *)
Definition replace_comma (s : pystr) : pystr :=
  concat (map (fun c => if N.eqb c 44 then py "&#44;" else [c]) s).

Definition when (b : bool) (m : M pystr unit) : M pystr unit :=
  if b then m else ret tt.

(** The loop over the valid values, with its [try] and [except KeyError]. *)
Definition write_valid_value (vv : ValidValues) (val : pystr) : M pystr unit :=
  match descriptions vv !! val with
  | Some desc => write (py " * +" ++ val ++ py "+: " ++ desc ++ [newline])
  | None => write (py " * +" ++ val ++ py "+" ++ [newline])
  end.

Definition _generate_setting_option (opt : SettingOption) : M pystr unit :=
  write [newline] ;;
  write (py "[[" ++ name opt ++ py "]]" ++ [newline]) ;;
  write (py "=== " ++ name opt ++ [newline]) ;;
  write (description opt ++ [newline]) ;;
  when (restart opt) (write ([newline] ++ ln "This setting requires a restart.")) ;;
  when (supports_pattern opt)
       (write ([newline] ++ ln "This setting supports URL patterns.")) ;;
  when (no_autoconfig opt)
       (write ([newline] ++ ln "This setting can only be set in config.py.")) ;;
  _generate_setting_backend_info (backend_spec opt) ;;
  write [newline] ;;
  let typ := replace_comma (typ_name opt) in
  write (py "Type: <<types," ++ typ ++ ln ">>") ;;
  write [newline] ;;
  match valid_values opt with
  | Some vv =>
      when (generate_docs vv)
           (write (ln "Valid values:") ;;
            write [newline] ;;
            for_each (values vv) (write_valid_value vv) ;;
            write [newline])
  | None => ret tt
  end ;;
  write (py "Default: " ++ default_doc opt ++ [newline]).

End SettingsDoc.

(** ** setupcommon: the git commit id file *)

Module SetupCommon.

(** How a call of [subprocess.run] on git ends; [GitStdout] holds the
    decoded standard output. *)
Inductive git_outcome :=
| GitStdout (text : pystr)
| CalledProcessError
| OSError
| OtherError (e : exn).

(** The surroundings of the module: [BASEDIR], [Path.is_dir] and the git
    program, called with its arguments in the directory [gitpath]. *)
Class Env := {
  BASEDIR : option pystr;
  is_dir : pystr -> bool;
  run_git : pystr -> list pystr -> git_outcome
}.

Section Git.
Context `{Env}.

(** [path / name] *)
Definition path_join (path name : pystr) : pystr := path ++ py "/" ++ name.

(** [_call_git(gitpath, *args)] *)
Definition _call_git (gitpath : pystr) (args : list pystr) : git_outcome :=
  match run_git gitpath args with
  | GitStdout text => GitStdout (strip text)
  | o => o
  end.

(** The exceptions of this model that are an [OSError], which
    [except (subprocess.CalledProcessError, OSError)] catches with it. *)
Definition is_OSError (e : exn) : bool :=
  match e with FileNotFoundError _ => true | _ => false end.

(** The [except] clause of [_git_str] on a call that did not return. *)
Definition except_git (o : git_outcome) : result (option pystr) :=
  match o with
  | OtherError e => if is_OSError e then Ok None else Raise e
  | _ => Ok None
  end.

(** [_git_str()]: the two caught exceptions give [None]. *)
Definition _git_str : result (option pystr) :=
  match BASEDIR with
  | None => Ok None
  | Some basedir =>
      if negb (is_dir (path_join basedir (py ".git"))) then Ok None
      else
        match _call_git basedir
                [py "describe"; py "--match=NeVeRmAtCh"; py "--always";
                 py "--dirty"] with
        | GitStdout commit_hash =>
            match _call_git basedir
                    [py "show"; py "-s"; py "--format=%ci"; py "HEAD"] with
            | GitStdout date =>
                match _call_git basedir
                        [py "rev-parse"; py "--abbrev-ref"; py "HEAD"] with
                | GitStdout branch =>
                    Ok (Some (commit_hash ++ py " on " ++ branch ++ py " ("
                              ++ date ++ py ")"))
                | o => except_git o
                end
            | o => except_git o
            end
        | o => except_git o
        end
  end.

(** Text that the [ascii] codec encodes. *)
Definition is_ascii (s : pystr) : bool := forallb (fun c => c <? 128) s.

(** [write_git_file()]: the file is opened for writing, which empties it,
    and the text is encoded as it is written; [UnicodeEncodeError] is a
    [ValueError], its message is abridged here. *)
Definition write_git_file : M FS unit :=
  gitstr <- lift _git_str ;;
  let gitstr := match gitstr with Some s => s | None => [] end in
  match BASEDIR with
  | None =>
      raise (TypeError
               (py "unsupported operand type(s) for /: 'NoneType' and 'str'"))
  | Some basedir =>
      let path := path_join (path_join basedir (py "qutebrowser"))
                    (py "git-commit-id") in
      (fun fs => (Ok tt, <[path := []]> fs)) ;;
      if is_ascii gitstr then (fun fs => (Ok tt, <[path := gitstr]> fs))
      else raise (ValueError (py "'ascii' codec can't encode characters"))
  end.

End Git.
End SetupCommon.

(** * Properties *)

(** ** The ASCII instance of the builtins *)

Lemma ascii_upper_char_idem c :
  ascii_upper_char (ascii_upper_char c) = ascii_upper_char c.
Proof.
  unfold ascii_upper_char.
  destruct ((97 <=? c) && (c <=? 122)) eqn:E; [|now rewrite E].
  apply andb_true_iff in E as [E1 E2].
  apply N.leb_le in E1, E2.
  destruct ((97 <=? c - 32) && (c - 32 <=? 122)) eqn:E'; [|reflexivity].
  apply andb_true_iff in E' as [E3 _]. apply N.leb_le in E3. lia.
Qed.

Lemma ascii_upper_idem s : ascii_upper (ascii_upper s) = ascii_upper s.
Proof.
  unfold ascii_upper. rewrite map_map.
  apply map_ext. intros c. apply ascii_upper_char_idem.
Qed.

Definition AsciiBuiltins : PyBuiltins :=
  {| str_upper := ascii_upper; str_repr := ascii_repr;
     str_upper_idem := ascii_upper_idem |}.

(** ** Lines of a text *)

Lemma readlines_concat s : concat (readlines s) = s.
Proof.
  induction s as [|c s IH]; [reflexivity|].
  simpl. destruct (N.eqb c newline).
  - simpl. now rewrite IH.
  - destruct (readlines s) as [|l ls]; simpl in *; now rewrite <- IH.
Qed.

Lemma readlines_nil s : readlines s = [] -> s = [].
Proof. intros E. rewrite <- (readlines_concat s), E. reflexivity. Qed.

Lemma terminated_cons c l : c <> newline -> terminated l -> terminated (c :: l).
Proof.
  intros Hc (body & -> & Hb). exists (c :: body). split; [reflexivity|].
  intros [E|E]; [now apply Hc | now apply Hb].
Qed.

Lemma terminated_newline : terminated [newline].
Proof. exists []. split; [reflexivity | intros []]. Qed.

Lemma readlines_terminated_app l t :
  terminated l -> readlines (l ++ t) = l :: readlines t.
Proof.
  intros (body & -> & Hb). induction body as [|c body IH]; [reflexivity|].
  simpl. destruct (N.eqb_spec c newline) as [->|Hc].
  - exfalso. apply Hb. now left.
  - rewrite IH; [reflexivity|]. intros Hin. apply Hb. now right.
Qed.

Lemma readlines_concat_app ls t :
  Forall terminated ls -> readlines (concat ls ++ t) = ls ++ readlines t.
Proof.
  induction 1 as [|l ls Hl _ IH]; [reflexivity|].
  simpl. rewrite <- app_assoc, readlines_terminated_app by assumption.
  now rewrite IH.
Qed.

(** Every line but the last one is terminated. *)
Lemma readlines_init_terminated s :
  Forall terminated (removelast (readlines s)).
Proof.
  induction s as [|c s IH]; [constructor|].
  simpl readlines. destruct (N.eqb_spec c newline) as [->|Hc].
  - destruct (readlines s) as [|l ls] eqn:E; [constructor|].
    change (removelast ([newline] :: l :: ls))
      with ([newline] :: removelast (l :: ls)).
    constructor; [apply terminated_newline | assumption].
  - destruct (readlines s) as [|l ls] eqn:E; [constructor|].
    destruct ls as [|l' ls]; [constructor|].
    change (removelast ((c :: l) :: l' :: ls))
      with ((c :: l) :: removelast (l' :: ls)).
    change (removelast (l :: l' :: ls))
      with (l :: removelast (l' :: ls)) in IH.
    inversion IH; subst.
    constructor; [now apply terminated_cons | assumption].
Qed.

Lemma readlines_prefix_terminated s l1 l2 :
  readlines s = l1 ++ l2 -> l2 <> [] -> Forall terminated l1.
Proof.
  intros E Hne. pose proof (readlines_init_terminated s) as Hs.
  rewrite E, removelast_app in Hs by assumption.
  now apply Forall_app in Hs as [Hs _].
Qed.

Lemma readlines_suffix s l1 l2 :
  readlines s = l1 ++ l2 -> readlines (concat l2) = l2.
Proof.
  intros E. destruct l2 as [|l l2]; [reflexivity|].
  assert (Hl1 : Forall terminated l1)
    by (eapply readlines_prefix_terminated; [exact E | discriminate]).
  pose proof (readlines_concat s) as Hs. rewrite E, concat_app in Hs.
  rewrite <- Hs, readlines_concat_app in E by assumption.
  now apply app_inv_head in E.
Qed.

Lemma readlines_complete_terminated s :
  Forall terminated (readlines (s ++ [newline])).
Proof.
  induction s as [|c s IH].
  - constructor; [apply terminated_newline | constructor].
  - simpl. destruct (N.eqb_spec c newline) as [->|Hc].
    + constructor; [apply terminated_newline | assumption].
    + destruct (readlines (s ++ [newline])) as [|l ls] eqn:E.
      * apply readlines_nil in E. now destruct s.
      * inversion IH; subst.
        constructor; [now apply terminated_cons | assumption].
Qed.

(** ** The block patcher *)

Section PatcherFacts.
Import BlockPatcher.
Context `{PyBuiltins}.

Lemma join_empty (parts : list pystr) : join [] parts = concat parts.
Proof.
  induction parts as [|p ps IH]; [reflexivity|].
  destruct ps as [|q ps]; [simpl; now rewrite app_nil_r|].
  change (join [] (p :: q :: ps)) with (p ++ [] ++ join [] (q :: ps)).
  now rewrite IH.
Qed.

Lemma concat_chars (s : pystr) : concat (chars s) = s.
Proof. induction s as [|c s IH]; [reflexivity|]. simpl. now rewrite IH. Qed.

(** The two markers of a block never coincide: they end differently. *)
Lemma start_marker_not_end (a b : pystr) : start_marker a <> end_marker b.
Proof.
  unfold start_marker, end_marker. intros E.
  apply (f_equal (@rev N)) in E. rewrite !rev_app_distr in E.
  simpl in E. discriminate E.
Qed.

Section Scan.
Variables (what : pystr) (data : list pystr).
Let W := str_upper what.

Lemma upper_W : str_upper W = W.
Proof. unfold W. apply str_upper_idem. Qed.

Lemma scan_line_start st line :
  strip line = start_marker W ->
  scan_line W data st line =
    {| temp := temp st ++ line ++ concat data;
       found_start := true; found_end := found_end st |}.
Proof.
  intros E. unfold scan_line. rewrite decide_True by assumption.
  now rewrite join_empty.
Qed.

Lemma scan_line_end st line :
  strip line = end_marker W ->
  scan_line W data st line =
    {| temp := temp st ++ line;
       found_start := found_start st; found_end := true |}.
Proof.
  intros E. unfold scan_line.
  rewrite decide_False
    by (rewrite E; intros E'; symmetry in E'; revert E'; apply start_marker_not_end).
  rewrite upper_W.
  now rewrite decide_True by assumption.
Qed.

Lemma scan_line_plain st line :
  plain W line ->
  scan_line W data st line =
    if copying st then
      {| temp := temp st ++ line;
         found_start := found_start st; found_end := found_end st |}
    else st.
Proof.
  intros [Hs He]. unfold scan_line.
  rewrite decide_False by assumption.
  rewrite upper_W.
  now rewrite decide_False by assumption.
Qed.

Lemma scan_plain_lines ls : forall st,
  Forall (plain W) ls ->
  fold_left (scan_line W data) ls st =
    if copying st then
      {| temp := temp st ++ concat ls;
         found_start := found_start st; found_end := found_end st |}
    else st.
Proof.
  induction ls as [|l ls IH]; intros st Hls.
  - simpl. rewrite app_nil_r. destruct st; simpl. now destruct (copying _).
  - inversion Hls as [|? ? Hl Hls']; subst. simpl.
    rewrite scan_line_plain by assumption.
    destruct (copying st) eqn:Ec.
    + rewrite IH by assumption. unfold copying in *. simpl. rewrite Ec.
      now rewrite <- app_assoc.
    + rewrite IH by assumption. now rewrite Ec.
Qed.

Lemma scan_found_start ls : forall st,
  found_start (fold_left (scan_line W data) ls st) =
    found_start st ||
    existsb (fun l => bool_decide (strip l = start_marker W)) ls.
Proof.
  induction ls as [|l ls IH]; intros st; simpl.
  - now rewrite orb_false_r.
  - rewrite IH. unfold scan_line.
    destruct (decide (strip l = start_marker W)) as [E|E].
    + rewrite bool_decide_eq_true_2 by assumption. simpl.
      now rewrite orb_true_r.
    + rewrite (bool_decide_eq_false_2 _ E). simpl.
      destruct (decide _); [reflexivity|].
      now destruct (negb (found_start st) || found_end st).
Qed.

Lemma scan_found_end ls : forall st,
  found_end (fold_left (scan_line W data) ls st) =
    found_end st ||
    existsb (fun l => bool_decide (strip l = end_marker W)) ls.
Proof.
  induction ls as [|l ls IH]; intros st; simpl.
  - now rewrite orb_false_r.
  - rewrite IH.
    destruct (decide (strip l = end_marker W)) as [E|E].
    + rewrite scan_line_end by assumption.
      rewrite bool_decide_eq_true_2 by assumption. simpl.
      now rewrite orb_true_r.
    + rewrite (bool_decide_eq_false_2 _ E). simpl.
      destruct (decide (strip l = start_marker W)) as [Es|Es].
      * now rewrite scan_line_start by assumption.
      * rewrite scan_line_plain by (split; assumption).
        now destruct (copying st).
Qed.

(** What [_format_block] does, in terms of the scan of the file. *)
Lemma format_block_run (fs : FS) tmpname filename content :
  fs !! tmpname = None ->
  fs !! filename = Some content ->
  _format_block tmpname filename what data fs =
    let st := scan_file W data content in
    if negb (found_start st) then
      (Raise (marker_missing (start_marker W) filename), fs)
    else if negb (found_end st) then
      (Raise (marker_missing (end_marker W) filename), fs)
    else (Ok tt, <[filename := temp st]> fs).
Proof.
  intros Htmp Hfile.
  assert (Hne : tmpname <> filename) by congruence.
  unfold _format_block, try_except_else, bind, mkstemp, open_read,
    write_file, os_remove, shutil_move, raise, ret. fold W.
  rewrite lookup_insert_ne, Hfile by assumption.
  cbv zeta. set (st := scan_file W data content).
  rewrite insert_insert_eq.
  destruct (found_start st); simpl.
  2:{ rewrite lookup_insert_eq, delete_insert_id by assumption. reflexivity. }
  destruct (found_end st); simpl.
  2:{ rewrite lookup_insert_eq, delete_insert_id by assumption. reflexivity. }
  rewrite lookup_insert_ne, Hfile by assumption.
  rewrite lookup_delete_ne, lookup_insert_eq by congruence.
  f_equal. apply map_eq. intros k.
  rewrite !lookup_insert. destruct (decide (filename = k)) as [->|Hk].
  - reflexivity.
  - rewrite !lookup_delete, lookup_insert.
    destruct (decide (tmpname = k)) as [->|Hk']; [now rewrite Htmp|].
    now rewrite decide_False by assumption.
Qed.

Lemma scan_replace pre sline mid eline suf :
  strip sline = start_marker W -> strip eline = end_marker W ->
  Forall (plain W) (pre ++ mid ++ suf) ->
  fold_left (scan_line W data) (pre ++ [sline] ++ mid ++ [eline] ++ suf) scan0 =
    {| temp := concat pre ++ sline ++ concat data ++ eline ++ concat suf;
       found_start := true; found_end := true |}.
Proof.
  intros Hs He Hp.
  apply Forall_app in Hp as [Hpre Hp]. apply Forall_app in Hp as [Hmid Hsuf].
  rewrite !fold_left_app. simpl.
  rewrite (scan_plain_lines pre) by assumption. simpl.
  rewrite (scan_line_start _ sline) by assumption. simpl.
  rewrite (scan_plain_lines mid) by assumption. simpl.
  rewrite (scan_line_end _ eline) by assumption. simpl.
  rewrite (scan_plain_lines suf) by assumption. simpl.
  now rewrite <- !app_assoc.
Qed.

Lemma scan_reversed pre eline mid sline suf :
  strip sline = start_marker W -> strip eline = end_marker W ->
  Forall (plain W) (pre ++ mid ++ suf) ->
  fold_left (scan_line W data) (pre ++ [eline] ++ mid ++ [sline] ++ suf) scan0 =
    {| temp := concat pre ++ eline ++ concat mid ++ sline ++ concat data
               ++ concat suf;
       found_start := true; found_end := true |}.
Proof.
  intros Hs He Hp.
  apply Forall_app in Hp as [Hpre Hp]. apply Forall_app in Hp as [Hmid Hsuf].
  rewrite !fold_left_app. simpl.
  rewrite (scan_plain_lines pre) by assumption. simpl.
  rewrite (scan_line_end _ eline) by assumption. simpl.
  rewrite (scan_plain_lines mid) by assumption. simpl.
  rewrite (scan_line_start _ sline) by assumption. simpl.
  rewrite (scan_plain_lines suf) by assumption. simpl.
  now rewrite <- !app_assoc.
Qed.

End Scan.

(** C1.  When no line of the file is the start marker, or none is the end
    marker, [_format_block] raises an exception whose message names a marker
    that is missing (the start marker when it is missing, else the end
    marker) and the file; the file system it leaves is the one it found, so
    the file has its old content and the temporary file is gone. *)
Theorem format_block_missing_marker (fs : FS) tmpname filename what data content :
  fs !! tmpname = None ->
  fs !! filename = Some content ->
  has_line (start_marker (str_upper what)) content = false \/
  has_line (end_marker (str_upper what)) content = false ->
  let W := str_upper what in
  let missing := if has_line (start_marker W) content
                 then end_marker W else start_marker W in
  let '(r, fs') := _format_block tmpname filename what data fs in
  r = Raise (Exception (py "Marker '" ++ missing ++ py "' not found in '"
                        ++ filename ++ py "'!")) /\
  has_line missing content = false /\
  fs' = fs /\ fs' !! filename = Some content /\ fs' !! tmpname = None.
Proof.
  intros Htmp Hfile Hmiss. cbv zeta.
  rewrite (format_block_run what data fs tmpname filename content Htmp Hfile).
  cbv zeta. unfold scan_file.
  rewrite scan_found_start, scan_found_end. simpl.
  fold (has_line (start_marker (str_upper what)) content).
  fold (has_line (end_marker (str_upper what)) content).
  destruct (has_line (start_marker (str_upper what)) content) eqn:Es; simpl.
  - destruct Hmiss as [Hmiss|Hmiss]; [discriminate|].
    rewrite Hmiss. simpl. repeat split; assumption.
  - repeat split; assumption.
Qed.

(** The first call of the round trip: the block between the markers is
    replaced by the new data, the rest of the file is kept. *)
Lemma format_block_replace (fs : FS) tmpname filename what data content
    pre sline mid eline suf :
  fs !! tmpname = None ->
  fs !! filename = Some content ->
  readlines content = pre ++ [sline] ++ mid ++ [eline] ++ suf ->
  strip sline = start_marker (str_upper what) ->
  strip eline = end_marker (str_upper what) ->
  Forall (plain (str_upper what)) (pre ++ mid ++ suf) ->
  _format_block tmpname filename what data fs =
    (Ok tt, <[filename := concat pre ++ sline ++ concat data ++ eline
                          ++ concat suf]> fs).
Proof.
  intros Htmp Hfile Hlines Hs He Hp.
  rewrite (format_block_run what data fs tmpname filename content Htmp Hfile).
  cbv zeta. unfold scan_file. rewrite Hlines.
  rewrite scan_replace by assumption. reflexivity.
Qed.

(** The lines of a patched file, when the data is a run of whole lines. *)
Lemma readlines_patched content pre sline mid eline suf (X : pystr) :
  readlines content = pre ++ [sline] ++ mid ++ [eline] ++ suf ->
  X = [] \/ (exists body, X = body ++ [newline]) ->
  readlines (concat pre ++ sline ++ X ++ eline ++ concat suf) =
    pre ++ [sline] ++ readlines X ++ [eline] ++ suf.
Proof.
  intros Hlines HX.
  assert (Hpre : Forall terminated (pre ++ [sline])).
  { apply (readlines_prefix_terminated content _ (mid ++ [eline] ++ suf)).
    - rewrite Hlines. now rewrite <- !app_assoc.
    - now destruct mid. }
  assert (Hsuf : readlines (eline ++ concat suf) = eline :: suf).
  { apply (readlines_suffix content (pre ++ [sline] ++ mid) (eline :: suf)).
    rewrite Hlines. now rewrite <- !app_assoc. }
  assert (HXl : Forall terminated (readlines X)).
  { destruct HX as [->|[body ->]]; [constructor|].
    apply readlines_complete_terminated. }
  replace (concat pre ++ sline ++ X ++ eline ++ concat suf)
    with (concat (pre ++ [sline]) ++ concat (readlines X)
          ++ eline ++ concat suf).
  2:{ rewrite concat_app, readlines_concat. simpl.
      now rewrite app_nil_r, <- !app_assoc. }
  rewrite readlines_concat_app by assumption.
  rewrite readlines_concat_app by assumption.
  rewrite Hsuf. now rewrite <- !app_assoc.
Qed.

(** C2, as amended.  On a file with one start marker line followed by one end
    marker line, [_format_block] with data [X] leaves prefix, start line, [X],
    end line and suffix; when [X] is empty or ends with a line feed and has
    no marker line, a second call with data [Y] leaves the same file with
    [Y] in the place of [X]. *)
Theorem format_block_roundtrip (fs : FS) tmp1 tmp2 filename what X Y content
    pre sline mid eline suf :
  fs !! tmp1 = None ->
  fs !! tmp2 = None ->
  fs !! filename = Some content ->
  readlines content = pre ++ [sline] ++ mid ++ [eline] ++ suf ->
  strip sline = start_marker (str_upper what) ->
  strip eline = end_marker (str_upper what) ->
  Forall (plain (str_upper what)) (pre ++ mid ++ suf) ->
  let patched data :=
    concat pre ++ sline ++ concat data ++ eline ++ concat suf in
  _format_block tmp1 filename what X fs
    = (Ok tt, <[filename := patched X]> fs) /\
  (concat X = [] \/ (exists body, concat X = body ++ [newline]) ->
   Forall (plain (str_upper what)) (readlines (concat X)) ->
   _format_block tmp2 filename what Y (<[filename := patched X]> fs)
     = (Ok tt, <[filename := patched Y]> fs)).
Proof.
  intros Htmp1 Htmp2 Hfile Hlines Hs He Hp patched.
  assert (Hne : filename <> tmp2) by congruence.
  apply Forall_app in Hp as [Hpre Hp]. apply Forall_app in Hp as [Hmid Hsuf].
  split.
  - eapply format_block_replace; eauto.
    apply Forall_app; split; [|apply Forall_app; split]; assumption.
  - intros HX HXp.
    rewrite (format_block_replace (<[filename := patched X]> fs) tmp2 filename
               what Y (patched X) pre sline (readlines (concat X)) eline suf).
    + now rewrite insert_insert_eq.
    + now rewrite lookup_insert_ne.
    + apply lookup_insert_eq.
    + unfold patched. eapply readlines_patched; eauto.
    + assumption.
    + assumption.
    + apply Forall_app; split; [|apply Forall_app; split]; assumption.
Qed.

(** C10.  With the end marker line before the start marker line,
    [_format_block] raises nothing: every line of the file is copied and the
    data is written right after the start marker line. *)
Theorem format_block_end_before_start (fs : FS) tmpname filename what data
    content pre eline mid sline suf :
  fs !! tmpname = None ->
  fs !! filename = Some content ->
  readlines content = pre ++ [eline] ++ mid ++ [sline] ++ suf ->
  strip sline = start_marker (str_upper what) ->
  strip eline = end_marker (str_upper what) ->
  Forall (plain (str_upper what)) (pre ++ mid ++ suf) ->
  _format_block tmpname filename what data fs =
    (Ok tt, <[filename := concat (pre ++ [eline] ++ mid ++ [sline])
                          ++ concat data ++ concat suf]> fs) /\
  content = concat (pre ++ [eline] ++ mid ++ [sline]) ++ concat suf.
Proof.
  intros Htmp Hfile Hlines Hs He Hp. split.
  - rewrite (format_block_run what data fs tmpname filename content Htmp Hfile).
    cbv zeta. unfold scan_file. rewrite Hlines.
    rewrite scan_reversed by assumption. simpl.
    f_equal. f_equal. repeat (rewrite concat_app; simpl).
    now rewrite ?app_nil_r, <- ?app_assoc.
  - rewrite <- (readlines_concat content), Hlines.
    repeat (rewrite concat_app; simpl). now rewrite ?app_nil_r, <- ?app_assoc.
Qed.

End PatcherFacts.

(** ** Runs of the block patcher on concrete files *)

Section PatcherRuns.
Import BlockPatcher.
Existing Instance AsciiBuiltins.

Ltac run := vm_compute; reflexivity.
Ltac plain_lines :=
  lazymatch goal with
  | |- Forall ?P ?l => let l' := eval vm_compute in l in change (Forall P l')
  end;
  repeat first
    [ solve [constructor]
    | constructor; [split; intros E; vm_compute in E; discriminate E|] ].

Lemma format_block_missing_marker_witness :
  let file := py "doc.txt" in
  let content := ln "intro" ++ ln "// QUTE_OPTIONS_START" ++ ln "old" in
  let fs : FS := {[ file := content ]} in
  let '(r, fs') :=
    _format_block (py "/tmp/tmp1") file (py "options") [ln "new"] fs in
  r = Raise (Exception
               (py "Marker '// QUTE_OPTIONS_END' not found in 'doc.txt'!")) /\
  fs' = fs /\ fs' !! file = Some content /\ fs' !! py "/tmp/tmp1" = None.
Proof.
  intros file content fs.
  pose proof (format_block_missing_marker fs (py "/tmp/tmp1") file
                (py "options") [ln "new"] content
                ltac:(run) ltac:(run) ltac:(right; run)) as P.
  cbv zeta in P.
  destruct (_format_block _ _ _ _ _) as [r fs'].
  destruct P as (-> & _ & -> & Hf & Ht).
  split; [run|]. split; [reflexivity|]. split; [exact Hf | exact Ht].
Defined.

Lemma format_block_roundtrip_witness :
  let file := py "doc.txt" in
  let fs : FS :=
    {[ file := ln "intro" ++ ln "// QUTE_FOO_START" ++ ln "old"
               ++ ln "  // QUTE_FOO_END" ++ py "outro" ]} in
  let patched data :=
    ln "intro" ++ ln "// QUTE_FOO_START" ++ data
    ++ ln "  // QUTE_FOO_END" ++ py "outro" in
  _format_block (py "/tmp/tmp1") file (py "foo") [ln "x1"; ln "x2"] fs
    = (Ok tt, <[file := patched (ln "x1" ++ ln "x2")]> fs) /\
  _format_block (py "/tmp/tmp2") file (py "foo") [ln "y"]
      (<[file := patched (ln "x1" ++ ln "x2")]> fs)
    = (Ok tt, <[file := patched (ln "y")]> fs).
Proof.
  intros file fs patched.
  pose proof (format_block_roundtrip fs (py "/tmp/tmp1") (py "/tmp/tmp2") file
                (py "foo") [ln "x1"; ln "x2"] [ln "y"] _
                [ln "intro"] (ln "// QUTE_FOO_START") [ln "old"]
                (ln "  // QUTE_FOO_END") [py "outro"]
                ltac:(run) ltac:(run) ltac:(run) ltac:(run) ltac:(run)
                ltac:(run) ltac:(plain_lines)) as [P1 P2].
  split; [exact P1|].
  apply P2; [right; exists (ln "x1" ++ py "x2"); run | plain_lines].
Defined.

(** C2 fails as stated: data that does not end with a line feed has no
    marker line, yet the end marker is appended to its last line; the second
    call then finds no end marker and raises. *)
Lemma format_block_roundtrip_counterexample :
  let file := py "doc.txt" in
  let fs : FS :=
    {[ file := ln "// QUTE_FOO_START" ++ ln "old" ++ ln "// QUTE_FOO_END" ]} in
  let X := [py "x"] in
  let Y := [ln "y"] in
  let patched data :=
    ln "// QUTE_FOO_START" ++ concat data ++ ln "// QUTE_FOO_END" in
  Forall (plain (py "FOO")) (readlines (concat X)) /\
  _format_block (py "/tmp/tmp1") file (py "FOO") X fs
    = (Ok tt, <[file := patched X]> fs) /\
  _format_block (py "/tmp/tmp2") file (py "FOO") Y (<[file := patched X]> fs)
    = (Raise (Exception
                (py "Marker '// QUTE_FOO_END' not found in 'doc.txt'!")),
       <[file := patched X]> fs) /\
  _format_block (py "/tmp/tmp2") file (py "FOO") Y (<[file := patched X]> fs)
    <> (Ok tt, <[file := patched Y]> fs).
Proof.
  intros file fs X Y patched.
  split; [plain_lines|]. split; [run|]. split; [run|].
  vm_compute. discriminate.
Defined.

Lemma format_block_end_before_start_witness :
  let file := py "doc.txt" in
  let fs : FS :=
    {[ file := ln "intro" ++ ln "// QUTE_FOO_END" ++ ln "old"
               ++ ln "// QUTE_FOO_START" ++ ln "outro" ]} in
  _format_block (py "/tmp/tmp1") file (py "foo") [ln "new"] fs
    = (Ok tt, <[file := ln "intro" ++ ln "// QUTE_FOO_END" ++ ln "old"
                        ++ ln "// QUTE_FOO_START" ++ ln "new" ++ ln "outro"]> fs).
Proof.
  intros file fs.
  pose proof (format_block_end_before_start fs (py "/tmp/tmp1") file
                (py "foo") [ln "new"] _
                [ln "intro"] (ln "// QUTE_FOO_END") [ln "old"]
                (ln "// QUTE_FOO_START") [ln "outro"]
                ltac:(run) ltac:(run) ltac:(run) ltac:(run) ltac:(run)
                ltac:(plain_lines)) as [P _].
  rewrite P. f_equal.
Defined.

End PatcherRuns.

(** ** The manpage options *)

Section ManpageFacts.
Import Manpage.
Context `{PyBuiltins}.

(** With the default [nargs=1] the metavar is always defined. *)
Lemma get_action_metavar_default (a : Action) :
  exists mv, _get_action_metavar a (NargsInt 1) = Ok mv.
Proof.
  unfold _get_action_metavar.
  destruct (metavar a) as [[s|t]|]; simpl; eauto.
  destruct (choices a); eauto.
Qed.

Lemma nargs_is_true (a : Action) (s : string) :
  nargs a = Some (NargsStr (py s)) -> nargs_is a s = true.
Proof. intros E. unfold nargs_is. now apply bool_decide_eq_true_2. Qed.

Lemma nargs_is_int (a : Action) (n : Z) (s : string) :
  nargs a = Some (NargsInt n) -> nargs_is a s = false.
Proof.
  intros E. unfold nargs_is. apply bool_decide_eq_false_2.
  rewrite E. discriminate.
Qed.

(** The rules of [_format_action_args], one per arity, in terms of the
    metavar [mv] that [_get_action_metavar] displays for the action. *)
Lemma format_action_args_rules (a : Action) (mv : pystr) :
  _get_action_metavar a (NargsInt 1) = Ok mv ->
  (nargs a = None -> _format_action_args a = Ok mv) /\
  (nargs a = Some (NargsStr (py "?")) ->
   _format_action_args a = Ok (py "[" ++ mv ++ py "]")) /\
  (nargs a = Some (NargsStr (py "*")) ->
   _format_action_args a = Ok (py "[" ++ mv ++ py " [" ++ mv ++ py " ...]]")) /\
  (nargs a = Some (NargsStr (py "+")) ->
   _format_action_args a = Ok (mv ++ py " [" ++ mv ++ py " ...]")) /\
  (nargs a = Some (NargsStr (py "...")) ->
   _format_action_args a = Ok (py "...")).
Proof.
  intros Hmv. unfold _format_action_args.
  repeat split; intros E.
  - now rewrite E.
  - rewrite E, (nargs_is_true a "?" E), Hmv. reflexivity.
  - rewrite E, (nargs_is_true a "*" E), Hmv.
    unfold nargs_is. rewrite E. reflexivity.
  - rewrite E, (nargs_is_true a "+" E), Hmv.
    unfold nargs_is. rewrite E. reflexivity.
  - rewrite E, (nargs_is_true a "..." E).
    unfold nargs_is. rewrite E. reflexivity.
Qed.

(** An exact arity [n]: an explicit string metavar is repeated [n] times, an
    explicit tuple is used as it is, and the metavar derived from the
    choices or the destination is displayed once whatever [n] is. *)
Lemma format_action_args_exact (a : Action) (n : Z) :
  nargs a = Some (NargsInt n) ->
  _format_action_args a =
    match metavar a with
    | Some (MetavarStr m) =>
        Ok (join (py " ") (repeat (quoted m) (Z.to_nat n)))
    | Some (MetavarTuple t) => Ok (join (py " ") (map quoted t))
    | None => _get_action_metavar a (NargsInt 1)
    end.
Proof.
  intros E. unfold _format_action_args.
  rewrite E, !(nargs_is_int a n) by assumption.
  unfold _get_action_metavar.
  destruct (metavar a) as [[m|t]|]; simpl; [|reflexivity..].
  now rewrite map_repeat.
Qed.

Lemma action_lines_skip (a : Action) pre post : forall groupdata,
  _format_action a = Ok None ->
  action_lines (pre ++ a :: post) groupdata
    = action_lines (pre ++ post) groupdata.
Proof.
  induction pre as [|x pre IH]; intros groupdata Ha; simpl.
  - now rewrite Ha.
  - destruct (_format_action x) as [[d|]|e]; simpl; auto.
Qed.

Lemma group_texts_ext gs gs' : forall groups,
  Forall2 (fun g g' => group_text g = group_text g') gs gs' ->
  group_texts gs groups = group_texts gs' groups.
Proof.
  intros groups HF. revert groups.
  induction HF as [|g g' gs gs' Hg _ IH]; intros groups; [reflexivity|].
  simpl. rewrite Hg. destruct (group_text g'); simpl; auto.
Qed.

(** C8.  An action whose help is the suppression sentinel is formatted to
    [None], and the options text written to the manpage is the one of the
    parser without that action: its group, the whole text and the run of
    [regenerate_manpage] are the same as if the action were not there. *)
Theorem suppressed_action_omitted (a : Action) :
  help a = Some SUPPRESS ->
  _format_action a = Ok None /\
  (forall t d pre post,
     group_text {| title := t; description := d;
                   _group_actions := pre ++ a :: post |}
     = group_text {| title := t; description := d;
                     _group_actions := pre ++ post |}) /\
  (forall gs1 gs2 ep t d pre post,
     manpage_options
       {| _action_groups :=
            gs1 ++ {| title := t; description := d;
                      _group_actions := pre ++ a :: post |} :: gs2;
          epilog := ep |}
     = manpage_options
         {| _action_groups :=
              gs1 ++ {| title := t; description := d;
                        _group_actions := pre ++ post |} :: gs2;
            epilog := ep |}) /\
  (forall gs1 gs2 ep t d pre post tmpname filename,
     regenerate_manpage
       {| _action_groups :=
            gs1 ++ {| title := t; description := d;
                      _group_actions := pre ++ a :: post |} :: gs2;
          epilog := ep |} tmpname filename
     = regenerate_manpage
         {| _action_groups :=
              gs1 ++ {| title := t; description := d;
                        _group_actions := pre ++ post |} :: gs2;
            epilog := ep |} tmpname filename).
Proof.
  intros Hh.
  assert (Ha : _format_action a = Ok None).
  { unfold _format_action. now rewrite bool_decide_eq_true_2. }
  assert (Hg : forall t d pre post,
     group_text {| title := t; description := d;
                   _group_actions := pre ++ a :: post |}
     = group_text {| title := t; description := d;
                     _group_actions := pre ++ post |}).
  { intros. unfold group_text. simpl. now rewrite action_lines_skip. }
  assert (Hm : forall gs1 gs2 ep t d pre post,
     manpage_options
       {| _action_groups :=
            gs1 ++ {| title := t; description := d;
                      _group_actions := pre ++ a :: post |} :: gs2;
          epilog := ep |}
     = manpage_options
         {| _action_groups :=
              gs1 ++ {| title := t; description := d;
                        _group_actions := pre ++ post |} :: gs2;
            epilog := ep |}).
  { intros. unfold manpage_options. simpl.
    rewrite (group_texts_ext
               (gs1 ++ {| title := t; description := d;
                          _group_actions := pre ++ a :: post |} :: gs2)
               (gs1 ++ {| title := t; description := d;
                          _group_actions := pre ++ post |} :: gs2)).
    - reflexivity.
    - apply Forall2_app; [induction gs1; constructor; auto|].
      constructor; [apply Hg|]. induction gs2; constructor; auto. }
  split; [exact Ha|]. split; [exact Hg|]. split; [exact Hm|].
  intros. unfold regenerate_manpage. now rewrite Hm.
Qed.

End ManpageFacts.

(** ** Runs of the option formatter *)

Section ManpageRuns.
Import Manpage.
Existing Instance AsciiBuiltins.

Definition flag_action (flag : string) (n : option nargs_t)
    (mv : option metavar_t) (h : option pystr) : Action :=
  {| dest := py "foo"; option_strings := [py flag]; metavar := mv;
     choices := None; nargs := n; help := h |}.

(** C3 does not hold on the code: with an exact arity of two and no explicit
    metavar, the metavar derived from the destination is displayed once, not
    twice, while an explicit string metavar is repeated. *)
Theorem format_action_args_default_metavar_once :
  _format_action_args
    (flag_action "--foo" (Some (NargsInt 2)) None (Some (py "help")))
    = Ok (py "'FOO'") /\
  _format_action_args
    (flag_action "--foo" (Some (NargsInt 2)) (Some (MetavarStr (py "FOO")))
       (Some (py "help")))
    = Ok (py "'FOO' 'FOO'") /\
  _format_action
    (flag_action "--foo" (Some (NargsInt 2)) None (Some (py "help")))
    = Ok (Some (ln "*--foo* 'FOO'::" ++ ln "    help")).
Proof. repeat split. Qed.

Lemma suppressed_action_omitted_witness :
  let a := flag_action "--secret" None None (Some SUPPRESS) in
  let b := flag_action "--basedir" None None (Some (py "Base directory")) in
  _format_action a = Ok None /\
  group_text {| title := Some (py "optional arguments"); description := None;
                _group_actions := [b; a] |}
  = Ok (ln "=== optional arguments" ++ ln "*--basedir* 'FOO'::"
        ++ ln "    Base directory").
Proof.
  intros a b.
  destruct (suppressed_action_omitted a eq_refl) as (Ha & Hg & _).
  split; [exact Ha|].
  change [b; a] with ([b] ++ a :: []).
  rewrite (Hg (Some (py "optional arguments")) None [b] []).
  vm_compute. reflexivity.
Defined.

End ManpageRuns.

(** ** Order of strings and sorting by key *)

Lemma str_ltb_irrefl (a : pystr) : str_ltb a a = false.
Proof.
  induction a as [|x a IH]; [reflexivity|].
  simpl. now rewrite N.ltb_irrefl, N.eqb_refl, IH.
Qed.

Lemma str_ltb_asym (a : pystr) : forall b,
  str_ltb a b = true -> str_ltb b a = false.
Proof.
  induction a as [|x a IH]; intros [|y b]; simpl; try easy.
  intros E. apply orb_true_iff in E as [E|E].
  - apply N.ltb_lt in E.
    replace (y <? x) with false by (symmetry; apply N.ltb_ge; lia).
    replace (y =? x) with false by (symmetry; apply N.eqb_neq; lia).
    reflexivity.
  - apply andb_true_iff in E as [E1 E2]. apply N.eqb_eq in E1. subst y.
    now rewrite N.ltb_irrefl, N.eqb_refl, (IH b E2).
Qed.

(** Two strings that are not ordered either way are equal. *)
Lemma str_ltb_trichotomy (a : pystr) : forall b,
  str_ltb a b = false -> str_ltb b a = false -> a = b.
Proof.
  induction a as [|x a IH]; intros [|y b]; simpl; try easy.
  intros E1 E2.
  apply orb_false_iff in E1 as [L1 R1]. apply orb_false_iff in E2 as [L2 R2].
  apply N.ltb_ge in L1, L2. assert (x = y) by lia. subst y.
  rewrite N.eqb_refl in R1, R2. simpl in R1, R2.
  now rewrite (IH b R1 R2).
Qed.

Lemma str_ltb_cotrans (c : pystr) : forall a b,
  str_ltb c a = true -> str_ltb c b = true \/ str_ltb b a = true.
Proof.
  induction c as [|z c IH]; intros [|x a] [|y b]; simpl; try easy; auto.
  intros E. apply orb_true_iff in E as [E|E].
  - apply N.ltb_lt in E.
    destruct (N.ltb_spec z y) as [Hzy|Hzy]; [now left|].
    right. replace (y <? x) with true by (symmetry; apply N.ltb_lt; lia).
    reflexivity.
  - apply andb_true_iff in E as [E1 E2]. apply N.eqb_eq in E1. subst x.
    destruct (N.ltb_spec z y) as [Hzy|Hzy]; [now left|].
    destruct (N.ltb_spec y z) as [Hyz|Hyz]; [now right|].
    assert (y = z) by lia. subst y. rewrite N.eqb_refl. simpl.
    apply IH. exact E2.
Qed.

Lemma str_leb_total (a b : pystr) : str_leb a b = false -> str_leb b a = true.
Proof.
  unfold str_leb. intros E. apply negb_false_iff in E.
  now rewrite (str_ltb_asym _ _ E).
Qed.

Lemma str_leb_trans (a b c : pystr) :
  str_leb a b = true -> str_leb b c = true -> str_leb a c = true.
Proof.
  unfold str_leb. intros E1 E2.
  apply negb_true_iff in E1, E2. apply negb_true_iff.
  destruct (str_ltb c a) eqn:E; [|reflexivity].
  destruct (str_ltb_cotrans c a b E) as [E'|E']; congruence.
Qed.

Section SortedItems.
Context {A : Type}.
Implicit Types (x : pystr * A) (l : list (pystr * A)).

Lemma insert_by_key_perm x l : Permutation (insert_by_key x l) (x :: l).
Proof.
  induction l as [|y l IH]; [reflexivity|].
  simpl. destruct (str_leb (fst x) (fst y)); [reflexivity|].
  rewrite IH. apply perm_swap.
Qed.

Lemma sorted_items_perm l : Permutation (sorted_items l) l.
Proof.
  induction l as [|x l IH]; [reflexivity|].
  simpl. rewrite insert_by_key_perm. now constructor.
Qed.

Lemma insert_by_key_sorted x l :
  StronglySorted key_le l -> StronglySorted key_le (insert_by_key x l).
Proof.
  induction 1 as [|y l Hl IH Hy]; simpl.
  - repeat constructor.
  - destruct (str_leb (fst x) (fst y)) eqn:E.
    + constructor; [now constructor|].
      constructor; [exact E|].
      eapply Forall_impl; [exact Hy|].
      intros z Hz. eapply str_leb_trans; eassumption.
    + constructor; [exact IH|].
      rewrite (insert_by_key_perm x l).
      constructor; [now apply str_leb_total | exact Hy].
Qed.

Lemma sorted_items_sorted l : StronglySorted key_le (sorted_items l).
Proof.
  induction l as [|x l IH]; [constructor|].
  simpl. now apply insert_by_key_sorted.
Qed.

(** With pairwise different keys the order is strict. *)
Lemma sorted_items_strict l :
  NoDup (map fst l) -> StronglySorted key_lt (sorted_items l).
Proof.
  intros Hnd.
  assert (Hnd' : NoDup (map fst (sorted_items l))).
  { assert (HP : Permutation (map fst (sorted_items l)) (map fst l))
      by apply Permutation_map, sorted_items_perm.
    now rewrite HP. }
  pose proof (sorted_items_sorted l) as Hs.
  induction Hs as [|y l' Hl IH Hy]; [constructor|].
  simpl in Hnd'. apply NoDup_cons in Hnd' as [Hy' Hnd'].
  constructor; [now apply IH|].
  apply Forall_forall. intros z Hz.
  rewrite Forall_forall in Hy. specialize (Hy z Hz).
  unfold key_le, key_lt, str_leb in *. apply negb_true_iff in Hy.
  destruct (str_ltb (fst y) (fst z)) eqn:E; [reflexivity|].
  exfalso. apply Hy'. rewrite (str_ltb_trichotomy _ _ E Hy).
  apply list_elem_of_In, in_map, list_elem_of_In. exact Hz.
Qed.

End SortedItems.

(** ** Backend notices of a setting *)

Section SettingsFacts.
Import Settings.

Lemma override_loop items : forall out,
  for_each items
    (fun item =>
       match snd item with
       | CondTrue => ret tt
       | CondFalse => write (unavailable_notice (fst item))
       | CondOther v => write (requires_notice (fst item) v)
       end) out
  = (Ok tt, out ++ concat (map override_notice items)).
Proof.
  induction items as [|[name c] items IH]; intros out.
  - simpl. now rewrite app_nil_r.
  - cbn [for_each map concat]. unfold bind, override_notice at 1.
    destruct c; cbn [fst snd]; unfold ret, write; rewrite IH.
    + reflexivity.
    + now rewrite <- app_assoc.
    + now rewrite <- app_assoc.
Qed.

(** C4.  With an override mapping the notices are those of its entries,
    sorted by backend name, whatever the simple list is: nothing for [True],
    the unavailable notice for [False], the requires notice for any other
    value.  Without one, the list of both backends writes nothing, the list
    of QtWebKit alone writes only the QtWebKit notice, the list of
    QtWebEngine alone only the QtWebEngine notice, and any other list raises
    [ValueError] with nothing written. *)
Theorem backend_info_rules (opt : Option) (out : pystr) :
  (forall raw, raw_backends opt = Some raw ->
     _generate_setting_backend_info opt out
       = (Ok tt, out ++ concat (map override_notice (sorted_items raw))) /\
     forall bs,
       _generate_setting_backend_info
         {| raw_backends := Some raw; backends := bs |} out
       = _generate_setting_backend_info opt out) /\
  (forall name,
     override_notice (name, CondTrue) = [] /\
     override_notice (name, CondFalse)
       = [newline] ++ py "On " ++ name
         ++ ln ", this setting is unavailable." /\
     forall v, override_notice (name, CondOther v)
       = [newline] ++ py "On " ++ name ++ py ", this setting requires " ++ v
         ++ ln " or newer.") /\
  (raw_backends opt = None ->
     (backends opt = [QtWebKit; QtWebEngine] ->
      _generate_setting_backend_info opt out = (Ok tt, out)) /\
     (backends opt = [QtWebKit] ->
      _generate_setting_backend_info opt out
        = (Ok tt, out ++ [newline]
             ++ ln "This setting is only available with the QtWebKit backend.")) /\
     (backends opt = [QtWebEngine] ->
      _generate_setting_backend_info opt out
        = (Ok tt, out ++ [newline]
             ++ ln "This setting is only available with the QtWebEngine backend.")) /\
     (backends opt <> [QtWebKit; QtWebEngine] ->
      backends opt <> [QtWebKit] ->
      backends opt <> [QtWebEngine] ->
      exists msg,
        _generate_setting_backend_info opt out = (Raise (ValueError msg), out))).
Proof.
  split; [|split].
  - intros raw Hraw. unfold _generate_setting_backend_info.
    rewrite Hraw. simpl. rewrite override_loop. split; [reflexivity|].
    intros bs. reflexivity.
  - intros name. repeat split.
  - intros Hraw. unfold _generate_setting_backend_info. rewrite Hraw.
    repeat split.
    + intros ->. reflexivity.
    + intros ->. reflexivity.
    + intros ->. reflexivity.
    + intros H1 H2 H3. rewrite !decide_False by assumption.
      eexists. reflexivity.
Qed.

End SettingsFacts.

(** ** The usage formatter and the heap of argparse objects *)

Section UsageFacts.
Import Usage.
Context `{Argparse}.

Lemma with_option_strings_id (a : Manpage.Action) :
  with_option_strings a (Manpage.option_strings a) = a.
Proof. now destruct a. Qed.

Lemma with_option_strings_twice (a : Manpage.Action) v w :
  with_option_strings (with_option_strings a v) w = with_option_strings a w.
Proof. reflexivity. Qed.

(** What holds between the two loops: an action is saved and patched, or
    neither. *)
Definition patch_inv (h0 : Heap) (old : gmap ref (list pystr)) (hc : Heap)
    : Prop :=
  formatter_class hc = formatter_class h0 /\
  forall a,
    (old !! a = None /\ actions hc a = actions h0 a) \/
    (old !! a = Some (Manpage.option_strings (actions h0 a)) /\
     actions hc a = patched_action h0 a).

Lemma patch_option_strings_spec (h0 : Heap) (todo : list ref) :
  forall old hc,
    patch_inv h0 old hc ->
    NoDup (filter (flagged h0) todo) ->
    (forall a, a ∈ filter (flagged h0) todo -> old !! a = None) ->
    exists old' hc',
      patch_option_strings todo old hc = (Ok old', hc') /\
      patch_inv h0 old' hc' /\
      (forall a, a ∈ todo -> is_Some (old' !! a)) /\
      (forall a, is_Some (old !! a) -> is_Some (old' !! a)) /\
      (forall a, a ∉ todo -> old' !! a = old !! a).
Proof.
  induction todo as [|a rest IH]; intros old hc Hinv Hnd Hnew.
  - exists old, hc. repeat split; try assumption; try apply Hinv.
    + intros a Ha. inversion Ha.
    + auto.
  - cbn [patch_option_strings].
    unfold bind, get_option_strings, set_option_strings.
    set (strings := Manpage.option_strings (actions hc a)).
    set (hc1 := {| actions := _; formatter_class := _ |}).
    destruct Hinv as [Hfc Hinv].
    assert (Hstr : strings = Manpage.option_strings (actions h0 a) /\
                   with_option_strings (actions hc a)
                     (map Manpage.starred strings) = patched_action h0 a).
    { destruct (Hinv a) as [[Hold Hact]|[Hold Hact]].
      - subst strings. rewrite Hact. split; reflexivity.
      - assert (Hnf : Manpage.option_strings (actions h0 a) = []).
        { destruct (decide (flagged h0 a)) as [Hf|Hf].
          - rewrite Hnew in Hold; [discriminate|].
            rewrite filter_cons_True by assumption. left.
          - unfold flagged in Hf.
            destruct (Manpage.option_strings (actions h0 a)); [reflexivity|].
            exfalso. apply Hf. discriminate. }
        subst strings. rewrite Hact. unfold patched_action.
        rewrite Hnf. split; reflexivity. }
    destruct Hstr as [Hstr Hpatched].
    destruct (IH (<[a := strings]> old) hc1) as (old' & hc' & Hrun & Hinv' & Hin & Hmono & Hout).
    + split; [exact Hfc|]. intros b.
      destruct (decide (b = a)) as [->|Hb].
      * right. rewrite lookup_insert_eq. subst hc1. cbn [actions].
        rewrite decide_True by reflexivity.
        rewrite Hstr at 1. split; [reflexivity | exact Hpatched].
      * rewrite lookup_insert_ne by congruence. subst hc1. cbn [actions].
        rewrite decide_False by assumption. apply Hinv.
    + destruct (decide (flagged h0 a)) as [Hf|Hf].
      * rewrite filter_cons_True in Hnd by assumption.
        now apply NoDup_cons in Hnd as [_ Hnd].
      * now rewrite filter_cons_False in Hnd by assumption.
    + intros b Hb. assert (Hba : a <> b).
      { intros ->. destruct (decide (flagged h0 b)) as [Hf|Hf].
        - rewrite filter_cons_True in Hnd by assumption.
          now apply NoDup_cons in Hnd as [Hnd _].
        - apply list_elem_of_filter in Hb as [Hb _]. contradiction. }
      rewrite lookup_insert_ne by assumption. apply Hnew.
      destruct (decide (flagged h0 a)) as [Hf|Hf].
      * rewrite filter_cons_True by assumption. now right.
      * now rewrite filter_cons_False by assumption.
    + exists old', hc'. split; [exact Hrun|]. split; [exact Hinv'|].
      split; [|split].
      * intros b Hb. apply elem_of_cons in Hb as [->|Hb]; [|now apply Hin].
        apply Hmono. rewrite lookup_insert_eq. eauto.
      * intros b Hb. apply Hmono. rewrite lookup_insert.
        destruct (decide (a = b)); [eauto | exact Hb].
      * intros b Hb. apply not_elem_of_cons in Hb as [Hba Hb].
        rewrite (Hout b Hb). now rewrite lookup_insert_ne by congruence.
Qed.

Lemma restore_option_strings_spec (h0 : Heap) old (todo : list ref) :
  forall hc,
    formatter_class hc = formatter_class h0 ->
    (forall a, actions hc a = actions h0 a \/
               actions hc a = patched_action h0 a) ->
    (forall a, a ∈ todo ->
               old !! a = Some (Manpage.option_strings (actions h0 a))) ->
    exists hc',
      restore_option_strings todo old hc = (Ok tt, hc') /\
      formatter_class hc' = formatter_class h0 /\
      (forall a, a ∈ todo -> actions hc' a = actions h0 a) /\
      (forall a, a ∉ todo -> actions hc' a = actions hc a).
Proof.
  induction todo as [|a rest IH]; intros hc Hfc Hsh Hold.
  - exists hc. repeat split; try assumption.
    intros a Ha. inversion Ha.
  - cbn [restore_option_strings].
    rewrite (Hold a) by left.
    unfold bind, set_option_strings.
    set (hc1 := {| actions := _; formatter_class := _ |}).
    assert (Ha1 : actions hc1 a = actions h0 a).
    { subst hc1. cbn [actions]. rewrite decide_True by reflexivity.
      destruct (Hsh a) as [->| ->].
      - apply with_option_strings_id.
      - unfold patched_action. rewrite with_option_strings_twice.
        apply with_option_strings_id. }
    assert (Hb1 : forall b, b <> a -> actions hc1 b = actions hc b).
    { intros b Hb. subst hc1. cbn [actions].
      now rewrite decide_False by assumption. }
    destruct (IH hc1) as (hc' & Hrun & Hfc' & Hin & Hout).
    + exact Hfc.
    + intros b. destruct (decide (b = a)) as [->|Hb].
      * left. exact Ha1.
      * rewrite (Hb1 b Hb). apply Hsh.
    + intros b Hb. apply Hold. now right.
    + exists hc'. split; [exact Hrun|]. split; [exact Hfc'|]. split.
      * intros b Hb. destruct (decide (b ∈ rest)) as [Hr|Hr]; [now apply Hin|].
        apply elem_of_cons in Hb as [->|Hb]; [|contradiction].
        now rewrite (Hout a Hr).
      * intros b Hb. apply not_elem_of_cons in Hb as [Hba Hb].
        rewrite (Hout b Hb). now apply Hb1.
Qed.

(** The run of [_format_actions_usage]: the library method sees the patched
    actions; when it returns, every action is as before the call; when it
    raises, the actions stay patched. *)
Lemma format_actions_usage_run (acts : list ref) (groups : list MutexGroup)
    (h : Heap) :
  NoDup (filter (flagged h) acts) ->
  exists hp,
    formatter_class hp = formatter_class h /\
    (forall a, actions hp a = if decide (a ∈ acts) then patched_action h a
                              else actions h a) /\
    match HelpFormatter_format_actions_usage acts groups hp with
    | Ok r =>
        exists h', _format_actions_usage acts groups h = (Ok r, h') /\
                   formatter_class h' = formatter_class h /\
                   forall a, actions h' a = actions h a
    | Raise e => _format_actions_usage acts groups h = (Raise e, hp)
    end.
Proof.
  intros Hnd.
  destruct (patch_option_strings_spec h acts ∅ h)
    as (old & hp & Hpatch & [Hfc Hinv] & Hin & _ & Hout).
  { split; [reflexivity|]. intros a. left. split; [apply lookup_empty|reflexivity]. }
  { exact Hnd. }
  { intros a _. apply lookup_empty. }
  assert (Hsaved : forall a, a ∈ acts ->
            old !! a = Some (Manpage.option_strings (actions h a)) /\
            actions hp a = patched_action h a).
  { intros a Ha. destruct (Hinv a) as [[Hnone _]|Hsome]; [|exact Hsome].
    destruct (Hin a Ha) as [v Hv]. congruence. }
  exists hp. split; [exact Hfc|]. split.
  { intros a. destruct (decide (a ∈ acts)) as [Ha|Ha].
    - apply Hsaved, Ha.
    - destruct (Hinv a) as [[_ Hact]|[Hsome _]]; [exact Hact|].
      rewrite (Hout a Ha), lookup_empty in Hsome. discriminate. }
  unfold _format_actions_usage, bind. rewrite Hpatch.
  destruct (HelpFormatter_format_actions_usage acts groups hp) as [r|e];
    [|reflexivity].
  destruct (restore_option_strings_spec h old acts hp)
    as (h' & Hrestore & Hfc' & Hin' & Hout').
  { exact Hfc. }
  { intros a. destruct (Hinv a) as [[_ Hact]|[_ Hact]]; auto. }
  { intros a Ha. apply Hsaved, Ha. }
  exists h'. rewrite Hrestore. split; [reflexivity|]. split; [exact Hfc'|].
  intros a. destruct (decide (a ∈ acts)) as [Ha|Ha]; [now apply Hin'|].
  rewrite (Hout' a Ha).
  destruct (Hinv a) as [[_ Hact]|[Hsome _]]; [exact Hact|].
  rewrite (Hout a Ha), lookup_empty in Hsome. discriminate.
Qed.

End UsageFacts.

(** ** The command reference *)

Section CommandFacts.
Import Usage Commands.
Context `{PyBuiltins} `{Argparse}.

Lemma classify_fold (registry : list (pystr * Command)) : forall b,
  fold_left classify_step registry b =
    {| normal_cmds := normal_cmds b ++ filter in_normal_class registry;
       other_cmds := other_cmds b ++ filter in_other_class registry;
       debug_cmds := debug_cmds b ++ filter in_debug_class registry |}.
Proof.
  induction registry as [|item registry IH]; intros b.
  - simpl. rewrite !app_nil_r. now destruct b.
  - cbn [fold_left]. rewrite IH. unfold classify_step.
    destruct (deprecated (snd item)) eqn:Ed.
    { rewrite !filter_cons_False; [reflexivity| | |];
        unfold in_normal_class, in_other_class, in_debug_class;
        intros [E _]; congruence. }
    destruct (decide (normal ∈ modes (snd item))) as [Hm|Hm].
    2:{ rewrite bool_decide_eq_false_2 by assumption. cbn [negb].
        cbn [normal_cmds other_cmds debug_cmds].
        rewrite (filter_cons_True in_other_class) by (split; assumption).
        rewrite !filter_cons_False;
          [now rewrite <- app_assoc| |];
          unfold in_normal_class, in_debug_class; tauto. }
    rewrite bool_decide_eq_true_2 by assumption. cbn [negb].
    rewrite (filter_cons_False in_other_class)
      by (unfold in_other_class; tauto).
    destruct (debug (snd item)) eqn:Eg;
      cbn [normal_cmds other_cmds debug_cmds].
    + rewrite (filter_cons_True in_debug_class) by (repeat split; assumption).
      rewrite (filter_cons_False in_normal_class)
        by (unfold in_normal_class; intros (_ & _ & E); congruence).
      now rewrite <- app_assoc.
    + rewrite (filter_cons_True in_normal_class) by (repeat split; assumption).
      rewrite (filter_cons_False in_debug_class)
        by (unfold in_debug_class; intros (_ & _ & E); congruence).
      now rewrite <- app_assoc.
Qed.

Lemma classify_filters (registry : list (pystr * Command)) :
  classify registry =
    {| normal_cmds := sorted_items (filter in_normal_class registry);
       other_cmds := sorted_items (filter in_other_class registry);
       debug_cmds := sorted_items (filter in_debug_class registry) |}.
Proof. unfold classify. now rewrite classify_fold. Qed.

Lemma elem_of_sorted_items {A} (x : pystr * A) l : x ∈ sorted_items l <-> x ∈ l.
Proof. now rewrite (sorted_items_perm l). Qed.

Lemma NoDup_keys_filter {A} (P : pystr * A -> Prop)
    `{forall x, Decision (P x)} (l : list (pystr * A)) :
  NoDup (map fst l) -> NoDup (map fst (filter P l)).
Proof.
  induction l as [|x l IH]; intros Hnd; [constructor|].
  simpl in Hnd. apply NoDup_cons in Hnd as [Hx Hnd].
  destruct (decide (P x)) as [Hp|Hp].
  - rewrite filter_cons_True by assumption. simpl.
    apply NoDup_cons. split; [|now apply IH].
    intros Hin. apply Hx.
    apply list_elem_of_In, in_map_iff in Hin as (y & Hy & Hin).
    apply list_elem_of_In, in_map_iff. exists y. split; [exact Hy|].
    apply list_elem_of_In in Hin. apply list_elem_of_filter in Hin as [_ Hin].
    now apply list_elem_of_In.
  - rewrite filter_cons_False by assumption. now apply IH.
Qed.

Lemma NoDup_keys_functional {A} (l : list (pystr * A)) k v v' :
  NoDup (map fst l) -> (k, v) ∈ l -> (k, v') ∈ l -> v = v'.
Proof.
  induction l as [|x l IH]; intros Hnd H1 H2; [inversion H1|].
  simpl in Hnd. apply NoDup_cons in Hnd as [Hx Hnd].
  assert (Hk : forall w, (k, w) ∈ l -> k ∈ map fst l).
  { intros w Hw. apply list_elem_of_In, in_map_iff. exists (k, w).
    split; [reflexivity | now apply list_elem_of_In]. }
  apply elem_of_cons in H1 as [E1|H1]; apply elem_of_cons in H2 as [E2|H2].
  - congruence.
  - subst x. exfalso. apply Hx. simpl. eapply Hk, H2.
  - subst x. exfalso. apply Hx. simpl. eapply Hk, H1.
  - now apply IH.
Qed.

(** The rows of a quick reference table are those of the commands, in the
    order of the list. *)
Lemma quickref_rows_in_order (cmds : list (pystr * Command)) :
  forall out rows,
    quickref_rows cmds out = Ok rows ->
    exists descs,
      length descs = length cmds /\
      rows = out ++ zip_with (fun item desc => quickref_row (fst item) desc)
                      cmds descs.
Proof.
  induction cmds as [|[name cmd] cmds IH]; intros out rows Hrun.
  - exists []. simpl in *. injection Hrun as <-. now rewrite app_nil_r.
  - cbn [quickref_rows] in Hrun.
    destruct (doc_first_line cmd) as [desc|e]; [|discriminate].
    cbn [rbind] in Hrun. destruct (IH _ _ Hrun) as (descs & Hlen & ->).
    exists (desc :: descs). split; [simpl; now rewrite Hlen|].
    now rewrite <- app_assoc.
Qed.

Lemma f_write_run (filename text : pystr) (files : FS) (c : pystr) (h : Heap) :
  f_write filename text {| fs := <[filename := c]> files; heap := h |}
  = (Ok tt, {| fs := <[filename := c ++ text]> files; heap := h |}).
Proof.
  unfold f_write. cbn [fs heap].
  now rewrite lookup_insert_eq, insert_insert_eq.
Qed.

Lemma bind_f_write {A} (filename text : pystr) (k : unit -> M World A)
    (files : FS) (c : pystr) (h : Heap) :
  bind (f_write filename text) k {| fs := <[filename := c]> files; heap := h |}
  = k tt {| fs := <[filename := c ++ text]> files; heap := h |}.
Proof. unfold bind. now rewrite f_write_run. Qed.

Lemma bind_ok {S A B} (m : M S A) (k : A -> M S B) s b s' :
  bind m k s = (Ok b, s') <->
  exists a s1, m s = (Ok a, s1) /\ k a s1 = (Ok b, s').
Proof.
  unfold bind. destruct (m s) as [[a|e] s1]; split.
  - intros Hk. now exists a, s1.
  - intros (a' & s1' & E & Hk). injection E as <- <-. exact Hk.
  - discriminate.
  - intros (a' & s1' & E & _). discriminate.
Qed.

(** The loop that writes the documentation of a bucket returns exactly when
    every command of the list is documented, and has then appended the
    texts in the order of the list. *)
Lemma write_docs_ok (filename : pystr) (cmds : list (pystr * Command)) :
  forall (files : FS) (c : pystr) (h : Heap) (w' : World),
    for_each cmds
      (fun item =>
         doc <- on_heap (_get_command_doc (fst item) (snd item)) ;;
         f_write filename doc)
      {| fs := <[filename := c]> files; heap := h |} = (Ok tt, w') <->
    exists docs h',
      docs_of cmds h docs h' /\
      w' = {| fs := <[filename := c ++ concat docs]> files; heap := h' |}.
Proof.
  induction cmds as [|item cmds IH]; intros files c h w'.
  - cbn [for_each]. unfold ret. split.
    + intros E. injection E as <-. exists [], h.
      split; [constructor|]. cbn [concat]. now rewrite app_nil_r.
    + intros (docs & h' & Hd & ->). inversion Hd; subst.
      cbn [concat]. now rewrite app_nil_r.
  - cbn [for_each]. rewrite bind_ok. split.
    + intros ([] & w1 & Hitem & Hrest).
      apply bind_ok in Hitem as (doc & w0 & Hdoc & Hw).
      unfold on_heap in Hdoc. cbn [fs heap] in Hdoc.
      destruct (_get_command_doc (fst item) (snd item) h) as [r h1] eqn:E.
      injection Hdoc as -> <-. rewrite f_write_run in Hw.
      injection Hw as <-.
      apply IH in Hrest as (docs & h' & Hd & ->).
      exists (doc :: docs), h'. split; [econstructor; eassumption|].
      cbn [concat]. now rewrite app_assoc.
    + intros (docs & h' & Hd & ->). inversion Hd as [|? ? doc docs' ? h1 ? E Hd']; subst.
      exists tt, {| fs := <[filename := c ++ doc]> files; heap := h1 |}.
      split.
      * apply bind_ok.
        exists doc, {| fs := <[filename := c]> files; heap := h1 |}.
        split; [|apply f_write_run].
        unfold on_heap. cbn [fs heap]. now rewrite E.
      * apply IH. exists docs', h'. split; [exact Hd'|].
        cbn [concat]. now rewrite app_assoc.
Qed.

Lemma write_bucket_ok (filename : pystr) (cmds : list (pystr * Command))
    (files : FS) (c : pystr) (h : Heap) (w' : World) :
  write_bucket filename cmds {| fs := <[filename := c]> files; heap := h |}
  = (Ok tt, w') <->
  exists q docs h',
    _get_command_quickref cmds = Ok q /\
    docs_of cmds h docs h' /\
    w' = {| fs := <[filename := c ++ bucket_text q docs]> files; heap := h' |}.
Proof.
  unfold write_bucket. rewrite bind_f_write. rewrite bind_ok.
  unfold lift, bucket_text. split.
  - intros (q & w1 & Hq & Hrest). injection Hq as Hq <-.
    rewrite bind_f_write in Hrest.
    apply write_docs_ok in Hrest as (docs & h' & Hd & ->).
    exists q, docs, h'. split; [exact Hq|]. split; [exact Hd|].
    now rewrite <- !app_assoc.
  - intros (q & docs & h' & Hq & Hd & ->).
    exists q, {| fs := <[filename := c ++ ln ".Quick reference"]> files;
                 heap := h |}.
    split; [now rewrite Hq|]. rewrite bind_f_write.
    apply write_docs_ok. exists docs, h'. split; [exact Hd|].
    now rewrite <- !app_assoc.
Qed.

Lemma bind_write_bucket_ok {A} (filename : pystr)
    (cmds : list (pystr * Command)) (k : unit -> M World A) (files : FS)
    (c : pystr) (h : Heap) (a : A) (w' : World) :
  bind (write_bucket filename cmds) k
    {| fs := <[filename := c]> files; heap := h |} = (Ok a, w') <->
  exists q docs h',
    _get_command_quickref cmds = Ok q /\
    docs_of cmds h docs h' /\
    k tt {| fs := <[filename := c ++ bucket_text q docs]> files; heap := h' |}
    = (Ok a, w').
Proof.
  rewrite bind_ok. split.
  - intros ([] & w1 & Hb & Hk).
    apply write_bucket_ok in Hb as (q & docs & h' & Hq & Hd & ->).
    now exists q, docs, h'.
  - intros (q & docs & h' & Hq & Hd & Hk).
    eexists tt, _. split; [|exact Hk].
    apply write_bucket_ok. now exists q, docs, h'.
Qed.

(** The document [generate_commands] leaves: under each of the three
    headings the quick reference and the documentation of the commands of
    that list, in the order of the list. *)
Lemma generate_commands_text (registry : list (pystr * Command))
    (commands_doc filename : pystr) (w w' : World) :
  generate_commands registry commands_doc filename w = (Ok tt, w') <->
  exists q1 d1 h1 q2 d2 h2 q3 d3,
    _get_command_quickref (normal_cmds (classify registry)) = Ok q1 /\
    docs_of (normal_cmds (classify registry)) (heap w) d1 h1 /\
    _get_command_quickref (other_cmds (classify registry)) = Ok q2 /\
    docs_of (other_cmds (classify registry)) h1 d2 h2 /\
    _get_command_quickref (debug_cmds (classify registry)) = Ok q3 /\
    docs_of (debug_cmds (classify registry)) h2 d3 (heap w') /\
    fs w'
    = <[filename :=
          FILE_HEADER ++ ln "= Commands" ++ [newline] ++ commands_doc
          ++ [newline] ++ ln "== Normal commands" ++ bucket_text q1 d1
          ++ [newline] ++ ln "== Commands not usable in normal mode"
          ++ bucket_text q2 d2
          ++ [newline] ++ ln "== Debugging commands"
          ++ ln "These commands are mainly intended for debugging. They are hidden if qutebrowser was started without the `--debug`-flag."
          ++ [newline] ++ bucket_text q3 d3]> (fs w).
Proof.
  unfold generate_commands. cbv zeta.
  set (b := classify registry).
  assert (Hopen : forall (k : unit -> M World unit),
            bind (open_write filename) k w
            = k tt {| fs := <[filename := []]> (fs w); heap := heap w |})
    by reflexivity.
  rewrite Hopen. rewrite !bind_f_write.
  rewrite bind_write_bucket_ok.
  split.
  - intros (q1 & d1 & h1 & Hq1 & Hd1 & Hrun).
    rewrite !bind_f_write in Hrun.
    apply bind_write_bucket_ok in Hrun as (q2 & d2 & h2 & Hq2 & Hd2 & Hrun).
    rewrite !bind_f_write in Hrun.
    apply write_bucket_ok in Hrun as (q3 & d3 & h3 & Hq3 & Hd3 & ->).
    exists q1, d1, h1, q2, d2, h2, q3, d3. cbn [fs heap].
    repeat (split; [assumption|]).
    f_equal. rewrite <- !app_assoc. reflexivity.
  - intros (q1 & d1 & h1 & q2 & d2 & h2 & q3 & d3
            & Hq1 & Hd1 & Hq2 & Hd2 & Hq3 & Hd3 & Hfs).
    exists q1, d1, h1. split; [exact Hq1|]. split; [exact Hd1|].
    rewrite !bind_f_write. apply bind_write_bucket_ok.
    exists q2, d2, h2. split; [exact Hq2|]. split; [exact Hd2|].
    rewrite !bind_f_write. apply write_bucket_ok.
    exists q3, d3, (heap w'). split; [exact Hq3|]. split; [exact Hd3|].
    destruct w' as [files' heap']. cbn [fs heap] in Hfs |- *.
    rewrite Hfs. f_equal. f_equal. rewrite <- !app_assoc. reflexivity.
Qed.

Lemma docs_of_length cmds h docs h' :
  docs_of cmds h docs h' -> length docs = length cmds.
Proof. induction 1; [reflexivity|]. simpl. now f_equal. Qed.

(** C6.  Every command of the registry that is not deprecated is in exactly
    one of the three lists: [other_cmds] when the normal mode is not among
    its modes, whatever its debug flag, else [debug_cmds] when its debug flag
    is set, else [normal_cmds]; each list is strictly sorted by command
    name.  The lists are what is emitted: the rows of a quick reference
    table are those of its list, in its order, and [generate_commands]
    returns exactly when the three tables and the documentation of every
    listed command are produced, and has then written, below the heading
    of each bucket, the table of its list followed by the documentation of
    its commands in the order of the list, normal commands first, then the
    commands not usable in normal mode, then the debugging commands. *)
Theorem command_buckets (registry : list (pystr * Command)) :
  NoDup (map fst registry) ->
  let b := classify registry in
  (forall item,
     item ∈ other_cmds b <->
     item ∈ registry /\ deprecated (snd item) = false /\
     normal ∉ modes (snd item)) /\
  (forall item,
     item ∈ debug_cmds b <->
     item ∈ registry /\ deprecated (snd item) = false /\
     normal ∈ modes (snd item) /\ debug (snd item) = true) /\
  (forall item,
     item ∈ normal_cmds b <->
     item ∈ registry /\ deprecated (snd item) = false /\
     normal ∈ modes (snd item) /\ debug (snd item) = false) /\
  (forall item,
     item ∈ registry -> deprecated (snd item) = false ->
     normal ∉ modes (snd item) ->
     item ∈ other_cmds b /\ (item ∉ debug_cmds b) /\
     (item ∉ normal_cmds b)) /\
  StronglySorted key_lt (normal_cmds b) /\
  StronglySorted key_lt (other_cmds b) /\
  StronglySorted key_lt (debug_cmds b) /\
  (forall cmds text,
     _get_command_quickref cmds = Ok text ->
     exists descs,
       length descs = length cmds /\
       text = join [newline]
                ([table_options; table_rule; py "|Command|Description"]
                 ++ zip_with (fun item desc => quickref_row (fst item) desc)
                      cmds descs
                 ++ [table_rule])) /\
  (forall commands_doc filename w w',
     generate_commands registry commands_doc filename w = (Ok tt, w') <->
     exists q1 d1 h1 q2 d2 h2 q3 d3,
       _get_command_quickref (normal_cmds b) = Ok q1 /\
       docs_of (normal_cmds b) (heap w) d1 h1 /\
       _get_command_quickref (other_cmds b) = Ok q2 /\
       docs_of (other_cmds b) h1 d2 h2 /\
       _get_command_quickref (debug_cmds b) = Ok q3 /\
       docs_of (debug_cmds b) h2 d3 (heap w') /\
       fs w'
       = <[filename :=
             FILE_HEADER ++ ln "= Commands" ++ [newline] ++ commands_doc
             ++ [newline] ++ ln "== Normal commands" ++ bucket_text q1 d1
             ++ [newline] ++ ln "== Commands not usable in normal mode"
             ++ bucket_text q2 d2
             ++ [newline] ++ ln "== Debugging commands"
             ++ ln "These commands are mainly intended for debugging. They are hidden if qutebrowser was started without the `--debug`-flag."
             ++ [newline] ++ bucket_text q3 d3]> (fs w)).
Proof.
  intros Hnd b.
  pose proof (generate_commands_text registry) as Hgen.
  subst b. revert Hgen. rewrite classify_filters.
  cbn [normal_cmds other_cmds debug_cmds]. intros Hgen.
  assert (Ho : forall item,
     item ∈ sorted_items (filter in_other_class registry) <->
     item ∈ registry /\ deprecated (snd item) = false /\
     normal ∉ modes (snd item)).
  { intros item. rewrite elem_of_sorted_items, list_elem_of_filter.
    unfold in_other_class. tauto. }
  assert (Hd : forall item,
     item ∈ sorted_items (filter in_debug_class registry) <->
     item ∈ registry /\ deprecated (snd item) = false /\
     normal ∈ modes (snd item) /\ debug (snd item) = true).
  { intros item. rewrite elem_of_sorted_items, list_elem_of_filter.
    unfold in_debug_class. tauto. }
  assert (Hn : forall item,
     item ∈ sorted_items (filter in_normal_class registry) <->
     item ∈ registry /\ deprecated (snd item) = false /\
     normal ∈ modes (snd item) /\ debug (snd item) = false).
  { intros item. rewrite elem_of_sorted_items, list_elem_of_filter.
    unfold in_normal_class. tauto. }
  split; [exact Ho|]. split; [exact Hd|]. split; [exact Hn|].
  split.
  { intros item Hin Hdep Hm. split; [apply Ho; auto|].
    split; [rewrite Hd | rewrite Hn]; tauto. }
  split; [apply sorted_items_strict, NoDup_keys_filter, Hnd|].
  split; [apply sorted_items_strict, NoDup_keys_filter, Hnd|].
  split; [apply sorted_items_strict, NoDup_keys_filter, Hnd|].
  split; [|exact Hgen].
  intros cmds text Hq. unfold _get_command_quickref in Hq.
  destruct (quickref_rows cmds _) as [rows|e] eqn:Hrows; [|discriminate].
  destruct (quickref_rows_in_order _ _ _ Hrows) as (descs & Hlen & ->).
  exists descs. split; [exact Hlen|].
  cbn [rbind] in Hq. injection Hq as <-. reflexivity.
Qed.

Lemma classify_skip_deprecated pre (item : pystr * Command) post :
  deprecated (snd item) = true ->
  classify (pre ++ item :: post) = classify (pre ++ post).
Proof.
  intros Hd.
  assert (E : forall b, classify_step b item = b)
    by (intros b; unfold classify_step; now rewrite Hd).
  unfold classify. rewrite !fold_left_app. cbn [fold_left]. now rewrite E.
Qed.

(** C7.  A deprecated command is in none of the three lists, whatever its
    modes and debug flag, no entry of the lists bears its name, and the run
    of [generate_commands] is the one on the registry without it: the
    document has no table row and no section for it. *)
Theorem deprecated_command_omitted pre (name : pystr) (cmd : Command) post :
  deprecated cmd = true ->
  let registry := pre ++ (name, cmd) :: post in
  let b := classify registry in
  b = classify (pre ++ post) /\
  (forall commands_doc filename,
     generate_commands registry commands_doc filename
     = generate_commands (pre ++ post) commands_doc filename) /\
  (((name, cmd) ∉ normal_cmds b) /\ ((name, cmd) ∉ other_cmds b) /\
   ((name, cmd) ∉ debug_cmds b)) /\
  (NoDup (map fst registry) ->
   (name ∉ map fst (normal_cmds b)) /\ (name ∉ map fst (other_cmds b)) /\
   (name ∉ map fst (debug_cmds b))).
Proof.
  intros Hd registry b.
  assert (Hb : b = classify (pre ++ post))
    by (apply (classify_skip_deprecated pre (name, cmd) post); exact Hd).
  assert (Hitem : forall item,
            item ∈ normal_cmds b \/ item ∈ other_cmds b \/ item ∈ debug_cmds b ->
            item ∈ registry /\ deprecated (snd item) = false).
  { intros item. subst b. rewrite classify_filters.
    cbn [normal_cmds other_cmds debug_cmds].
    rewrite !elem_of_sorted_items, !list_elem_of_filter.
    unfold in_normal_class, in_other_class, in_debug_class. tauto. }
  split; [exact Hb|]. split.
  { intros. unfold generate_commands. fold b. now rewrite Hb. }
  split.
  { repeat split; intros Hin;
      destruct (Hitem (name, cmd)) as [_ E]; auto; simpl in E; congruence. }
  intros Hnd.
  assert (Hname : forall l,
            (forall item, item ∈ l ->
               item ∈ registry /\ deprecated (snd item) = false) ->
            name ∉ map fst l).
  { intros l Hl Hin.
    apply list_elem_of_In, in_map_iff in Hin as ([k c] & Hk & Hin).
    simpl in Hk. subst k. apply list_elem_of_In in Hin.
    destruct (Hl _ Hin) as [Hreg Hdep]. simpl in Hdep.
    assert (c = cmd).
    { apply (NoDup_keys_functional registry name c cmd Hnd Hreg).
      unfold registry. apply elem_of_app. right. left. }
    congruence. }
  repeat split; apply Hname; intros item Hin; apply Hitem; auto.
Qed.

End CommandFacts.

(** ** Descriptions of the arguments of a command *)

Section CommandDocFacts.
Import Usage Commands.
Context `{PyBuiltins} `{Argparse}.

Lemma has_desc_true cmd key :
  has_desc cmd key = true -> exists desc, arg_descs cmd !! key = Some desc.
Proof. unfold has_desc. destruct (arg_descs cmd !! key); [eauto|discriminate]. Qed.

Lemma has_desc_false cmd key :
  has_desc cmd key = false -> arg_descs cmd !! key = None.
Proof. unfold has_desc. now destruct (arg_descs cmd !! key). Qed.

Lemma pos_arg_lines_spec cmd (args : list (pystr * pystr)) :
  if forallb (fun a => has_desc cmd (fst a)) args
  then exists lines, pos_arg_lines cmd args = Ok lines
  else exists key,
         key ∈ map fst args /\ arg_descs cmd !! key = None /\
         pos_arg_lines cmd args = Raise (no_description key (name cmd)).
Proof.
  induction args as [|[arg nm] args IH]; [simpl; eauto|].
  cbn [forallb pos_arg_lines fst map].
  destruct (has_desc cmd arg) eqn:E; cbn [andb].
  - apply has_desc_true in E as [desc ->].
    destruct (forallb _ args).
    + destruct IH as [lines ->]. simpl. eauto.
    + destruct IH as (key & Hin & Hnone & ->). exists key.
      split; [now right|]. split; [exact Hnone | reflexivity].
  - apply has_desc_false in E. rewrite E. exists arg.
    split; [left|]. split; [exact E | reflexivity].
Qed.

Lemma opt_arg_lines_spec cmd (args : list (pystr * (pystr * pystr))) :
  if forallb (fun a => has_desc cmd (fst a)) args
  then exists lines, opt_arg_lines cmd args = Ok lines
  else exists key,
         key ∈ map fst args /\ arg_descs cmd !! key = None /\
         opt_arg_lines cmd args = Raise (no_description key (name cmd)).
Proof.
  induction args as [|[arg [lf sf]] args IH]; [simpl; eauto|].
  cbn [forallb opt_arg_lines fst map].
  destruct (has_desc cmd arg) eqn:E; cbn [andb].
  - apply has_desc_true in E as [desc ->].
    destruct (forallb _ args).
    + destruct IH as [lines ->]. simpl. eauto.
    + destruct IH as (key & Hin & Hnone & ->). exists key.
      split; [now right|]. split; [exact Hnone | reflexivity].
  - apply has_desc_false in E. rewrite E. exists arg.
    split; [left|]. split; [exact E | reflexivity].
Qed.

Lemma doc_args_spec cmd :
  if forallb (fun a => has_desc cmd (fst a)) (pos_args cmd)
     && forallb (fun a => has_desc cmd (fst a)) (opt_args cmd)
  then exists lines, _get_command_doc_args cmd = Ok lines
  else exists key,
         key ∈ map fst (pos_args cmd) ++ map fst (opt_args cmd) /\
         arg_descs cmd !! key = None /\
         _get_command_doc_args cmd = Raise (no_description key (name cmd)).
Proof.
  unfold _get_command_doc_args.
  pose proof (pos_arg_lines_spec cmd (pos_args cmd)) as Hp.
  pose proof (opt_arg_lines_spec cmd (opt_args cmd)) as Ho.
  destruct (forallb _ (pos_args cmd)); cbn [andb].
  - destruct Hp as [plines Hp].
    assert (Hpos : exists pos,
              match pos_args cmd with
              | [] => Ok []
              | _ :: _ =>
                  rbind (pos_arg_lines cmd (pos_args cmd))
                    (fun lines =>
                       Ok ([[]; py "==== positional arguments"] ++ lines))
              end = Ok pos).
    { destruct (pos_args cmd); [eauto|]. rewrite Hp. simpl. eauto. }
    destruct Hpos as [pos ->]. cbn [rbind].
    destruct (forallb _ (opt_args cmd)).
    + destruct Ho as [olines Ho].
      destruct (opt_args cmd); [simpl; eauto|]. rewrite Ho. simpl. eauto.
    + destruct Ho as (key & Hin & Hnone & Ho). exists key.
      split; [apply elem_of_app; now right|]. split; [exact Hnone|].
      destruct (opt_args cmd); [inversion Hin|]. now rewrite Ho.
  - destruct Hp as (key & Hin & Hnone & Hp). exists key.
    split; [apply elem_of_app; now left|]. split; [exact Hnone|].
    destruct (pos_args cmd); [inversion Hin|]. now rewrite Hp.
Qed.

Lemma count_lines_spec cmd (params : list Param) :
  if forallb (count_described cmd) params
  then exists lines, count_lines cmd params = Ok lines
  else exists param,
         param ∈ params /\ is_count_value param = true /\
         arg_descs cmd !! param_name param = None /\
         arg_descs cmd !! py "count" = None /\
         count_lines cmd params
           = Raise (no_count_description (param_name param) (name cmd)).
Proof.
  induction params as [|p params IH]; [simpl; eauto|].
  cbn [forallb count_lines]. unfold count_described at 1.
  destruct (is_count_value p) eqn:Ec; cbn [negb orb].
  2:{ destruct (forallb _ params).
      - exact IH.
      - destruct IH as (q & Hin & Hq). exists q. split; [now right | exact Hq]. }
  destruct (has_desc cmd (param_name p)) eqn:E1; cbn [orb].
  { apply has_desc_true in E1 as [desc ->]. cbn [rbind andb].
    destruct (forallb _ params).
    - destruct IH as [lines ->]. simpl. eauto.
    - destruct IH as (q & Hin & Hc & Hn & Hn' & ->). exists q.
      split; [now right|]. repeat split; assumption. }
  apply has_desc_false in E1. rewrite E1.
  destruct (has_desc cmd (py "count")) eqn:E2; cbn [andb].
  { apply has_desc_true in E2 as [desc E2]. rewrite E2. cbn [rbind].
    destruct (forallb _ params).
    - destruct IH as [lines ->]. simpl. eauto.
    - destruct IH as (q & Hin & Hc & Hn & Hn' & _). congruence. }
  apply has_desc_false in E2. rewrite E2. exists p.
  split; [left|]. split; [exact Ec|]. repeat split; assumption.
Qed.

(** The run of [_get_command_doc] once the syntax has been rendered. *)
Lemma get_command_doc_run n cmd h u h1 :
  _get_cmd_syntax n cmd h = (Ok u, h1) ->
  _get_command_doc n cmd h =
    match _get_command_doc_args cmd with
    | Raise e => (Raise e, h1)
    | Ok args =>
        match _get_command_doc_count cmd with
        | Raise e => (Raise e, h1)
        | Ok count =>
            (Ok (join [newline]
                   ((((([py "[[" ++ n ++ py "]]"; py "=== " ++ n]
                        ++ (if bool_decide (u <> n)
                            then [py "Syntax: +:" ++ u ++ py "+"; []] else []))
                       ++ [short_desc cmd]
                       ++ match long_desc cmd with
                          | [] => []
                          | _ :: _ => [[]; long_desc cmd]
                          end)
                      ++ args) ++ count) ++ _get_command_doc_notes cmd
                    ++ [[]; []])), h1)
        end
    end.
Proof.
  intros Hs. unfold _get_command_doc, bind, lift, ret. rewrite Hs.
  destruct (_get_command_doc_args cmd) as [args|e]; [|reflexivity].
  destruct (_get_command_doc_count cmd) as [count|e]; [|reflexivity].
  do 2 f_equal.
  destruct (bool_decide (u <> n)), (long_desc cmd); cbn [app];
    rewrite <- ?app_assoc; reflexivity.
Qed.

(** C5.  When every key the command refers to has a description, the
    argument and count sections are produced and [_get_command_doc] returns
    the documentation.  Otherwise some key without a description is named,
    with the command, in the [KeyError] raised: an argument key by
    [_get_command_doc_args], or the name of a count parameter, for which
    [count] has no description either, by [_get_command_doc_count]; and
    [_get_command_doc] raises that error. *)
Theorem command_doc_descriptions (cmd : Command) :
  (keys_described cmd = true ->
   (exists args count,
      _get_command_doc_args cmd = Ok args /\
      _get_command_doc_count cmd = Ok count) /\
   (forall n h u h1,
      _get_cmd_syntax n cmd h = (Ok u, h1) ->
      exists doc, _get_command_doc n cmd h = (Ok doc, h1))) /\
  (keys_described cmd = false ->
   exists key e,
     arg_descs cmd !! key = None /\
     ((key ∈ map fst (pos_args cmd) ++ map fst (opt_args cmd) /\
       e = KeyError (py "No description for arg " ++ str_repr key
                     ++ py " of command '" ++ name cmd ++ py "'!") /\
       _get_command_doc_args cmd = Raise e) \/
      ((exists param, param ∈ handler_params cmd /\
                      is_count_value param = true /\
                      param_name param = key) /\
       arg_descs cmd !! py "count" = None /\
       e = KeyError (py "No description for count arg " ++ str_repr key
                     ++ py " of command " ++ str_repr (name cmd) ++ py "!") /\
       (exists args, _get_command_doc_args cmd = Ok args) /\
       _get_command_doc_count cmd = Raise e)) /\
     (forall n h u h1,
        _get_cmd_syntax n cmd h = (Ok u, h1) ->
        _get_command_doc n cmd h = (Raise e, h1))).
Proof.
  unfold keys_described.
  pose proof (doc_args_spec cmd) as Ha.
  pose proof (count_lines_spec cmd (handler_params cmd)) as Hc.
  fold (_get_command_doc_count cmd) in Hc.
  destruct (forallb _ (pos_args cmd) && forallb _ (opt_args cmd)); cbn [andb].
  - destruct Ha as [args Ha].
    destruct (forallb (count_described cmd) (handler_params cmd)).
    + destruct Hc as [count Hc]. split; [|discriminate]. intros _. split.
      * eauto.
      * intros n h u h1 Hs. rewrite (get_command_doc_run n cmd h u h1 Hs).
        rewrite Ha, Hc. eauto.
    + split; [discriminate|]. intros _.
      destruct Hc as (p & Hin & Hcount & Hn & Hn' & Hc).
      exists (param_name p), (no_count_description (param_name p) (name cmd)).
      split; [exact Hn|]. split.
      * right. split; [exists p; auto|]. split; [exact Hn'|].
        split; [reflexivity|]. split; [eauto | exact Hc].
      * intros n h u h1 Hs. rewrite (get_command_doc_run n cmd h u h1 Hs).
        now rewrite Ha, Hc.
  - split; [discriminate|]. intros _.
    destruct Ha as (key & Hin & Hn & Ha).
    exists key, (no_description key (name cmd)).
    split; [exact Hn|]. split.
    + left. split; [exact Hin|]. split; [reflexivity | exact Ha].
    + intros n h u h1 Hs. rewrite (get_command_doc_run n cmd h u h1 Hs).
      now rewrite Ha.
Qed.

(** C9.  When [_format_actions_usage] returns, every action, and so its
    list of option strings, is as it was before the call, provided the
    actions of the list that have option strings are pairwise distinct
    objects; when [_get_cmd_syntax] returns, the parser's formatter class
    is the one it had before the call. *)
Theorem usage_rendering_restores :
  (forall acts groups h r h',
     NoDup (filter (flagged h) acts) ->
     _format_actions_usage acts groups h = (Ok r, h') ->
     forall a,
       Manpage.option_strings (actions h' a)
         = Manpage.option_strings (actions h a) /\
       actions h' a = actions h a) /\
  (forall n cmd h u h',
     _get_cmd_syntax n cmd h = (Ok u, h') ->
     formatter_class h' (parser cmd) = formatter_class h (parser cmd)).
Proof.
  split.
  - intros acts groups h r h' Hnd Hrun a.
    destruct (format_actions_usage_run acts groups h Hnd)
      as (hp & _ & _ & Hcase).
    destruct (HelpFormatter_format_actions_usage acts groups hp) as [r'|e].
    + destruct Hcase as (h'' & Hrun' & _ & Hact).
      rewrite Hrun' in Hrun. injection Hrun as _ <-.
      now rewrite Hact.
    + rewrite Hcase in Hrun. discriminate.
  - intros n cmd h u h' Hrun.
    unfold _get_cmd_syntax, bind, get_formatter_class, set_formatter_class,
      ret in Hrun.
    destruct (format_usage (parser cmd) _) as [[u'|e] h2]; [|discriminate].
    injection Hrun as _ <-. cbn [formatter_class].
    now rewrite decide_True by reflexivity.
Qed.

End CommandDocFacts.

(** ** Runs of the generators on concrete data *)

Section GeneratorRuns.
Import Manpage Settings Usage Commands.
Existing Instance AsciiBuiltins.

Ltac run := vm_compute; reflexivity.

(** A library whose usage line lists the option strings it is given. *)
Definition ListingArgparse : Argparse :=
  {| MutexGroup := unit;
     HelpFormatter_format_actions_usage := fun acts _ h =>
       Ok (join (py " ")
             (map (fun a => join (py "|") (option_strings (actions h a)))
                  acts));
     format_usage := fun p h => (Ok (ln "open [*--tab*] 'url'"), h) |}.
Existing Instance ListingArgparse.

Definition example_heap : Heap :=
  {| actions := fun r =>
       match r with
       | 1%positive =>
           {| dest := py "tab"; option_strings := [py "--tab"; py "-t"];
              metavar := None; choices := None;
              nargs := Some (NargsInt 0); help := None |}
       | _ =>
           {| dest := py "url"; option_strings := []; metavar := None;
              choices := None; nargs := None; help := None |}
       end;
     formatter_class := fun _ => HelpFormatter |}.

Definition example_cmd (nm : string) (dep dbg : bool) (ms : list KeyMode)
    (descs : list (pystr * pystr)) : Command :=
  {| name := py nm; deprecated := dep; debug := dbg; modes := ms;
     pos_args := [(py "url", py "url")];
     opt_args := [(py "tab", (py "--tab", py "-t"))];
     maxsplit := None; no_cmd_split := false; no_replace_variables := false;
     parser := 3%positive;
     handler_doc := Some (ln "Open a URL." ++ ln "" ++ py "Args: ...");
     handler_params :=
       [ {| param_name := py "url"; is_count_value := false |};
         {| param_name := py "count"; is_count_value := true |} ];
     short_desc := py "Open a URL."; long_desc := [];
     arg_descs := list_to_map descs |}.

Definition all_descs : list (pystr * pystr) :=
  [ (py "url", py "The URL to open.");
    (py "tab", py "Open in a new tab.");
    (py "count", py "The tab index.") ].

Definition example_registry : list (pystr * Command) :=
  [ (py "open", example_cmd "open" false false [normal] all_descs);
    (py "prompt-accept",
     example_cmd "prompt-accept" false true [other_mode (py "prompt")]
       all_descs);
    (py "debug-trace", example_cmd "debug-trace" false true [normal] all_descs);
    (py "back", example_cmd "back" false false [normal] all_descs);
    (py "old", example_cmd "old" true true [normal] all_descs) ].

Lemma backend_info_rules_witness :
  _generate_setting_backend_info
    {| raw_backends := Some [ (py "QtWebKit", CondFalse);
                              (py "QtWebEngine", CondOther (py "Qt 5.15")) ];
       backends := [QtWebKit] |} []
  = (Ok tt, [newline] ++ ln "On QtWebEngine, this setting requires Qt 5.15 or newer."
            ++ [newline] ++ ln "On QtWebKit, this setting is unavailable.") /\
  _generate_setting_backend_info
    {| raw_backends := None; backends := [QtWebKit] |} []
  = (Ok tt, [newline]
            ++ ln "This setting is only available with the QtWebKit backend.") /\
  exists msg,
    _generate_setting_backend_info
      {| raw_backends := None; backends := [QtWebEngine; QtWebKit] |} (py "x")
    = (Raise (ValueError msg), py "x").
Proof.
  split; [|split].
  - destruct (backend_info_rules
                {| raw_backends := Some [ (py "QtWebKit", CondFalse);
                     (py "QtWebEngine", CondOther (py "Qt 5.15")) ];
                   backends := [QtWebKit] |} []) as (P & _).
    destruct (P _ eq_refl) as [-> _]. run.
  - destruct (backend_info_rules
                {| raw_backends := None; backends := [QtWebKit] |} [])
      as (_ & _ & P).
    destruct (P eq_refl) as (_ & P' & _). exact (P' eq_refl).
  - destruct (backend_info_rules
                {| raw_backends := None;
                   backends := [QtWebEngine; QtWebKit] |} (py "x"))
      as (_ & _ & P).
    destruct (P eq_refl) as (_ & _ & _ & P').
    apply P'; discriminate.
Defined.

Definition no_tab_descs : list (pystr * pystr) :=
  [(py "url", py "The URL to open."); (py "count", py "The index.")].

Definition no_count_descs : list (pystr * pystr) :=
  [(py "url", py "The URL to open."); (py "tab", py "New tab.")].

Lemma command_doc_descriptions_witness :
  (exists doc,
     fst (_get_command_doc (py "open")
            (example_cmd "open" false false [normal] all_descs) example_heap)
     = Ok doc) /\
  (exists key e,
     arg_descs (example_cmd "open" false false [normal] no_tab_descs) !! key
       = None /\
     fst (_get_command_doc (py "open")
            (example_cmd "open" false false [normal] no_tab_descs)
            example_heap)
     = Raise e).
Proof.
  split.
  - destruct (command_doc_descriptions
                (example_cmd "open" false false [normal] all_descs))
      as [P _].
    destruct (P ltac:(run)) as [_ P'].
    destruct (_get_cmd_syntax (py "open")
                (example_cmd "open" false false [normal] all_descs)
                example_heap) as [[u|e] h1] eqn:E.
    + destruct (P' _ _ _ _ E) as [doc ->]. now exists doc.
    + apply (f_equal fst) in E. vm_compute in E. discriminate E.
  - destruct (command_doc_descriptions
                (example_cmd "open" false false [normal] no_tab_descs))
      as [_ P].
    destruct (P ltac:(run)) as (key & e & Hkey & _ & Hrun).
    exists key, e. split; [exact Hkey|].
    destruct (_get_cmd_syntax (py "open")
                (example_cmd "open" false false [normal] no_tab_descs)
                example_heap) as [[u|e'] h1] eqn:E.
    + now rewrite (Hrun _ _ _ _ E).
    + apply (f_equal fst) in E. vm_compute in E. discriminate E.
Defined.

(** The errors raised on the two kinds of missing description. *)
Example command_doc_missing_arg :
  fst (_get_command_doc (py "open")
         (example_cmd "open" false false [normal] no_tab_descs) example_heap)
  = Raise (KeyError (py "No description for arg 'tab' of command 'open'!")).
Proof. run. Qed.

Example command_doc_missing_count :
  fst (_get_command_doc (py "open")
         (example_cmd "open" false false [normal] no_count_descs) example_heap)
  = Raise (KeyError
             (py "No description for count arg 'count' of command 'open'!")).
Proof. run. Qed.

Example command_doc_text :
  fst (_get_command_doc (py "open")
         (example_cmd "open" false false [normal] all_descs) example_heap)
  = Ok (ln "[[open]]" ++ ln "=== open"
        ++ ln "Syntax: +:open [*--tab*] 'url'+" ++ ln ""
        ++ ln "Open a URL." ++ ln ""
        ++ ln "==== positional arguments"
        ++ ln "* +'url'+: The URL to open." ++ ln ""
        ++ ln "==== optional arguments"
        ++ ln "* +*-t*+, +*--tab*+: Open in a new tab." ++ ln ""
        ++ ln "==== count" ++ ln "The tab index." ++ ln "" ++ py "").
Proof. run. Qed.

Lemma command_buckets_witness :
  let b := classify example_registry in
  map fst (normal_cmds b) = [py "back"; py "open"] /\
  map fst (other_cmds b) = [py "prompt-accept"] /\
  map fst (debug_cmds b) = [py "debug-trace"] /\
  StronglySorted key_lt (normal_cmds b) /\
  ((py "prompt-accept",
    example_cmd "prompt-accept" false true [other_mode (py "prompt")]
      all_descs) ∈ other_cmds b) /\
  exists q1 d1 q2 d2 q3 d3,
    length d1 = 2%nat /\ length d2 = 1%nat /\ length d3 = 1%nat /\
    fs (snd (generate_commands example_registry (ln "Introduction.")
               (py "doc/help/commands.asciidoc")
               {| fs := ∅; heap := example_heap |}))
    !! py "doc/help/commands.asciidoc"
    = Some (FILE_HEADER ++ ln "= Commands" ++ [newline] ++ ln "Introduction."
            ++ [newline] ++ ln "== Normal commands" ++ bucket_text q1 d1
            ++ [newline] ++ ln "== Commands not usable in normal mode"
            ++ bucket_text q2 d2
            ++ [newline] ++ ln "== Debugging commands"
            ++ ln "These commands are mainly intended for debugging. They are hidden if qutebrowser was started without the `--debug`-flag."
            ++ [newline] ++ bucket_text q3 d3).
Proof.
  intros b.
  destruct (command_buckets example_registry)
    as (Ho & _ & _ & Hother & Hsn & _ & _ & _ & Hgen).
  { apply (bool_decide_unpack _); vm_compute; exact I. }
  split; [run|]. split; [run|]. split; [run|]. split; [exact Hsn|].
  split.
  { apply Ho. split; [|split].
    - right. left.
    - reflexivity.
    - apply (bool_decide_unpack _); vm_compute; exact I. }
  destruct (generate_commands example_registry (ln "Introduction.")
              (py "doc/help/commands.asciidoc")
              {| fs := ∅; heap := example_heap |}) as [[[]|e] w'] eqn:E.
  - apply Hgen in E
      as (q1 & d1 & h1 & q2 & d2 & h2 & q3 & d3
          & _ & Hd1 & _ & Hd2 & _ & Hd3 & Hfs).
    exists q1, d1, q2, d2, q3, d3.
    split; [now rewrite (docs_of_length _ _ _ _ Hd1)|].
    split; [now rewrite (docs_of_length _ _ _ _ Hd2)|].
    split; [now rewrite (docs_of_length _ _ _ _ Hd3)|].
    cbn [snd]. rewrite Hfs. apply lookup_insert_eq.
  - apply (f_equal fst) in E. vm_compute in E. discriminate E.
Defined.

Lemma deprecated_command_omitted_witness :
  classify example_registry
  = classify (removelast example_registry) /\
  forall commands_doc filename,
    generate_commands example_registry commands_doc filename
    = generate_commands (removelast example_registry) commands_doc filename.
Proof.
  destruct (deprecated_command_omitted (removelast example_registry)
              (py "old") (example_cmd "old" true true [normal] all_descs) []
              eq_refl) as (Hb & Hgen & _).
  split; [exact Hb | exact Hgen].
Defined.

Lemma usage_rendering_restores_witness :
  let run1 := _format_actions_usage [1; 2; 2]%positive [] example_heap in
  let run2 := _get_cmd_syntax (py "open")
                (example_cmd "open" false false [normal] all_descs)
                example_heap in
  fst run1 = Ok (py "*--tab*|*-t*  ") /\
  option_strings (actions (snd run1) 1%positive) = [py "--tab"; py "-t"] /\
  fst run2 = Ok (py "open [*--tab*] 'url'") /\
  formatter_class (snd run2) 3%positive = HelpFormatter.
Proof.
  intros run1 run2. destruct usage_rendering_restores as [P1 P2].
  split; [run|]. split; [|split; [run|]].
  - subst run1.
    destruct (_format_actions_usage [1; 2; 2]%positive [] example_heap)
      as [[r|e] h'] eqn:E.
    + refine (proj1 (P1 _ _ _ _ _ _ E 1%positive)).
      apply (bool_decide_unpack _); vm_compute; exact I.
    + apply (f_equal fst) in E. vm_compute in E. discriminate E.
  - subst run2.
    destruct (_get_cmd_syntax (py "open")
                (example_cmd "open" false false [normal] all_descs)
                example_heap) as [[u|e] h'] eqn:E.
    + exact (P2 _ _ _ _ _ E).
    + apply (f_equal fst) in E. vm_compute in E. discriminate E.
Defined.

End GeneratorRuns.

(** The hypothesis of C9 on the list of actions is needed: an action with
    option strings that is listed twice is saved a second time after it has
    been patched, and is left with the patched strings. *)
Section DuplicateAction.
Import Manpage Usage.

Example format_actions_usage_duplicate :
  let run := _format_actions_usage (H := ListingArgparse) [1; 1]%positive []
               example_heap in
  fst run = Ok (py "**--tab**|**-t** **--tab**|**-t**") /\
  option_strings (actions (snd run) 1%positive) = [py "*--tab*"; py "*-t*"].
Proof. split; vm_compute; reflexivity. Qed.

End DuplicateAction.

(** * Further properties of the generators *)

(** ** The block patcher: what a call can do to the file system *)

Section PatcherFrame.
Import BlockPatcher.
Context `{PyBuiltins}.


(** X2.  When the target file does not exist, [_format_block] raises
    [FileNotFoundError] for it, and the temporary file it had created is
    removed again. *)
Theorem format_block_missing_file (fs : FS) tmpname filename what data :
  fs !! tmpname = None ->
  fs !! filename = None ->
  tmpname <> filename ->
  _format_block tmpname filename what data fs
    = (Raise (FileNotFoundError filename), fs).
Proof.
  intros Htmp Hfile Hne.
  unfold _format_block, try_except_else, bind, mkstemp, open_read,
    os_remove, raise.
  rewrite lookup_insert_ne, Hfile by assumption.
  rewrite lookup_insert_eq. now rewrite delete_insert_id.
Qed.

(** X3.  Patching is idempotent on whole lines: on a file with one start
    marker line followed by one end marker line, and data that is empty or
    ends with a line feed and has no marker line, a second call with the
    same data succeeds and leaves the file the first call left. *)
Theorem format_block_idempotent (fs : FS) tmp1 tmp2 filename what data content
    pre sline mid eline suf :
  fs !! tmp1 = None ->
  fs !! tmp2 = None ->
  fs !! filename = Some content ->
  readlines content = pre ++ [sline] ++ mid ++ [eline] ++ suf ->
  strip sline = start_marker (str_upper what) ->
  strip eline = end_marker (str_upper what) ->
  Forall (plain (str_upper what)) (pre ++ mid ++ suf) ->
  concat data = [] \/ (exists body, concat data = body ++ [newline]) ->
  Forall (plain (str_upper what)) (readlines (concat data)) ->
  exists fs1,
    _format_block tmp1 filename what data fs = (Ok tt, fs1) /\
    _format_block tmp2 filename what data fs1 = (Ok tt, fs1).
Proof.
  intros Htmp1 Htmp2 Hfile Hlines Hs He Hp Hwhole Hdata.
  assert (Hne : filename <> tmp2) by congruence.
  apply Forall_app in Hp as [Hpre Hp]. apply Forall_app in Hp as [Hmid Hsuf].
  set (new := concat pre ++ sline ++ concat data ++ eline ++ concat suf).
  exists (<[filename := new]> fs). split.
  - eapply format_block_replace; eauto.
    apply Forall_app; split; [|apply Forall_app; split]; assumption.
  - rewrite (format_block_replace (<[filename := new]> fs) tmp2 filename
               what data new pre sline (readlines (concat data)) eline suf).
    + now rewrite insert_insert_eq.
    + now rewrite lookup_insert_ne.
    + apply lookup_insert_eq.
    + unfold new. eapply readlines_patched; eauto.
    + assumption.
    + assumption.
    + apply Forall_app; split; [|apply Forall_app; split]; assumption.
Qed.

End PatcherFrame.

(** ** The manpage options: errors and the splice into the manpage *)

Section ManpageErrors.
Import Manpage.
Context `{PyBuiltins}.

(** The arities [_format_action_args] knows by name. *)
Definition named_arities : list pystr := [py "?"; py "*"; py "+"; py "..."].

(** The actions [_format_action] cannot format: help not suppressed, at
    least one option string, an arity that is a string other than the four
    named ones, and an explicit string metavar. *)
Definition unformattable (a : Action) : bool :=
  negb (bool_decide (help a = Some SUPPRESS))
  && negb (bool_decide (option_strings a = []))
  && match nargs a, metavar a with
     | Some (NargsStr s), Some (MetavarStr _) =>
         negb (bool_decide (s ∈ named_arities))
     | _, _ => false
     end.

Definition cannot_multiply : exn :=
  TypeError (py "can't multiply sequence by non-int of type 'str'").

Lemma format_action_args_ok (a : Action) :
  match nargs a, metavar a with
  | Some (NargsStr s), Some (MetavarStr _) =>
      negb (bool_decide (s ∈ named_arities))
  | _, _ => false
  end = false ->
  exists r, _format_action_args a = Ok r.
Proof.
  intros Hok. unfold _format_action_args, nargs_is.
  destruct (get_action_metavar_default a) as [mv Hmv].
  destruct (nargs a) as [[k|s]|] eqn:En; [| |eauto].
  - rewrite !bool_decide_eq_false_2 by discriminate.
    unfold _get_action_metavar.
    destruct (metavar a) as [[m|t]|]; simpl; eauto.
    destruct (choices a); eauto.
  - destruct (decide (s = py "?")) as [->|H1].
    { rewrite bool_decide_eq_true_2 by reflexivity. rewrite Hmv. simpl. eauto. }
    rewrite (bool_decide_eq_false_2 (Some (NargsStr s) = _)) by congruence.
    destruct (decide (s = py "*")) as [->|H2].
    { rewrite bool_decide_eq_true_2 by reflexivity. rewrite Hmv. simpl. eauto. }
    rewrite (bool_decide_eq_false_2 (Some (NargsStr s) = _)) by congruence.
    destruct (decide (s = py "+")) as [->|H3].
    { rewrite bool_decide_eq_true_2 by reflexivity. rewrite Hmv. simpl. eauto. }
    rewrite (bool_decide_eq_false_2 (Some (NargsStr s) = _)) by congruence.
    destruct (decide (s = py "...")) as [->|H4].
    { rewrite bool_decide_eq_true_2 by reflexivity. eauto. }
    rewrite (bool_decide_eq_false_2 (Some (NargsStr s) = _)) by congruence.
    unfold _get_action_metavar.
    destruct (metavar a) as [[m|t]|]; simpl; eauto.
    + exfalso. apply negb_false_iff, bool_decide_eq_true_1 in Hok.
      unfold named_arities in Hok.
      rewrite !elem_of_cons in Hok. rewrite elem_of_nil in Hok. tauto.
    + destruct (choices a); eauto.
Qed.

Lemma format_action_args_raises (a : Action) s m :
  nargs a = Some (NargsStr s) ->
  metavar a = Some (MetavarStr m) ->
  s ∉ named_arities ->
  _format_action_args a = Raise cannot_multiply.
Proof.
  intros En Em Hs. unfold named_arities in Hs.
  rewrite !not_elem_of_cons in Hs. destruct Hs as (H1 & H2 & H3 & H4 & _).
  unfold _format_action_args, nargs_is. rewrite En.
  rewrite !bool_decide_eq_false_2 by congruence.
  unfold _get_action_metavar. now rewrite Em.
Qed.

Lemma format_action_cases (a : Action) :
  if unformattable a
  then _format_action a = Raise cannot_multiply
  else exists r, _format_action a = Ok r.
Proof.
  unfold unformattable, _format_action.
  destruct (bool_decide (help a = Some SUPPRESS)); cbn [negb andb]; [eauto|].
  destruct (option_strings a) as [|o os] eqn:Eo.
  - rewrite bool_decide_eq_true_2 by reflexivity. cbn [negb andb].
    destruct (get_action_metavar_default a) as [mv ->]. simpl. eauto.
  - rewrite (bool_decide_eq_false_2 (o :: os = [])) by discriminate.
    cbn [negb andb].
    destruct (nargs a) as [[k|s]|] eqn:En.
    + destruct (bool_decide (Some (NargsInt k) = Some (NargsInt 0)));
        [simpl; eauto|].
      destruct (format_action_args_ok a) as [r ->]; [now rewrite En|].
      simpl. eauto.
    + rewrite (bool_decide_eq_false_2 (Some (NargsStr s) = Some (NargsInt 0)))
        by discriminate.
      destruct (metavar a) as [[m|t]|] eqn:Em.
      * destruct (decide (s ∈ named_arities)) as [Hs|Hs].
        -- rewrite bool_decide_eq_true_2 by assumption. cbn [negb].
           destruct (format_action_args_ok a) as [r ->].
           { rewrite En, Em. now rewrite bool_decide_eq_true_2. }
           simpl. eauto.
        -- rewrite bool_decide_eq_false_2 by assumption. cbn [negb].
           now rewrite (format_action_args_raises a s m En Em Hs).
      * destruct (format_action_args_ok a) as [r ->]; [now rewrite En, Em|].
        simpl. eauto.
      * destruct (format_action_args_ok a) as [r ->]; [now rewrite En, Em|].
        simpl. eauto.
    + rewrite (bool_decide_eq_false_2 (None = Some (NargsInt 0)))
        by discriminate.
      destruct (format_action_args_ok a) as [r ->]; [now rewrite En|].
      simpl. eauto.
Qed.

(** X4.  [_format_action] raises for exactly one kind of action: one whose
    help is not suppressed, that has option strings, whose arity is a string
    other than [?], [*], [+] and [...] and whose metavar is an explicit
    string; the error is the [TypeError] of multiplying a list by a string.
    Every other action is formatted. *)
Theorem format_action_raises_iff (a : Action) :
  (unformattable a = true <-> exists e, _format_action a = Raise e) /\
  (unformattable a = true -> _format_action a = Raise cannot_multiply) /\
  (unformattable a = false -> exists r, _format_action a = Ok r).
Proof.
  pose proof (format_action_cases a) as Hc.
  destruct (unformattable a).
  - split; [|split]; [split; eauto | auto | discriminate].
  - destruct Hc as [r Hr]. split; [|split].
    + split; [discriminate|]. intros [e He]. congruence.
    + discriminate.
    + eauto.
Qed.

(** The same action with another arity. *)
Definition with_nargs (a : Action) (n : option nargs_t) : Action :=
  {| dest := dest a; option_strings := option_strings a;
     metavar := metavar a; choices := choices a; nargs := n;
     help := help a |}.

(** X5.  The entry of a positional action never shows its arity: an action
    without option strings is formatted the same whatever its [nargs], as
    its single metavar in emphasis. *)
Theorem format_action_positional_ignores_nargs (a : Action) (n : option nargs_t) :
  option_strings a = [] ->
  _format_action (with_nargs a n) = _format_action a /\
  (help a <> Some SUPPRESS ->
   exists mv,
     _get_action_metavar a (NargsInt 1) = Ok mv /\
     _format_action a
       = Ok (Some (py "*" ++ mv ++ py "*::" ++ [newline] ++ py "    "
                   ++ format_opt (help a) ++ [newline]))).
Proof.
  intros Ho. split.
  - unfold _format_action, with_nargs. cbn [help option_strings].
    rewrite Ho. reflexivity.
  - intros Hh. destruct (get_action_metavar_default a) as [mv Hmv].
    exists mv. split; [exact Hmv|].
    unfold _format_action. rewrite bool_decide_eq_false_2 by assumption.
    rewrite Ho, Hmv. cbn [rbind]. now rewrite <- !app_assoc.
Qed.

Lemma action_lines_raises (actions : list Action) : forall groupdata,
  existsb unformattable actions = true ->
  action_lines actions groupdata = Raise cannot_multiply.
Proof.
  induction actions as [|a actions IH]; intros groupdata Hex; [discriminate|].
  cbn [existsb action_lines] in *.
  pose proof (format_action_cases a) as Ha.
  destruct (unformattable a); [now rewrite Ha|].
  destruct Ha as [[d|] ->]; cbn [rbind]; now apply IH.
Qed.

Lemma action_lines_ok (actions : list Action) : forall groupdata,
  existsb unformattable actions = false ->
  exists lines, action_lines actions groupdata = Ok lines.
Proof.
  induction actions as [|a actions IH]; intros groupdata Hex; [simpl; eauto|].
  cbn [existsb action_lines] in *.
  pose proof (format_action_cases a) as Ha.
  destruct (unformattable a); [discriminate|].
  destruct Ha as [[d|] ->]; cbn [rbind]; now apply IH.
Qed.

(** Some action of some group cannot be formatted. *)
Definition has_unformattable (parser : Parser) : bool :=
  existsb (fun g => existsb unformattable (_group_actions g))
    (_action_groups parser).

Lemma group_texts_cases (gs : list Group) : forall groups,
  if existsb (fun g => existsb unformattable (_group_actions g)) gs
  then group_texts gs groups = Raise cannot_multiply
  else exists texts, group_texts gs groups = Ok texts.
Proof.
  induction gs as [|g gs IH]; intros groups; [simpl; eauto|].
  cbn [existsb group_texts]. unfold group_text.
  destruct (existsb unformattable (_group_actions g)) eqn:Eg; cbn [orb].
  - now rewrite action_lines_raises.
  - destruct (action_lines_ok (_group_actions g)
                (match description g with
                 | Some d => [py "=== " ++ format_opt (title g)] ++ [d]
                 | None => [py "=== " ++ format_opt (title g)]
                 end) Eg) as [lines Hl].
    cbv zeta. rewrite Hl. cbn [rbind]. apply IH.
Qed.

(** X6.  [regenerate_manpage] fails before it touches any file when some
    action of the parser cannot be formatted: it raises that [TypeError]
    and creates no temporary file; otherwise the options text is built and
    handed to [_format_block] for the block [options]. *)
Theorem regenerate_manpage_format_error (parser : Parser)
    (tmpname filename : pystr) (fs : FS) :
  if has_unformattable parser
  then regenerate_manpage parser tmpname filename fs
       = (Raise cannot_multiply, fs)
  else exists options,
         manpage_options parser = Ok options /\
         regenerate_manpage parser tmpname filename fs
         = BlockPatcher._format_block tmpname filename (py "options")
             (chars options) fs.
Proof.
  unfold has_unformattable, regenerate_manpage, manpage_options, bind, lift.
  pose proof (group_texts_cases (_action_groups parser) []) as Hg.
  destruct (existsb _ (_action_groups parser)).
  - now rewrite Hg.
  - destruct Hg as [texts ->]. cbn [rbind]. eauto.
Qed.

(** X7.  The splice of the options into the manpage: when the options text
    is built and the manpage has one start marker line followed by one end
    marker line for [OPTIONS], [regenerate_manpage] leaves the manpage with
    exactly the options text between the two marker lines and everything
    outside them as it was. *)
Theorem regenerate_manpage_splices (parser : Parser)
    (options tmpname filename : pystr) (fs : FS) content pre sline mid eline
    suf :
  manpage_options parser = Ok options ->
  fs !! tmpname = None ->
  fs !! filename = Some content ->
  readlines content = pre ++ [sline] ++ mid ++ [eline] ++ suf ->
  strip sline = BlockPatcher.start_marker (str_upper (py "options")) ->
  strip eline = BlockPatcher.end_marker (str_upper (py "options")) ->
  Forall (BlockPatcher.plain (str_upper (py "options"))) (pre ++ mid ++ suf) ->
  regenerate_manpage parser tmpname filename fs
  = (Ok tt, <[filename := concat pre ++ sline ++ options ++ eline
                          ++ concat suf]> fs).
Proof.
  intros Hopt Htmp Hfile Hlines Hs He Hp.
  unfold regenerate_manpage, bind, lift. rewrite Hopt.
  rewrite (format_block_replace fs tmpname filename (py "options")
             (chars options) content pre sline mid eline suf)
    by assumption.
  now rewrite concat_chars.
Qed.

End ManpageErrors.

(** ** Sorting by key does not depend on the order of the input *)

Section SortedUnique.
Context {A : Type}.

Lemma strictly_sorted_perm_eq (l1 : list (pystr * A)) : forall l2,
  StronglySorted key_lt l1 -> StronglySorted key_lt l2 ->
  Permutation l1 l2 -> l1 = l2.
Proof.
  induction l1 as [|x l1 IH]; intros l2 H1 H2 HP.
  - now apply Permutation_nil in HP.
  - destruct l2 as [|y l2].
    { symmetry in HP. now apply Permutation_nil in HP. }
    inversion H1 as [|? ? H1' Hx]; subst.
    inversion H2 as [|? ? H2' Hy]; subst.
    rewrite Forall_forall in Hx, Hy.
    assert (Exy : x = y).
    { assert (Hxin : x ∈ y :: l2) by (rewrite <- HP; left).
      assert (Hyin : y ∈ x :: l1) by (rewrite HP; left).
      apply elem_of_cons in Hxin as [E|Hxin]; [exact E|].
      apply elem_of_cons in Hyin as [E|Hyin]; [now symmetry|].
      specialize (Hx y Hyin). specialize (Hy x Hxin).
      unfold key_lt in Hx, Hy.
      rewrite (str_ltb_asym _ _ Hx) in Hy. discriminate. }
    subst y. f_equal. apply IH; [assumption..|].
    now apply Permutation_cons_inv in HP.
Qed.

Lemma sorted_items_perm_eq (l l' : list (pystr * A)) :
  NoDup (map fst l) -> Permutation l l' -> sorted_items l = sorted_items l'.
Proof.
  intros Hnd HP.
  assert (Hnd' : NoDup (map fst l')).
  { assert (HP' : Permutation (map fst l) (map fst l'))
      by now apply Permutation_map.
    now rewrite <- HP'. }
  apply strictly_sorted_perm_eq.
  - now apply sorted_items_strict.
  - now apply sorted_items_strict.
  - rewrite !sorted_items_perm. exact HP.
Qed.

End SortedUnique.

Section OrderIndependence.
Import Settings Usage Commands.
Context `{PyBuiltins} `{Argparse}.

(** X8.  With an override mapping, [_generate_setting_backend_info] never
    raises, and what it writes depends neither on the order in which the
    mapping lists its backends nor on the simple list. *)
Theorem backend_info_order_independent (raw raw' : list (pystr * conditional))
    (bs bs' : list Backend) (out : pystr) :
  NoDup (map fst raw) ->
  Permutation raw raw' ->
  _generate_setting_backend_info {| raw_backends := Some raw; backends := bs |}
    out
  = _generate_setting_backend_info
      {| raw_backends := Some raw'; backends := bs' |} out /\
  exists text,
    _generate_setting_backend_info
      {| raw_backends := Some raw; backends := bs |} out
    = (Ok tt, out ++ text).
Proof.
  intros Hnd HP. unfold _generate_setting_backend_info. cbn [raw_backends].
  rewrite (sorted_items_perm_eq raw raw' Hnd HP).
  split; [reflexivity|]. rewrite override_loop. eauto.
Qed.

Lemma classify_perm (registry registry' : list (pystr * Command)) :
  NoDup (map fst registry) ->
  Permutation registry registry' ->
  classify registry = classify registry'.
Proof.
  intros Hnd HP. rewrite !classify_filters.
  f_equal; apply sorted_items_perm_eq;
    try (apply NoDup_keys_filter, Hnd); now rewrite HP.
Qed.

(** X9.  The command reference does not depend on the order in which the
    commands were registered: on two registries with the same entries, of
    pairwise different names, [generate_commands] builds the same three
    lists and runs the same. *)
Theorem generate_commands_order_independent
    (registry registry' : list (pystr * Command)) :
  NoDup (map fst registry) ->
  Permutation registry registry' ->
  classify registry = classify registry' /\
  forall commands_doc filename,
    generate_commands registry commands_doc filename
    = generate_commands registry' commands_doc filename.
Proof.
  intros Hnd HP. pose proof (classify_perm _ _ Hnd HP) as Hc.
  split; [exact Hc|]. intros. unfold generate_commands. now rewrite Hc.
Qed.

End OrderIndependence.

(** ** What a run of the command generator does to the files *)

Section CommandFiles.
Import Usage Commands.
Context `{PyBuiltins} `{Argparse}.

(** From [w] to [w'] the file [filename] has only been appended to and the
    other files are as they were. *)
Definition appended (filename : pystr) (w w' : World) : Prop :=
  (forall p, p <> filename -> fs w' !! p = fs w !! p) /\
  (forall c, fs w !! filename = Some c ->
             exists more, fs w' !! filename = Some (c ++ more)).

(** A computation that only appends to [filename]. *)
Definition appending (filename : pystr) {A} (m : M World A) : Prop :=
  forall w, appended filename w (snd (m w)).

Lemma appended_same_files filename w w' :
  fs w' = fs w -> appended filename w w'.
Proof.
  intros E. split; [now rewrite E|].
  intros c Hc. exists []. now rewrite E, app_nil_r.
Qed.

Lemma appended_refl filename w : appended filename w w.
Proof. now apply appended_same_files. Qed.

Lemma appended_trans filename w1 w2 w3 :
  appended filename w1 w2 -> appended filename w2 w3 ->
  appended filename w1 w3.
Proof.
  intros [Ha1 Hb1] [Ha2 Hb2]. split.
  - intros p Hp. now rewrite Ha2, Ha1.
  - intros c Hc. destruct (Hb1 c Hc) as [m1 H1].
    destruct (Hb2 _ H1) as [m2 H2]. exists (m1 ++ m2).
    now rewrite app_assoc.
Qed.

Lemma appending_bind filename {A B} (m : M World A) (k : A -> M World B) :
  appending filename m -> (forall a, appending filename (k a)) ->
  appending filename (bind m k).
Proof.
  intros Hm Hk w. unfold bind. specialize (Hm w).
  destruct (m w) as [[a|e] w1]; [|exact Hm].
  eapply appended_trans; [exact Hm | apply Hk].
Qed.

Lemma appending_f_write filename text : appending filename (f_write filename text).
Proof.
  intros w. unfold f_write. split; simpl.
  - intros p Hp. now rewrite lookup_insert_ne by congruence.
  - intros c Hc. rewrite Hc, lookup_insert_eq. simpl. eauto.
Qed.

Lemma appending_lift filename {A} (r : result A) : appending filename (lift r).
Proof. intros w. apply appended_refl. Qed.

Lemma appending_on_heap filename {A} (m : M Heap A) :
  appending filename (on_heap m).
Proof.
  intros w. unfold on_heap. destruct (m (heap w)) as [r h].
  now apply appended_same_files.
Qed.

Lemma appending_for_each filename {A} (l : list A) (body : A -> M World unit) :
  (forall x, appending filename (body x)) ->
  appending filename (for_each l body).
Proof.
  intros Hb. induction l as [|x l IH]; [intros w; apply appended_refl|].
  cbn [for_each]. apply appending_bind; auto.
Qed.

Lemma appending_write_bucket filename cmds :
  appending filename (write_bucket filename cmds).
Proof.
  unfold write_bucket.
  repeat first
    [ apply appending_f_write | apply appending_lift | apply appending_on_heap
    | apply appending_for_each; intros
    | apply appending_bind; [|intros] ].
Qed.

(** X10.  [generate_commands] writes in place: whatever the outcome, also
    when the documentation of a command raises, the target file has lost its
    old content and starts with the banner, the title and the introduction;
    no other file is touched. *)
Theorem generate_commands_overwrites (registry : list (pystr * Command))
    (commands_doc filename : pystr) (w : World) :
  let w' := snd (generate_commands registry commands_doc filename w) in
  (forall p, p <> filename -> fs w' !! p = fs w !! p) /\
  exists rest,
    fs w' !! filename
    = Some (FILE_HEADER ++ ln "= Commands" ++ [newline] ++ commands_doc
            ++ rest).
Proof.
  cbv zeta. unfold generate_commands.
  set (rest := bind (f_write filename [newline]) _).
  assert (Hrest : appending filename rest).
  { subst rest.
    repeat first
      [ apply appending_f_write | apply appending_write_bucket
      | apply appending_bind; [|intros] ]. }
  clearbody rest.
  set (w4 := {| fs := <[filename := FILE_HEADER ++ ln "= Commands"
                                    ++ [newline] ++ commands_doc]> (fs w);
                heap := heap w |}).
  assert (Hrun : (open_write filename ;; f_write filename FILE_HEADER ;;
                  f_write filename (ln "= Commands" ++ [newline]) ;;
                  f_write filename commands_doc ;; rest) w = rest w4).
  { unfold bind at 1 2 3 4. unfold open_write, f_write. cbn [Commands.fs Commands.heap].
    rewrite !lookup_insert_eq. cbn [default].
    rewrite !insert_insert_eq. subst w4. f_equal. }
  rewrite Hrun. destruct (Hrest w4) as [Ha Hb]. subst w4.
  cbn [Commands.fs] in Ha, Hb. split.
  - intros p Hp. rewrite (Ha p Hp). now rewrite lookup_insert_ne by congruence.
  - destruct (Hb _ (lookup_insert_eq _ _ _)) as [more Hmore].
    exists more. rewrite Hmore. now rewrite <- ?app_assoc.
Qed.

End CommandFiles.

(** ** The text of the command reference *)

Section CommandText.
Import Usage Commands.
Context `{PyBuiltins} `{Argparse}.

(** A command whose handler has a docstring that is not empty. *)
Definition documented (item : pystr * Command) : Prop :=
  exists doc, handler_doc (snd item) = Some doc /\ doc <> [].

Lemma doc_first_line_ok (cmd : Command) :
  (exists desc, doc_first_line cmd = Ok desc) <->
  (exists doc, handler_doc cmd = Some doc /\ doc <> []).
Proof.
  unfold doc_first_line. destruct (handler_doc cmd) as [[|c doc]|]; split.
  - intros [? ?]. discriminate.
  - intros (doc & E & Hne). injection E as <-. contradiction.
  - intros _. eexists. split; [reflexivity | discriminate].
  - eauto.
  - intros [? ?]. discriminate.
  - intros (doc & E & _). discriminate.
Qed.

Lemma quickref_rows_ok (cmds : list (pystr * Command)) : forall out,
  Forall documented cmds -> exists rows, quickref_rows cmds out = Ok rows.
Proof.
  induction cmds as [|[name cmd] cmds IH]; intros out Hall; [simpl; eauto|].
  inversion Hall as [|? ? Hd Hall']; subst. cbn [quickref_rows].
  unfold documented in Hd. cbn [snd] in Hd.
  apply doc_first_line_ok in Hd as [desc ->]. cbn [rbind]. now apply IH.
Qed.

Lemma quickref_rows_first_error (pre : list (pystr * Command)) name cmd post e :
  forall out,
    Forall documented pre ->
    doc_first_line cmd = Raise e ->
    quickref_rows (pre ++ (name, cmd) :: post) out = Raise e.
Proof.
  induction pre as [|[n c] pre IH]; intros out Hall He.
  - cbn [app quickref_rows]. now rewrite He.
  - inversion Hall as [|? ? Hd Hall']; subst. cbn [app quickref_rows].
    unfold documented in Hd. cbn [snd] in Hd.
    apply doc_first_line_ok in Hd as [desc ->]. cbn [rbind]. now apply IH.
Qed.

(** X11.  The quick reference of a list of commands is produced when every
    handler has a docstring that is not empty.  Otherwise the first command
    without one decides the error: [AttributeError] when it has no
    docstring, [IndexError] when its docstring is empty. *)
Theorem command_quickref_needs_docstrings (cmds : list (pystr * Command)) :
  (Forall documented cmds -> exists text, _get_command_quickref cmds = Ok text) /\
  (forall pre name cmd post,
     cmds = pre ++ (name, cmd) :: post ->
     Forall documented pre ->
     (handler_doc cmd = None ->
      _get_command_quickref cmds
      = Raise (AttributeError
                 (py "'NoneType' object has no attribute 'splitlines'"))) /\
     (handler_doc cmd = Some [] ->
      _get_command_quickref cmds
      = Raise (IndexError (py "list index out of range")))).
Proof.
  unfold _get_command_quickref. split.
  - intros Hall.
    destruct (quickref_rows_ok cmds
                [table_options; table_rule; py "|Command|Description"] Hall)
      as [rows ->].
    cbn [rbind]. eauto.
  - intros pre name cmd post -> Hall. split; intros Hdoc.
    + rewrite (quickref_rows_first_error pre name cmd post
                 (AttributeError
                    (py "'NoneType' object has no attribute 'splitlines'")));
        [reflexivity | assumption |].
      unfold doc_first_line. now rewrite Hdoc.
    + rewrite (quickref_rows_first_error pre name cmd post
                 (IndexError (py "list index out of range")));
        [reflexivity | assumption |].
      unfold doc_first_line. now rewrite Hdoc.
Qed.

(** X12.  The notes of a command are either absent or a heading followed by
    one to three notes: the heading never stands alone.  The command named
    [spawn] gets no note for its unreplaced variables. *)
Theorem command_doc_notes_shape (cmd : Command) :
  (_get_command_doc_notes cmd = [] \/
   exists notes,
     _get_command_doc_notes cmd = [[]; py "==== note"] ++ notes /\
     1 <= length notes <= 3)%nat /\
  (name cmd = py "spawn" -> maxsplit cmd = None -> no_cmd_split cmd = false ->
   _get_command_doc_notes cmd = []).
Proof.
  unfold _get_command_doc_notes, not_spawn. split.
  - destruct (is_some (maxsplit cmd)), (no_cmd_split cmd),
      (no_replace_variables cmd && negb (bool_decide (name cmd = py "spawn")));
      cbn [orb]; try (now left);
      right; eexists; (split; [reflexivity|]); cbn; lia.
  - intros Hn Hm Hc. rewrite Hm, Hc.
    rewrite (bool_decide_eq_true_2 _ Hn). cbn. now rewrite andb_false_r.
Qed.

Lemma join_snoc (sep : pystr) (l : list pystr) (x : pystr) :
  l <> [] -> join sep (l ++ [x]) = join sep l ++ sep ++ x.
Proof.
  induction l as [|a l IH]; [contradiction|]. intros _.
  destruct l as [|b l]; [reflexivity|].
  change (join sep ((a :: b :: l) ++ [x]))
    with (a ++ sep ++ join sep ((b :: l) ++ [x])).
  rewrite IH by discriminate.
  change (join sep (a :: b :: l)) with (a ++ sep ++ join sep (b :: l)).
  now rewrite <- !app_assoc.
Qed.

Lemma join_cons (sep a : pystr) (l : list pystr) :
  l <> [] -> join sep (a :: l) = a ++ sep ++ join sep l.
Proof. destruct l; [contradiction | reflexivity]. Qed.

(** X13.  The documentation of a command, when it is produced, starts with
    the anchor and the heading of the command and ends with an empty line,
    so that the sections written one after the other stay apart. *)
Theorem command_doc_delimited n (cmd : Command) (h : Heap) u h1 :
  _get_cmd_syntax n cmd h = (Ok u, h1) ->
  keys_described cmd = true ->
  exists body,
    _get_command_doc n cmd h
    = (Ok (py "[[" ++ n ++ ln "]]" ++ py "=== " ++ n ++ [newline] ++ body
           ++ [newline; newline]), h1).
Proof.
  intros Hs Hk. rewrite (get_command_doc_run n cmd h u h1 Hs).
  unfold keys_described in Hk.
  apply andb_true_iff in Hk as [Hk Hcount].
  pose proof (doc_args_spec cmd) as Ha. rewrite Hk in Ha.
  destruct Ha as [args ->].
  pose proof (count_lines_spec cmd (handler_params cmd)) as Hc.
  rewrite Hcount in Hc. destruct Hc as [count Hc].
  unfold _get_command_doc_count. rewrite Hc.
  set (syn := if bool_decide (u <> n)
              then [py "Syntax: +:" ++ u ++ py "+"; []] else []).
  set (long := match long_desc cmd with
               | [] => []
               | _ :: _ => [[]; long_desc cmd]
               end).
  set (R := syn ++ [short_desc cmd] ++ long ++ args ++ count
            ++ _get_command_doc_notes cmd).
  assert (HR : R <> []) by (subst R; destruct syn; discriminate).
  exists (join [newline] R). do 2 f_equal.
  replace ((((([py "[[" ++ n ++ py "]]"; py "=== " ++ n] ++ syn)
               ++ [short_desc cmd] ++ long) ++ args) ++ count)
            ++ _get_command_doc_notes cmd ++ [[]; []])
    with ((py "[[" ++ n ++ py "]]") :: (py "=== " ++ n)
          :: ((R ++ [[]]) ++ [[]])).
  2:{ subst R. rewrite <- !app_assoc. reflexivity. }
  rewrite join_cons by discriminate.
  rewrite join_cons by (destruct R; [contradiction | discriminate]).
  rewrite join_snoc by (destruct R; [contradiction | discriminate]).
  rewrite join_snoc by assumption.
  unfold ln. rewrite <- !app_assoc. reflexivity.
Qed.

Lemma lstrip_head (s : pystr) :
  lstrip s = [] \/ exists c t, lstrip s = c :: t /\ isspace c = false.
Proof.
  induction s as [|c s IH]; [now left|].
  simpl. destruct (isspace c) eqn:E; [exact IH|]. right. eauto.
Qed.

Lemma lstrip_split (s : pystr) :
  exists ws, s = ws ++ lstrip s /\ Forall (fun c => isspace c = true) ws.
Proof.
  induction s as [|c s IH]; [exists []; split; [reflexivity | constructor]|].
  simpl. destruct (isspace c) eqn:E.
  - destruct IH as (ws & Hs & Hws). exists (c :: ws). split.
    + simpl. now rewrite <- Hs.
    + now constructor.
  - exists []. split; [reflexivity | constructor].
Qed.

(** [rstrip] removes a run of white space from the end and leaves a text
    that does not end in white space. *)
Lemma rstrip_spec (s : pystr) :
  (exists ws, s = rstrip s ++ ws /\ Forall (fun c => isspace c = true) ws) /\
  (rstrip s = [] \/
   exists t c, rstrip s = t ++ [c] /\ isspace c = false).
Proof.
  unfold rstrip. split.
  - destruct (lstrip_split (rev s)) as (ws & Hs & Hws).
    exists (rev ws). split.
    + rewrite <- rev_app_distr, <- Hs. now rewrite rev_involutive.
    + apply Forall_forall. intros c Hc. rewrite Forall_forall in Hws.
      apply Hws. apply list_elem_of_In. apply list_elem_of_In in Hc.
      now apply in_rev.
  - destruct (lstrip_head (rev s)) as [->|(c & t & -> & Hc)]; [now left|].
    right. exists (rev t), c. split; [reflexivity | exact Hc].
Qed.

(** X14.  The syntax [_get_cmd_syntax] returns is the usage line of the
    library, rendered while the parser's formatter class is
    [UsageFormatter], without its trailing white space: it does not end in
    a white space character. *)
Theorem cmd_syntax_stripped n (cmd : Command) (h : Heap) u h1 :
  _get_cmd_syntax n cmd h = (Ok u, h1) ->
  exists h0 usage h2 ws,
    formatter_class h0 (parser cmd) = UsageFormatter /\
    (forall p, p <> parser cmd -> formatter_class h0 p = formatter_class h p) /\
    actions h0 = actions h /\
    format_usage (parser cmd) h0 = (Ok usage, h2) /\
    usage = u ++ ws /\ Forall (fun c => isspace c = true) ws /\
    (u = [] \/ exists t c, u = t ++ [c] /\ isspace c = false).
Proof.
  unfold _get_cmd_syntax, bind, get_formatter_class, set_formatter_class, ret.
  set (h0 := {| actions := actions h; formatter_class := _ |}).
  intros Hrun.
  destruct (format_usage (parser cmd) h0) as [[usage|e] h2] eqn:Hu;
    [|discriminate].
  injection Hrun as <- _.
  destruct (rstrip_spec usage) as [(ws & Hws & Hall) Hend].
  exists h0, usage, h2, ws. subst h0. cbn [formatter_class actions].
  split; [now rewrite decide_True|].
  split; [intros p Hp; now rewrite decide_False|].
  split; [reflexivity|]. split; [exact Hu|].
  split; [exact Hws|]. split; [exact Hall | exact Hend].
Qed.

(** X15.  Neither patch is undone when the library raises: when the
    method of [HelpFormatter] raises, [_format_actions_usage] raises the same
    error and every action of the list is left with its patched option
    strings; when [format_usage] raises, [_get_cmd_syntax] raises the same
    error and leaves the heap as the library left it, without assigning the
    saved formatter class. *)
Theorem patches_stay_on_error :
  (forall acts groups h,
     NoDup (filter (flagged h) acts) ->
     exists hp,
       (forall a, a ∈ acts ->
          Manpage.option_strings (actions hp a)
          = map Manpage.starred (Manpage.option_strings (actions h a))) /\
       (forall a, a ∉ acts -> actions hp a = actions h a) /\
       forall e,
         HelpFormatter_format_actions_usage acts groups hp = Raise e ->
         _format_actions_usage acts groups h = (Raise e, hp)) /\
  (forall n cmd h,
     exists h0,
       formatter_class h0 (parser cmd) = UsageFormatter /\
       forall e h2,
         format_usage (parser cmd) h0 = (Raise e, h2) ->
         _get_cmd_syntax n cmd h = (Raise e, h2)).
Proof.
  split.
  - intros acts groups h Hnd.
    destruct (format_actions_usage_run acts groups h Hnd)
      as (hp & _ & Hact & Hcase).
    exists hp. split; [|split].
    + intros a Ha. rewrite Hact, decide_True by assumption. reflexivity.
    + intros a Ha. now rewrite Hact, decide_False by assumption.
    + intros e He. now rewrite He in Hcase.
  - intros n cmd h.
    unfold _get_cmd_syntax, bind, get_formatter_class, set_formatter_class, ret.
    set (h0 := {| actions := actions h; formatter_class := _ |}).
    exists h0. split.
    + subst h0. cbn [formatter_class]. now rewrite decide_True.
    + intros e h2 He. now rewrite He.
Qed.

End CommandText.

(** ** The hooks of the usage formatter *)

Section HookFacts.
Import Manpage UsageHooks.
Context `{PyBuiltins} `{FormatterEnv}.

(** X16.  [fmt], the function [_metavar_formatter] returns, always gives as
    many entries as it is asked for, all the same text, also for a tuple
    metavar, whose elements it never uses one by one.  For an explicit
    string metavar the entries joined by spaces are what
    [_get_action_metavar] displays for that exact arity. *)
Theorem metavar_formatter_broadcasts (a : Action) (default_metavar : pystr)
    (n : Z) :
  length (_metavar_formatter a default_metavar n) = Z.to_nat n /\
  (forall x, x ∈ _metavar_formatter a default_metavar n ->
             x = metavar_markup a default_metavar) /\
  (forall t, metavar a = Some (MetavarTuple t) ->
             metavar_markup a default_metavar = quoted (tuple_str t)) /\
  (forall m, metavar a = Some (MetavarStr m) ->
             _get_action_metavar a (NargsInt n)
             = Ok (join (py " ") (_metavar_formatter a default_metavar n))).
Proof.
  unfold _metavar_formatter. split; [apply repeat_length|]. split; [|split].
  - intros x Hx. apply list_elem_of_In in Hx. now apply repeat_spec in Hx.
  - intros t Ht. unfold metavar_markup. now rewrite Ht.
  - intros m Hm. unfold _get_action_metavar, metavar_markup. rewrite Hm.
    simpl. now rewrite map_repeat.
Qed.

(** X17.  The assertion of [_format_args] never fails: [fmt(1)] has one
    entry.  Before Python 3.9 a [*] arity is rendered as the metavar
    followed by an ellipsis, in brackets; in every other case the result is
    the one of the library. *)
Theorem format_args_assertion_holds (a : Action) (default_metavar : pystr) :
  _format_args a default_metavar <> AssertionError /\
  (version_ge_3_9 = false -> nargs a = Some (NargsStr (py "*")) ->
   _format_args a default_metavar
   = Returned (py "[" ++ metavar_markup a default_metavar ++ py " ...]")) /\
  (version_ge_3_9 = true \/ nargs a <> Some (NargsStr (py "*")) ->
   _format_args a default_metavar
   = match HelpFormatter_format_args a default_metavar with
     | Ok r => Returned r
     | Raise e => Raised e
     end).
Proof.
  unfold _format_args. split; [|split].
  - destruct (version_ge_3_9 || _).
    + destruct (HelpFormatter_format_args a default_metavar); discriminate.
    + cbv zeta. unfold _metavar_formatter. simpl. discriminate.
  - intros Hv Hn. rewrite Hv, bool_decide_eq_true_2 by assumption.
    reflexivity.
  - intros [Hv|Hn].
    + now rewrite Hv.
    + rewrite (bool_decide_eq_false_2 _ Hn). now rewrite orb_true_r.
Qed.

End HookFacts.

(** ** The section of a setting *)

Section SettingDocFacts.
Import Settings SettingsDoc.

(** X18.  The name of the type is written without a comma: every comma is
    replaced by the five characters of its character reference, and a name
    without comma is written as it is. *)
Theorem replace_comma_escapes (s : pystr) :
  ~ In 44 (replace_comma s) /\
  (~ In 44 s -> replace_comma s = s) /\
  length (replace_comma s)
  = (length s + 4 * length (filter (fun c => c = 44%N) s))%nat.
Proof.
  unfold replace_comma. repeat split.
  - induction s as [|c s IH]; [intros []|].
    simpl. intros Hin. apply in_app_or in Hin as [Hin|Hin]; [|auto].
    destruct (N.eqb_spec c 44) as [->|Hc].
    + vm_compute in Hin. intuition discriminate.
    + destruct Hin as [E|[]]. congruence.
  - induction s as [|c s IH]; [reflexivity|]. intros Hnot. simpl.
    destruct (N.eqb_spec c 44) as [->|Hc]; [exfalso; apply Hnot; now left|].
    simpl. rewrite IH; [reflexivity|]. intros Hin. apply Hnot. now right.
  - induction s as [|c s IH]; [reflexivity|]. simpl.
    rewrite length_app, IH.
    destruct (N.eqb_spec c 44) as [->|Hc].
    + rewrite filter_cons_True by reflexivity. simpl. lia.
    + rewrite filter_cons_False by assumption. simpl. lia.
Qed.

(** A computation that writes [text] and returns. *)
Definition writes (m : M pystr unit) (text : pystr) : Prop :=
  forall out, m out = (Ok tt, out ++ text).

Lemma writes_write text : writes (write text) text.
Proof. intros out. reflexivity. Qed.

Lemma writes_ret : writes (ret tt) [].
Proof. intros out. unfold ret. now rewrite app_nil_r. Qed.

Lemma writes_bind m k t1 t2 :
  writes m t1 -> writes k t2 -> writes (bind m (fun _ => k)) (t1 ++ t2).
Proof.
  intros Hm Hk out. unfold bind. rewrite Hm, Hk. now rewrite app_assoc.
Qed.

Lemma writes_when (b : bool) m t :
  writes m t -> writes (when b m) (if b then t else []).
Proof. intros Hm. destruct b; [exact Hm | apply writes_ret]. Qed.

Lemma writes_for_each {A} (l : list A) body (f : A -> pystr) :
  (forall x, writes (body x) (f x)) ->
  writes (for_each l body) (concat (map f l)).
Proof.
  intros Hb. induction l as [|x l IH]; [apply writes_ret|].
  cbn [for_each map concat]. apply writes_bind; auto.
Qed.

(** The backend specifications [_generate_setting_backend_info] accepts. *)
Definition backend_spec_valid (spec : Settings.Option) : bool :=
  match raw_backends spec with
  | Some _ => true
  | None =>
      bool_decide (backends spec = [QtWebKit; QtWebEngine])
      || bool_decide (backends spec = [QtWebKit])
      || bool_decide (backends spec = [QtWebEngine])
  end.

Lemma backend_info_cases (spec : Settings.Option) :
  if backend_spec_valid spec
  then exists text, writes (_generate_setting_backend_info spec) text
  else exists msg, forall out,
         _generate_setting_backend_info spec out = (Raise (ValueError msg), out).
Proof.
  unfold backend_spec_valid, _generate_setting_backend_info.
  destruct (raw_backends spec) as [raw|].
  - eexists. intros out. apply override_loop.
  - destruct (decide (backends spec = [QtWebKit; QtWebEngine])) as [E|E1].
    { rewrite (bool_decide_eq_true_2 _ E). cbn [orb].
      exists []. apply writes_ret. }
    rewrite (bool_decide_eq_false_2 _ E1). cbn [orb].
    destruct (decide (backends spec = [QtWebKit])) as [E|E2].
    { rewrite (bool_decide_eq_true_2 _ E). cbn [orb].
      eexists. apply writes_write. }
    rewrite (bool_decide_eq_false_2 _ E2). cbn [orb].
    destruct (decide (backends spec = [QtWebEngine])) as [E|E3].
    { rewrite (bool_decide_eq_true_2 _ E).
      eexists. apply writes_write. }
    rewrite (bool_decide_eq_false_2 _ E3).
    eexists. intros out. reflexivity.
Qed.

(** What is written for a setting before its backend notices. *)
Definition option_head (opt : SettingOption) : pystr :=
  [newline] ++ (py "[[" ++ name opt ++ py "]]" ++ [newline])
  ++ (py "=== " ++ name opt ++ [newline])
  ++ (description opt ++ [newline])
  ++ (if restart opt
      then [newline] ++ ln "This setting requires a restart." else [])
  ++ (if supports_pattern opt
      then [newline] ++ ln "This setting supports URL patterns." else [])
  ++ (if no_autoconfig opt
      then [newline] ++ ln "This setting can only be set in config.py."
      else []).

Definition valid_value_line (vv : ValidValues) (val : pystr) : pystr :=
  match descriptions vv !! val with
  | Some desc => py " * +" ++ val ++ py "+: " ++ desc ++ [newline]
  | None => py " * +" ++ val ++ py "+" ++ [newline]
  end.

Lemma writes_valid_value vv val :
  writes (write_valid_value vv val) (valid_value_line vv val).
Proof.
  unfold write_valid_value, valid_value_line.
  destruct (descriptions vv !! val); apply writes_write.
Qed.

(** X19.  The section of a setting fails only through its backend
    specification: when that is valid the section is written to the end,
    one line for every valid value whether or not it has a description, and
    ends with the line of the default; when it is not, [ValueError] is
    raised after the anchor, heading, description and notices of the setting
    have been written. *)
Theorem setting_option_outcome (opt : SettingOption) (out : pystr) :
  if backend_spec_valid (backend_spec opt)
  then exists notices body,
         writes (_generate_setting_backend_info (backend_spec opt)) notices /\
         _generate_setting_option opt out
         = (Ok tt, out ++ option_head opt ++ notices ++ [newline]
                   ++ (py "Type: <<types," ++ replace_comma (typ_name opt)
                       ++ ln ">>") ++ [newline] ++ body
                   ++ py "Default: " ++ default_doc opt ++ [newline]) /\
         body = match valid_values opt with
                | Some vv =>
                    if generate_docs vv
                    then ln "Valid values:" ++ [newline]
                         ++ concat (map (valid_value_line vv) (values vv))
                         ++ [newline]
                    else []
                | None => []
                end
  else exists msg,
         _generate_setting_option opt out
         = (Raise (ValueError msg), out ++ option_head opt).
Proof.
  set (body := match valid_values opt with
               | Some vv =>
                   if generate_docs vv
                   then ln "Valid values:" ++ [newline]
                        ++ concat (map (valid_value_line vv) (values vv))
                        ++ [newline]
                   else []
               | None => []
               end).
  assert (Hvalues : writes
            match valid_values opt with
            | Some vv =>
                when (generate_docs vv)
                  (write (ln "Valid values:") ;; write [newline] ;;
                   for_each (values vv) (write_valid_value vv) ;;
                   write [newline])%monad
            | None => ret tt
            end body).
  { subst body. destruct (valid_values opt) as [vv|]; [|apply writes_ret].
    apply writes_when.
    repeat first [ apply writes_bind | apply writes_write
                 | apply writes_for_each; intros; apply writes_valid_value ]. }
  clearbody body.
  assert (Hwhen : forall b text o,
            when b (write text) o = (Ok tt, o ++ if b then text else [])).
  { intros b text o. apply (writes_when b _ _ (writes_write text)). }
  pose proof (backend_info_cases (backend_spec opt)) as Hb.
  unfold _generate_setting_option, option_head.
  destruct (backend_spec_valid (backend_spec opt)).
  - destruct Hb as [notices Hn]. exists notices, body.
    split; [exact Hn|]. split; [|reflexivity].
    unfold bind.
    repeat first [ rewrite writes_write | rewrite Hwhen | rewrite Hn
                 | rewrite Hvalues ].
    now rewrite <- !app_assoc.
  - destruct Hb as [msg Hraise]. exists msg.
    unfold bind.
    repeat first [ rewrite writes_write | rewrite Hwhen | rewrite Hraise ].
    now rewrite <- !app_assoc.
Qed.

End SettingDocFacts.

(** ** setupcommon: the git commit id file *)

Section GitFileFacts.
Import SetupCommon.
Context `{Env}.

Definition describe_args : list pystr :=
  [py "describe"; py "--match=NeVeRmAtCh"; py "--always"; py "--dirty"].

Definition show_args : list pystr :=
  [py "show"; py "-s"; py "--format=%ci"; py "HEAD"].

Definition rev_parse_args : list pystr :=
  [py "rev-parse"; py "--abbrev-ref"; py "HEAD"].

(** The two exceptions [_git_str] catches. *)
Definition caught (o : git_outcome) : Prop :=
  o = CalledProcessError \/ o = OSError \/
  exists e, o = OtherError e /\ is_OSError e = true.

Definition git_commit_id_path (basedir : pystr) : pystr :=
  path_join (path_join basedir (py "qutebrowser")) (py "git-commit-id").

Lemma call_git_caught gitpath args :
  caught (run_git gitpath args) ->
  exists o, _call_git gitpath args = o /\ except_git o = Ok None /\
            forall text, o <> GitStdout text.
Proof.
  intros Hc. unfold _call_git.
  destruct Hc as [E|[E|(e & E & He)]]; rewrite E; eexists;
    (split; [reflexivity|]); cbn [except_git]; rewrite ?He; now split.
Qed.

Lemma call_git_stdout gitpath args text :
  run_git gitpath args = GitStdout text ->
  _call_git gitpath args = GitStdout (strip text).
Proof. intros E. unfold _call_git. now rewrite E. Qed.

(** X20.  A checkout without git costs no error: when the base directory
    has no [.git] directory, or one of the three git calls ends in
    [CalledProcessError] or [OSError], [_git_str] gives [None] and
    [write_git_file] writes an empty commit id file. *)
Theorem write_git_file_without_git (basedir : pystr) (fs : FS) :
  BASEDIR = Some basedir ->
  is_dir (path_join basedir (py ".git")) = false \/
  caught (run_git basedir describe_args) \/
  (exists commit_hash,
     run_git basedir describe_args = GitStdout commit_hash /\
     (caught (run_git basedir show_args) \/
      exists date,
        run_git basedir show_args = GitStdout date /\
        caught (run_git basedir rev_parse_args))) ->
  _git_str = Ok None /\
  write_git_file fs = (Ok tt, <[git_commit_id_path basedir := []]> fs).
Proof.
  intros Hb Hcase.
  assert (Hstr : _git_str = Ok None).
  { unfold _git_str. rewrite Hb.
    destruct (is_dir (path_join basedir (py ".git"))) eqn:Ed; [|reflexivity].
    cbn [negb]. fold describe_args show_args rev_parse_args.
    destruct Hcase as [Hc|[Hc|(h & Hh & Hc)]]; [discriminate| |].
    - destruct (call_git_caught _ _ Hc) as (o & -> & Ho & Hno).
      destruct o; [now destruct (Hno text) | exact Ho ..].
    - rewrite (call_git_stdout _ _ _ Hh).
      destruct Hc as [Hc|(d & Hd & Hc)].
      + destruct (call_git_caught _ _ Hc) as (o & -> & Ho & Hno).
        destruct o; [now destruct (Hno text) | exact Ho ..].
      + rewrite (call_git_stdout _ _ _ Hd).
        destruct (call_git_caught _ _ Hc) as (o & -> & Ho & Hno).
        destruct o; [now destruct (Hno text) | exact Ho ..]. }
  split; [exact Hstr|].
  unfold write_git_file, bind, lift. rewrite Hstr, Hb. cbn [is_ascii forallb].
  unfold git_commit_id_path. now rewrite insert_insert_eq.
Qed.

(** X21.  When the three git calls return, the commit id is
    [<hash> on <branch> (<date>)] with each output stripped of surrounding
    white space.  [write_git_file] writes it when it is ASCII; otherwise the
    encoding fails with a [ValueError] and the commit id file is left
    empty. *)
Theorem write_git_file_with_git (basedir commit_hash date branch : pystr)
    (fs : FS) :
  BASEDIR = Some basedir ->
  is_dir (path_join basedir (py ".git")) = true ->
  run_git basedir describe_args = GitStdout commit_hash ->
  run_git basedir show_args = GitStdout date ->
  run_git basedir rev_parse_args = GitStdout branch ->
  let text := strip commit_hash ++ py " on " ++ strip branch ++ py " ("
              ++ strip date ++ py ")" in
  _git_str = Ok (Some text) /\
  (is_ascii text = true ->
   write_git_file fs = (Ok tt, <[git_commit_id_path basedir := text]> fs)) /\
  (is_ascii text = false ->
   exists msg,
     write_git_file fs
     = (Raise (ValueError msg), <[git_commit_id_path basedir := []]> fs)).
Proof.
  intros Hb Hd Hh Hdate Hbr text.
  assert (Hstr : _git_str = Ok (Some text)).
  { unfold _git_str. rewrite Hb, Hd. cbn [negb].
    fold describe_args show_args rev_parse_args.
    rewrite (call_git_stdout _ _ _ Hh), (call_git_stdout _ _ _ Hdate),
      (call_git_stdout _ _ _ Hbr). reflexivity. }
  split; [exact Hstr|].
  unfold write_git_file, bind, lift, raise. rewrite Hstr, Hb.
  unfold git_commit_id_path. split; intros Ha; rewrite Ha.
  - now rewrite insert_insert_eq.
  - eexists. reflexivity.
Qed.

End GitFileFacts.

Section GitFileErrors.
Import SetupCommon.
Context `{Env}.

(** X22.  An exception of a git call other than the two caught ones (one
    that is no [OSError]) is not swallowed: [_git_str] and [write_git_file]
    raise it, and the commit id file is not opened, so what it held stays. *)
Theorem write_git_file_other_error (basedir : pystr) (e : exn) (fs : FS) :
  BASEDIR = Some basedir ->
  is_dir (path_join basedir (py ".git")) = true ->
  is_OSError e = false ->
  run_git basedir describe_args = OtherError e \/
  (exists commit_hash,
     run_git basedir describe_args = GitStdout commit_hash /\
     (run_git basedir show_args = OtherError e \/
      exists date,
        run_git basedir show_args = GitStdout date /\
        run_git basedir rev_parse_args = OtherError e)) ->
  _git_str = Raise e /\ write_git_file fs = (Raise e, fs).
Proof.
  intros Hb Hd He Hcase.
  assert (Hstr : _git_str = Raise e).
  { unfold _git_str. rewrite Hb, Hd. cbn [negb].
    fold describe_args show_args rev_parse_args. unfold _call_git.
    destruct Hcase as [->|(h & -> & [->|(d & -> & ->)])];
      cbn [except_git]; now rewrite He. }
  split; [exact Hstr|].
  unfold write_git_file, bind, lift. now rewrite Hstr.
Qed.

End GitFileErrors.

(** ** Runs for the further properties *)

Section FurtherRuns.
Import BlockPatcher Manpage Settings Usage Commands.
Existing Instance AsciiBuiltins.
Existing Instance ListingArgparse.

Ltac run := vm_compute; reflexivity.
Ltac differ := let E := fresh in intros E; vm_compute in E; discriminate E.
Ltac plain_lines :=
  lazymatch goal with
  | |- Forall ?P ?l => let l' := eval vm_compute in l in change (Forall P l')
  end;
  repeat first
    [ solve [constructor]
    | constructor; [split; intros E; vm_compute in E; discriminate E|] ].

Definition manpage_file : pystr :=
  ln "= qutebrowser(1)" ++ ln "// QUTE_OPTIONS_START" ++ ln "old options"
  ++ ln "// QUTE_OPTIONS_END" ++ ln "== FILES".

Definition manpage_fs : FS := {[ py "doc/qutebrowser.1.asciidoc" := manpage_file ]}.


Lemma format_block_missing_file_witness :
  _format_block (py "/tmp/tmp1") (py "doc/missing.asciidoc") (py "options")
    [ln "x"] manpage_fs
  = (Raise (FileNotFoundError (py "doc/missing.asciidoc")), manpage_fs).
Proof.
  apply format_block_missing_file; [run | run | differ].
Defined.

Lemma format_block_idempotent_witness :
  exists fs1,
    _format_block (py "/tmp/tmp1") (py "doc/qutebrowser.1.asciidoc")
      (py "options") [ln "*-h*::"; ln "    help"] manpage_fs = (Ok tt, fs1) /\
    _format_block (py "/tmp/tmp2") (py "doc/qutebrowser.1.asciidoc")
      (py "options") [ln "*-h*::"; ln "    help"] fs1 = (Ok tt, fs1).
Proof.
  apply (format_block_idempotent manpage_fs (py "/tmp/tmp1") (py "/tmp/tmp2")
           (py "doc/qutebrowser.1.asciidoc") (py "options")
           [ln "*-h*::"; ln "    help"] manpage_file
           [ln "= qutebrowser(1)"] (ln "// QUTE_OPTIONS_START")
           [ln "old options"] (ln "// QUTE_OPTIONS_END") [ln "== FILES"]);
    [run | run | run | run | run | run | plain_lines | | plain_lines].
  right. exists (ln "*-h*::" ++ py "    help"). run.
Defined.

Definition parser_action : Action :=
  flag_action "--cmd" (Some (NargsStr (py "A...")))
    (Some (MetavarStr (py "CMD"))) (Some (py "command"))%string.

Lemma format_action_raises_iff_witness :
  _format_action parser_action
  = Raise (TypeError (py "can't multiply sequence by non-int of type 'str'")) /\
  exists r,
    _format_action
      (flag_action "--cmd" (Some (NargsStr (py "+")))
         (Some (MetavarStr (py "CMD"))) (Some (py "command")))
    = Ok r.
Proof.
  split.
  - exact (proj1 (proj2 (format_action_raises_iff parser_action)) eq_refl).
  - exact (proj2 (proj2 (format_action_raises_iff
             (flag_action "--cmd" (Some (NargsStr (py "+")))
                (Some (MetavarStr (py "CMD"))) (Some (py "command")))))
             eq_refl).
Defined.

Definition url_action : Action :=
  {| dest := py "url"; option_strings := []; metavar := None;
     choices := None; nargs := Some (NargsStr (py "*"));
     help := Some (py "URLs to open") |}.

Lemma format_action_positional_ignores_nargs_witness :
  _format_action (with_nargs url_action (Some (NargsInt 3)))
  = _format_action url_action /\
  _format_action url_action
  = Ok (Some (ln "*'URL'*::" ++ ln "    URLs to open")).
Proof.
  destruct (format_action_positional_ignores_nargs url_action
              (Some (NargsInt 3)) eq_refl) as [P1 P2].
  split; [exact P1|].
  destruct (P2 ltac:(differ)) as (mv & Hmv & ->).
  vm_compute in Hmv. injection Hmv as <-. run.
Defined.

Definition small_parser : Parser :=
  {| _action_groups :=
       [ {| title := Some (py "positional arguments"); description := None;
            _group_actions := [url_action] |} ];
     epilog := None |}.

Lemma regenerate_manpage_splices_witness :
  regenerate_manpage small_parser (py "/tmp/tmp1")
    (py "doc/qutebrowser.1.asciidoc") manpage_fs
  = (Ok tt,
     <[py "doc/qutebrowser.1.asciidoc" :=
         ln "= qutebrowser(1)" ++ ln "// QUTE_OPTIONS_START"
         ++ ln "=== positional arguments" ++ ln "*'URL'*::"
         ++ ln "    URLs to open"
         ++ ln "// QUTE_OPTIONS_END" ++ ln "== FILES"]> manpage_fs).
Proof.
  rewrite (regenerate_manpage_splices small_parser
             (ln "=== positional arguments" ++ ln "*'URL'*::"
              ++ ln "    URLs to open")
             (py "/tmp/tmp1") (py "doc/qutebrowser.1.asciidoc") manpage_fs
             manpage_file [ln "= qutebrowser(1)"] (ln "// QUTE_OPTIONS_START")
             [ln "old options"] (ln "// QUTE_OPTIONS_END") [ln "== FILES"]);
    [run | run | run | run | run | run | run | plain_lines].
Defined.

Lemma backend_info_order_independent_witness :
  _generate_setting_backend_info
    {| raw_backends := Some [ (py "QtWebKit", CondFalse);
                              (py "QtWebEngine", CondOther (py "Qt 5.15")) ];
       backends := [] |} []
  = _generate_setting_backend_info
      {| raw_backends := Some [ (py "QtWebEngine", CondOther (py "Qt 5.15"));
                                (py "QtWebKit", CondFalse) ];
         backends := [QtWebKit] |} [].
Proof.
  apply (backend_info_order_independent
           [ (py "QtWebKit", CondFalse);
             (py "QtWebEngine", CondOther (py "Qt 5.15")) ]
           [ (py "QtWebEngine", CondOther (py "Qt 5.15"));
             (py "QtWebKit", CondFalse) ] [] [QtWebKit] []).
  - apply (bool_decide_unpack _); vm_compute; exact I.
  - apply perm_swap.
Defined.

Lemma generate_commands_order_independent_witness :
  classify example_registry = classify (rev example_registry).
Proof.
  apply (generate_commands_order_independent example_registry
           (rev example_registry)).
  - apply (bool_decide_unpack _); vm_compute; exact I.
  - apply Permutation_rev.
Defined.

Definition example_world : World :=
  {| fs := {[ py "doc/help/commands.asciidoc" := ln "old text" ]};
     heap := example_heap |}.

Lemma generate_commands_overwrites_witness :
  exists rest,
    fs (snd (generate_commands
               [(py "open", example_cmd "open" false false [normal] no_tab_descs)]
               (ln "Introduction.") (py "doc/help/commands.asciidoc")
               example_world))
    !! py "doc/help/commands.asciidoc"
    = Some (FILE_HEADER ++ ln "= Commands" ++ [newline] ++ ln "Introduction."
            ++ rest).
Proof.
  exact (proj2 (generate_commands_overwrites
                  [(py "open",
                    example_cmd "open" false false [normal] no_tab_descs)]
                  (ln "Introduction.") (py "doc/help/commands.asciidoc")
                  example_world)).
Defined.

Definition undocumented_cmd : Command :=
  {| name := py "nop"; deprecated := false; debug := false; modes := [normal];
     pos_args := []; opt_args := []; maxsplit := Some 0%Z;
     no_cmd_split := true; no_replace_variables := true;
     parser := 3%positive; handler_doc := None; handler_params := [];
     short_desc := []; long_desc := []; arg_descs := ∅ |}.

Lemma command_quickref_needs_docstrings_witness :
  _get_command_quickref
    [ (py "open", example_cmd "open" false false [normal] all_descs);
      (py "nop", undocumented_cmd) ]
  = Raise (AttributeError
             (py "'NoneType' object has no attribute 'splitlines'")).
Proof.
  destruct (command_quickref_needs_docstrings
              [ (py "open", example_cmd "open" false false [normal] all_descs);
                (py "nop", undocumented_cmd) ]) as [_ P].
  destruct (P [(py "open", example_cmd "open" false false [normal] all_descs)]
              (py "nop") undocumented_cmd [] eq_refl) as [P1 _].
  - constructor; [|constructor]. eexists. split; [reflexivity | differ].
  - exact (P1 eq_refl).
Defined.

Definition spawn_cmd : Command :=
  {| name := py "spawn"; deprecated := false; debug := false;
     modes := [normal]; pos_args := []; opt_args := []; maxsplit := None;
     no_cmd_split := false; no_replace_variables := true;
     parser := 3%positive; handler_doc := Some (py "Spawn a command.");
     handler_params := []; short_desc := py "Spawn a command.";
     long_desc := []; arg_descs := ∅ |}.

Lemma command_doc_notes_shape_witness :
  _get_command_doc_notes spawn_cmd = [] /\
  length (_get_command_doc_notes undocumented_cmd) = 5%nat.
Proof.
  split.
  - exact (proj2 (command_doc_notes_shape spawn_cmd) eq_refl eq_refl eq_refl).
  - run.
Defined.

Lemma command_doc_delimited_witness :
  exists body,
    fst (_get_command_doc (py "open")
           (example_cmd "open" false false [normal] all_descs) example_heap)
    = Ok (py "[[" ++ py "open" ++ ln "]]" ++ py "=== " ++ py "open"
          ++ [newline] ++ body ++ [newline; newline]).
Proof.
  destruct (_get_cmd_syntax (py "open")
              (example_cmd "open" false false [normal] all_descs)
              example_heap) as [[u|e] h1] eqn:E.
  - destruct (command_doc_delimited _ _ _ _ _ E ltac:(run)) as [body ->].
    now exists body.
  - apply (f_equal fst) in E. vm_compute in E. discriminate E.
Defined.

Lemma cmd_syntax_stripped_witness :
  exists u,
    fst (_get_cmd_syntax (py "open")
           (example_cmd "open" false false [normal] all_descs) example_heap)
    = Ok u /\
    (u = [] \/ exists t c, u = t ++ [c] /\ isspace c = false).
Proof.
  destruct (_get_cmd_syntax (py "open")
              (example_cmd "open" false false [normal] all_descs)
              example_heap) as [[u|e] h1] eqn:E.
  - destruct (cmd_syntax_stripped _ _ _ _ _ E)
      as (_ & _ & _ & _ & _ & _ & _ & _ & _ & _ & Hend).
    exists u. split; [reflexivity | exact Hend].
  - apply (f_equal fst) in E. vm_compute in E. discriminate E.
Defined.

(** A library whose methods raise. *)
Definition FailingArgparse : Argparse :=
  {| MutexGroup := unit;
     HelpFormatter_format_actions_usage := fun _ _ _ =>
       Raise (ValueError (py "empty group"));
     format_usage := fun p h => (Raise (ValueError (py "empty group")), h) |}.

Lemma patches_stay_on_error_witness :
  let run := _format_actions_usage (H := FailingArgparse) [1%positive] []
               example_heap in
  fst run = Raise (ValueError (py "empty group")) /\
  option_strings (actions (snd run) 1%positive) = [py "*--tab*"; py "*-t*"].
Proof.
  intros run.
  destruct (patches_stay_on_error (H0 := FailingArgparse)) as [P _].
  destruct (P [1%positive] [] example_heap) as (hp & Hin & _ & Hraise).
  { apply (bool_decide_unpack _); vm_compute; exact I. }
  subst run. rewrite (Hraise _ eq_refl). split; [reflexivity|].
  cbn [snd]. rewrite Hin by left. run.
Defined.

(** Python 3.8 with a library method that fails. *)
Definition Python38 : UsageHooks.FormatterEnv :=
  {| UsageHooks.version_ge_3_9 := false;
     UsageHooks.HelpFormatter_format_args := fun _ _ =>
       Raise (ValueError (py "length of metavar tuple does not match nargs"));
     UsageHooks.arg_name := fun s => s |}.
Existing Instance Python38.

Lemma metavar_formatter_broadcasts_witness :
  length (UsageHooks._metavar_formatter parser_action (py "CMD") 3) = 3%nat /\
  _get_action_metavar parser_action (NargsInt 3)
  = Ok (py "'CMD' 'CMD' 'CMD'").
Proof.
  destruct (metavar_formatter_broadcasts parser_action (py "CMD") 3)
    as (P1 & _ & _ & P4).
  split; [exact P1|]. rewrite (P4 (py "CMD") eq_refl). run.
Defined.

Lemma format_args_assertion_holds_witness :
  UsageHooks._format_args url_action (py "url")
  = UsageHooks.Returned (py "['url' ...]").
Proof.
  destruct (format_args_assertion_holds url_action (py "url"))
    as (_ & P2 & _).
  rewrite (P2 eq_refl eq_refl). run.
Defined.

Lemma replace_comma_escapes_witness :
  length (SettingsDoc.replace_comma (py "List of String, or String"))
  = 29%nat.
Proof.
  rewrite (proj2 (proj2 (replace_comma_escapes
                           (py "List of String, or String")))).
  run.
Defined.

(** A checkout whose git calls answered, one without the git program, and
    one whose [describe] output cannot be decoded. *)
Definition git_answers (args : list pystr) : SetupCommon.git_outcome :=
  if bool_decide (args = describe_args)
  then SetupCommon.GitStdout (ln "8e9b0cb")
  else if bool_decide (args = show_args)
  then SetupCommon.GitStdout (ln "2021-01-01 10:00:00 +0100")
  else SetupCommon.GitStdout (ln "master").

Definition Checkout : SetupCommon.Env :=
  {| SetupCommon.BASEDIR := Some (py "/src");
     SetupCommon.is_dir := fun _ => true;
     SetupCommon.run_git := fun _ => git_answers |}.

Definition NoGitProgram : SetupCommon.Env :=
  {| SetupCommon.BASEDIR := Some (py "/src");
     SetupCommon.is_dir := fun _ => true;
     SetupCommon.run_git := fun _ args =>
       if bool_decide (args = describe_args)
       then SetupCommon.GitStdout (ln "8e9b0cb")
       else SetupCommon.OSError |}.

Definition UndecodableOutput : SetupCommon.Env :=
  {| SetupCommon.BASEDIR := Some (py "/src");
     SetupCommon.is_dir := fun _ => true;
     SetupCommon.run_git := fun _ _ =>
       SetupCommon.OtherError
         (ValueError (py "'utf-8' codec can't decode byte")) |}.

Definition commit_id_fs : FS :=
  {[ py "/src/qutebrowser/git-commit-id" := py "old id" ]}.

Lemma write_git_file_without_git_witness :
  SetupCommon.write_git_file (H := NoGitProgram) commit_id_fs
  = (Ok tt, <[py "/src/qutebrowser/git-commit-id" := []]> commit_id_fs).
Proof.
  apply (write_git_file_without_git (H := NoGitProgram) (py "/src")
           commit_id_fs eq_refl).
  right. right. exists (ln "8e9b0cb"). split; [run|].
  left. right. left. run.
Defined.

Lemma write_git_file_with_git_witness :
  SetupCommon.write_git_file (H := Checkout) commit_id_fs
  = (Ok tt,
     <[py "/src/qutebrowser/git-commit-id" :=
         py "8e9b0cb on master (2021-01-01 10:00:00 +0100)"]> commit_id_fs).
Proof.
  destruct (write_git_file_with_git (H := Checkout) (py "/src")
              (ln "8e9b0cb") (ln "2021-01-01 10:00:00 +0100") (ln "master")
              commit_id_fs eq_refl eq_refl eq_refl eq_refl eq_refl)
    as (_ & P & _).
  rewrite (P ltac:(run)). run.
Defined.

Lemma write_git_file_other_error_witness :
  SetupCommon.write_git_file (H := UndecodableOutput) commit_id_fs
  = (Raise (ValueError (py "'utf-8' codec can't decode byte")), commit_id_fs).
Proof.
  apply (write_git_file_other_error (H := UndecodableOutput) (py "/src")
           (ValueError (py "'utf-8' codec can't decode byte")) commit_id_fs
           eq_refl eq_refl eq_refl).
  left. run.
Defined.

End FurtherRuns.
